(** * The folding controller of the editor

    A shallow embedding of [FoldingController] and of the folding editor
    actions of [src/vs/editor/contrib/folding/browser/folding.ts].

    The controller is an event-driven object: editor events, configuration
    changes, timers and promise callbacks each run one handler to completion.
    Every handler is a function on [Controller], a record of the fields of
    the class followed by the part of the environment the handlers read or
    write (the editor, the language feature registry, the store of folding
    models, the pending promise callbacks) and by the list of calls made on
    collaborators, most recent first.

    Objects compared by identity in the source (promises, folding models) are
    natural numbers drawn from one counter.

    The mouse gestures are embedded apart, with the one field they use
    passed explicitly. Left out are the reveal of the cursor, the context
    key, the validation of command arguments, and the actions that read the
    language configuration or move the cursor; none of them writes a field
    the handlers below read. *)

From Stdlib Require Import ZArith Lia Ascii DecimalString DecimalNat.
From stdpp Require Import base option list strings gmap.

(** ** Data model *)

Module Range.
Record t := mk {
  startLineNumber : Z;
  startColumn : Z;
  endLineNumber : Z;
  endColumn : Z
}.
End Range.

Definition IRange := Range.t.
Definition Selection := Range.t.

(** A JavaScript number as the folding arguments use it: a count of levels,
    or [NaN], the one number besides zero that is falsy. *)
Inductive number :=
| Num (z : Z)
| NaN.

Definition truthy (n : number) : bool :=
  match n with
  | Num z => negb (z =? 0)%Z
  | NaN => false
  end.

(** [a || b] on an optional number ([undefined] is falsy). *)
Definition or_default (a : option number) (b : number) : number :=
  match a with
  | Some n => if truthy n then n else b
  | None => b
  end.

Definition Number_MAX_VALUE : number := Num (2 ^ 1024 - 2 ^ 971).

Inductive JSError :=
| CancellationError
| Failure (message : string).

Inductive Completion (A : Type) :=
| Returned (a : A)
| Threw (e : JSError).
Arguments Returned {A} a.
Arguments Threw {A} e.

Record FoldingRegion := {
  startLineNumber : Z;
  endLineNumber : Z;
  level : nat;
  type : option string;
  isCollapsed : bool
}.

Definition FoldingRegions := list FoldingRegion.

Definition setCollapsed (newState : bool) (r : FoldingRegion) : FoldingRegion :=
  {| startLineNumber := startLineNumber r; endLineNumber := endLineNumber r;
     level := level r; type := type r; isCollapsed := newState |}.

Definition hasType (t : string) (r : FoldingRegion) : bool :=
  match type r with
  | Some t' => String.eqb t' t
  | None => false
  end.

(** Modelled from the spec: [FoldingRegions.setCollapsedAllOfType] of
    foldingRanges.ts, which is not among the sources. Every region tagged
    with the type gets the new collapse state; the result says whether a
    region carried the tag. *)
Definition setCollapsedAllOfType (t : string) (newState : bool) (rs : FoldingRegions)
  : FoldingRegions * bool :=
  (map (fun r => if hasType t r then setCollapsed newState r else r) rs,
   existsb (hasType t) rs).

(** Modelled from the spec: the entries of a [CollapseMemento]
    (foldingModel.ts is not among the sources). *)
Record CollapsedRegion := {
  startLine : Z;
  regionType : option string
}.

Definition CollapseMemento := list CollapsedRegion.

Record FoldingStateMemento := {
  collapsedRegions : option CollapseMemento;
  lineCount : option Z;
  provider : option string;
  foldedImports : option bool
}.

(** The object literal [{}]. *)
Definition emptyMemento : FoldingStateMemento :=
  {| collapsedRegions := None; lineCount := None; provider := None; foldedImports := None |}.

(** The part of [ITextModel] that stays fixed for the life of a document;
    its line count changes with edits and is kept by the editor. *)
Record TextModel := {
  uri : nat;
  languageId : string;
  isTooLargeForTokenization : bool
}.

Inductive EditorOption :=
| folding
| foldingStrategy
| showFoldingControls
| foldingHighlight
| unfoldOnClickAfterEndOfLine
| foldingImportsByDefault
| foldingMaximumRegions
| otherOption (n : nat).

Definition EditorOption_eqb (a b : EditorOption) : bool :=
  match a, b with
  | folding, folding
  | foldingStrategy, foldingStrategy
  | showFoldingControls, showFoldingControls
  | foldingHighlight, foldingHighlight
  | unfoldOnClickAfterEndOfLine, unfoldOnClickAfterEndOfLine
  | foldingImportsByDefault, foldingImportsByDefault
  | foldingMaximumRegions, foldingMaximumRegions => true
  | otherOption n, otherOption m => Nat.eqb n m
  | _, _ => false
  end.

Record EditorOptions := {
  opt_folding : bool;
  opt_foldingStrategy : string;
  opt_showFoldingControls : string;
  opt_foldingHighlight : bool;
  opt_unfoldOnClickAfterEndOfLine : bool;
  opt_foldingImportsByDefault : bool;
  opt_foldingMaximumRegions : Z
}.

(** [ConfigurationChangedEvent]: [hasChanged] is membership. *)
Definition ConfigurationChangedEvent := list EditorOption.

Definition hasChanged (e : ConfigurationChangedEvent) (o : EditorOption) : bool :=
  existsb (EditorOption_eqb o) e.

Record Editor := {
  getModel : option TextModel;
  getLineCount : Z;
  getSelections : option (list Selection);
  hiddenAreas : list IRange;
  getOptions : EditorOptions
}.

Record FoldingDecorationProvider := {
  autoHideFoldingControls : bool;
  showFoldingHighlights : bool
}.

(** Modelled from the spec: a [FoldingModel] owns one [FoldingRegions]
    snapshot and a back-reference to the document; [isInitialized] is the
    getter [saveViewState] reads. *)
Record FoldingModel := {
  textModel : TextModel;
  regions : FoldingRegions;
  isInitialized : bool
}.

(** Modelled from the spec: the hidden ranges derived from a folding model. *)
Record HiddenRangeModel := {
  hiddenRanges : list IRange
}.

(** A folding model together with the hidden range model built on it. *)
Record Models := {
  fm : FoldingModel;
  hrm : HiddenRangeModel
}.

(** One firing of [HiddenRangeModel.onDidChange]: the hidden range model as
    it is when its listeners run, and the ranges passed to them. *)
Record Emission := {
  em_hrm : HiddenRangeModel;
  em_ranges : list IRange
}.

(** What a call on a folding model or hidden range model does: the models
    afterwards, the change events fired during the call, in order, and how
    the call completed. *)
Record Outcome (A : Type) := {
  out_models : Models;
  out_events : list Emission;
  out_result : Completion A
}.
Arguments out_models {A} o.
Arguments out_events {A} o.
Arguments out_result {A} o.

(** A supplier registered with [languageFeaturesService.foldingRangeProvider]. *)
Definition FoldingRangeProvider := nat.

Inductive RangeProvider :=
| IndentRangeProvider (editorModel : TextModel) (maxFoldingRegions : Z)
| InitializingRangeProvider (editorModel : TextModel) (initialRanges : CollapseMemento)
    (timeoutTime : Z)
| SyntaxRangeProvider (editorModel : TextModel) (providers : list FoldingRangeProvider)
    (limit : Z).

(** Modelled from the spec: [Delayer] of vs/base/common/async, the debounce
    scheduler. [task] says whether a task waits for the timer. *)
Record Delayer := {
  defaultDelay : Z;
  task : bool
}.

(** The helpers of foldingModel.ts the folding actions call, with the
    arguments the action passes after the folding model. *)
Inductive FoldOperation :=
| setCollapseStateLevelsDown (doCollapse : bool) (levels : option number)
    (lineNumbers : option (list Z))
| setCollapseStateLevelsUp (doCollapse : bool) (levels : number) (lineNumbers : list Z)
| setCollapseStateUp (doCollapse : bool) (lineNumbers : list Z)
| toggleCollapseState (levels : number) (lineNumbers : list Z)
| setCollapseStateForRest (doCollapse : bool) (lineNumbers : list Z)
| setCollapseStateAtLevel (foldLevel : number) (doCollapse : bool) (lineNumbers : list Z).

Record FoldingArguments := {
  levels : option number;
  direction : option string;
  selectionLines : option (list Z)
}.

Inductive FoldingAction :=
| UnfoldAction
| UnFoldRecursivelyAction
| FoldAction
| ToggleFoldAction
| FoldRecursivelyAction
| FoldAllRegionsExceptAction
| UnfoldAllRegionsExceptAction
| FoldAllAction
| UnfoldAllAction
| FoldLevelAction (level : Z).

(** The callbacks attached with [then] to the folding model promise. *)
Inductive Continuation :=
| ApplyMementoThen (collapsedRegions : CollapseMemento)
| InvokeThen (action : FoldingAction) (args : option FoldingArguments).

(** Calls on collaborators. *)
Inductive Effect :=
| Notify (maxFoldingRegions : Z)
| OnUnexpectedError (e : JSError)
| Cancel (promise : nat)
| CancelScheduler
| DisposeProvider (p : RangeProvider)
| Compute (promise : nat) (p : RangeProvider)
| SetCollapsedAllOfType (t : string) (hasChanges : bool)
| Update (model : nat) (newRegions : FoldingRegions) (blockedLineNumbers : list Z)
| ApplyMemento (model : nat) (state : CollapseMemento)
| HiddenApplyMemento (model : nat) (state : CollapseMemento)
| AdjustSelections (selections : list Selection)
| SetSelections (selections : list Selection)
| SetHiddenAreas (ranges : list IRange)
| CaptureScrollState
| RestoreScrollState
| ReportTelemetry (action : FoldingAction)
| Run (model : nat) (op : FoldOperation)
| Reveal (lineNumber : Z).

(** ** Collaborators

    The constants and operations of files that are not among the sources:
    the provider ids, the folding range kind of imports, the debounce
    information and the methods of [FoldingModel] and [HiddenRangeModel]. *)
Class Collaborators := {
  ID_SYNTAX_PROVIDER : string;
  ID_INIT_PROVIDER : string;
  ID_INDENT_PROVIDER : string;
  FoldingRangeKind_Imports : string;
  updateDebounceInfo_get : TextModel -> Z;
  new_FoldingModel : TextModel -> FoldingModel;
  new_HiddenRangeModel : FoldingModel -> HiddenRangeModel;
  FoldingModel_update : Models -> FoldingRegions -> list Z -> Outcome unit;
  FoldingModel_applyMemento : Models -> CollapseMemento -> Outcome unit;
  FoldingModel_getMemento : FoldingModel -> option CollapseMemento;
  FoldingModel_run : FoldOperation -> Models -> Outcome unit;
  HiddenRangeModel_applyMemento :
    HiddenRangeModel -> CollapseMemento -> HiddenRangeModel * list Emission * Completion bool;
  HiddenRangeModel_getMemento : HiddenRangeModel -> CollapseMemento;
  HiddenRangeModel_adjustSelections : HiddenRangeModel -> list Selection -> list Selection * bool;
  HiddenRangeModel_notifyChangeModelContent : HiddenRangeModel -> HiddenRangeModel;
  FoldingModel_dispose : Models -> Models * list Emission;
  HiddenRangeModel_dispose : HiddenRangeModel -> HiddenRangeModel * list Emission
}.

Record Controller := {
  editor : Editor;
  _isEnabled : bool;
  _useFoldingProviders : bool;
  _unfoldOnClickAfterEndOfLine : bool;
  _restoringViewState : bool;
  _foldingImportsByDefault : bool;
  _currentModelHasFoldedImports : bool;
  _maxFoldingRegions : Z;
  _tooManyRegionsNotified : bool;
  foldingDecorationProvider : FoldingDecorationProvider;
  foldingModel : option nat;
  hiddenRangeModel : option nat;
  rangeProvider : option RangeProvider;
  foldingRegionPromise : option nat;
  foldingStateMemento : option FoldingStateMemento;
  foldingModelPromise : option nat;
  updateScheduler : option Delayer;
  localToDispose : bool;
  languageFeatures : list (string * FoldingRangeProvider);
  heap : gmap nat Models;
  computations : gmap nat nat;
  continuations : list (nat * Continuation);
  nextId : nat;
  effects : list Effect
}.

Definition set_editor (v : Editor) (s : Controller) : Controller :=
  Build_Controller v (_isEnabled s) (_useFoldingProviders s) (_unfoldOnClickAfterEndOfLine s)
    (_restoringViewState s) (_foldingImportsByDefault s) (_currentModelHasFoldedImports s)
    (_maxFoldingRegions s) (_tooManyRegionsNotified s) (foldingDecorationProvider s)
    (foldingModel s) (hiddenRangeModel s) (rangeProvider s) (foldingRegionPromise s)
    (foldingStateMemento s) (foldingModelPromise s) (updateScheduler s) (localToDispose s)
    (languageFeatures s) (heap s) (computations s) (continuations s) (nextId s) (effects s).
Definition set_isEnabled (v : bool) (s : Controller) : Controller :=
  Build_Controller (editor s) v (_useFoldingProviders s) (_unfoldOnClickAfterEndOfLine s)
    (_restoringViewState s) (_foldingImportsByDefault s) (_currentModelHasFoldedImports s)
    (_maxFoldingRegions s) (_tooManyRegionsNotified s) (foldingDecorationProvider s)
    (foldingModel s) (hiddenRangeModel s) (rangeProvider s) (foldingRegionPromise s)
    (foldingStateMemento s) (foldingModelPromise s) (updateScheduler s) (localToDispose s)
    (languageFeatures s) (heap s) (computations s) (continuations s) (nextId s) (effects s).
Definition set_useFoldingProviders (v : bool) (s : Controller) : Controller :=
  Build_Controller (editor s) (_isEnabled s) v (_unfoldOnClickAfterEndOfLine s)
    (_restoringViewState s) (_foldingImportsByDefault s) (_currentModelHasFoldedImports s)
    (_maxFoldingRegions s) (_tooManyRegionsNotified s) (foldingDecorationProvider s)
    (foldingModel s) (hiddenRangeModel s) (rangeProvider s) (foldingRegionPromise s)
    (foldingStateMemento s) (foldingModelPromise s) (updateScheduler s) (localToDispose s)
    (languageFeatures s) (heap s) (computations s) (continuations s) (nextId s) (effects s).
Definition set_unfoldOnClickAfterEndOfLine (v : bool) (s : Controller) : Controller :=
  Build_Controller (editor s) (_isEnabled s) (_useFoldingProviders s) v (_restoringViewState
    s) (_foldingImportsByDefault s) (_currentModelHasFoldedImports s) (_maxFoldingRegions s)
    (_tooManyRegionsNotified s) (foldingDecorationProvider s) (foldingModel s) (hiddenRangeModel
    s) (rangeProvider s) (foldingRegionPromise s) (foldingStateMemento s) (foldingModelPromise
    s) (updateScheduler s) (localToDispose s) (languageFeatures s) (heap s) (computations s)
    (continuations s) (nextId s) (effects s).
Definition set_restoringViewState (v : bool) (s : Controller) : Controller :=
  Build_Controller (editor s) (_isEnabled s) (_useFoldingProviders s)
    (_unfoldOnClickAfterEndOfLine s) v (_foldingImportsByDefault s)
    (_currentModelHasFoldedImports s) (_maxFoldingRegions s) (_tooManyRegionsNotified s)
    (foldingDecorationProvider s) (foldingModel s) (hiddenRangeModel s) (rangeProvider s)
    (foldingRegionPromise s) (foldingStateMemento s) (foldingModelPromise s) (updateScheduler s)
    (localToDispose s) (languageFeatures s) (heap s) (computations s) (continuations s) (nextId
    s) (effects s).
Definition set_foldingImportsByDefault (v : bool) (s : Controller) : Controller :=
  Build_Controller (editor s) (_isEnabled s) (_useFoldingProviders s)
    (_unfoldOnClickAfterEndOfLine s) (_restoringViewState s) v (_currentModelHasFoldedImports s)
    (_maxFoldingRegions s) (_tooManyRegionsNotified s) (foldingDecorationProvider s)
    (foldingModel s) (hiddenRangeModel s) (rangeProvider s) (foldingRegionPromise s)
    (foldingStateMemento s) (foldingModelPromise s) (updateScheduler s) (localToDispose s)
    (languageFeatures s) (heap s) (computations s) (continuations s) (nextId s) (effects s).
Definition set_currentModelHasFoldedImports (v : bool) (s : Controller) : Controller :=
  Build_Controller (editor s) (_isEnabled s) (_useFoldingProviders s)
    (_unfoldOnClickAfterEndOfLine s) (_restoringViewState s) (_foldingImportsByDefault s) v
    (_maxFoldingRegions s) (_tooManyRegionsNotified s) (foldingDecorationProvider s)
    (foldingModel s) (hiddenRangeModel s) (rangeProvider s) (foldingRegionPromise s)
    (foldingStateMemento s) (foldingModelPromise s) (updateScheduler s) (localToDispose s)
    (languageFeatures s) (heap s) (computations s) (continuations s) (nextId s) (effects s).
Definition set_maxFoldingRegions (v : Z) (s : Controller) : Controller :=
  Build_Controller (editor s) (_isEnabled s) (_useFoldingProviders s)
    (_unfoldOnClickAfterEndOfLine s) (_restoringViewState s) (_foldingImportsByDefault s)
    (_currentModelHasFoldedImports s) v (_tooManyRegionsNotified s) (foldingDecorationProvider
    s) (foldingModel s) (hiddenRangeModel s) (rangeProvider s) (foldingRegionPromise s)
    (foldingStateMemento s) (foldingModelPromise s) (updateScheduler s) (localToDispose s)
    (languageFeatures s) (heap s) (computations s) (continuations s) (nextId s) (effects s).
Definition set_tooManyRegionsNotified (v : bool) (s : Controller) : Controller :=
  Build_Controller (editor s) (_isEnabled s) (_useFoldingProviders s)
    (_unfoldOnClickAfterEndOfLine s) (_restoringViewState s) (_foldingImportsByDefault s)
    (_currentModelHasFoldedImports s) (_maxFoldingRegions s) v (foldingDecorationProvider s)
    (foldingModel s) (hiddenRangeModel s) (rangeProvider s) (foldingRegionPromise s)
    (foldingStateMemento s) (foldingModelPromise s) (updateScheduler s) (localToDispose s)
    (languageFeatures s) (heap s) (computations s) (continuations s) (nextId s) (effects s).
Definition set_foldingDecorationProvider (v : FoldingDecorationProvider) (s : Controller) : Controller :=
  Build_Controller (editor s) (_isEnabled s) (_useFoldingProviders s)
    (_unfoldOnClickAfterEndOfLine s) (_restoringViewState s) (_foldingImportsByDefault s)
    (_currentModelHasFoldedImports s) (_maxFoldingRegions s) (_tooManyRegionsNotified s) v
    (foldingModel s) (hiddenRangeModel s) (rangeProvider s) (foldingRegionPromise s)
    (foldingStateMemento s) (foldingModelPromise s) (updateScheduler s) (localToDispose s)
    (languageFeatures s) (heap s) (computations s) (continuations s) (nextId s) (effects s).
Definition set_foldingModel (v : option nat) (s : Controller) : Controller :=
  Build_Controller (editor s) (_isEnabled s) (_useFoldingProviders s)
    (_unfoldOnClickAfterEndOfLine s) (_restoringViewState s) (_foldingImportsByDefault s)
    (_currentModelHasFoldedImports s) (_maxFoldingRegions s) (_tooManyRegionsNotified s)
    (foldingDecorationProvider s) v (hiddenRangeModel s) (rangeProvider s) (foldingRegionPromise
    s) (foldingStateMemento s) (foldingModelPromise s) (updateScheduler s) (localToDispose s)
    (languageFeatures s) (heap s) (computations s) (continuations s) (nextId s) (effects s).
Definition set_hiddenRangeModel (v : option nat) (s : Controller) : Controller :=
  Build_Controller (editor s) (_isEnabled s) (_useFoldingProviders s)
    (_unfoldOnClickAfterEndOfLine s) (_restoringViewState s) (_foldingImportsByDefault s)
    (_currentModelHasFoldedImports s) (_maxFoldingRegions s) (_tooManyRegionsNotified s)
    (foldingDecorationProvider s) (foldingModel s) v (rangeProvider s) (foldingRegionPromise s)
    (foldingStateMemento s) (foldingModelPromise s) (updateScheduler s) (localToDispose s)
    (languageFeatures s) (heap s) (computations s) (continuations s) (nextId s) (effects s).
Definition set_rangeProvider (v : option RangeProvider) (s : Controller) : Controller :=
  Build_Controller (editor s) (_isEnabled s) (_useFoldingProviders s)
    (_unfoldOnClickAfterEndOfLine s) (_restoringViewState s) (_foldingImportsByDefault s)
    (_currentModelHasFoldedImports s) (_maxFoldingRegions s) (_tooManyRegionsNotified s)
    (foldingDecorationProvider s) (foldingModel s) (hiddenRangeModel s) v (foldingRegionPromise
    s) (foldingStateMemento s) (foldingModelPromise s) (updateScheduler s) (localToDispose s)
    (languageFeatures s) (heap s) (computations s) (continuations s) (nextId s) (effects s).
Definition set_foldingRegionPromise (v : option nat) (s : Controller) : Controller :=
  Build_Controller (editor s) (_isEnabled s) (_useFoldingProviders s)
    (_unfoldOnClickAfterEndOfLine s) (_restoringViewState s) (_foldingImportsByDefault s)
    (_currentModelHasFoldedImports s) (_maxFoldingRegions s) (_tooManyRegionsNotified s)
    (foldingDecorationProvider s) (foldingModel s) (hiddenRangeModel s) (rangeProvider s) v
    (foldingStateMemento s) (foldingModelPromise s) (updateScheduler s) (localToDispose s)
    (languageFeatures s) (heap s) (computations s) (continuations s) (nextId s) (effects s).
Definition set_foldingStateMemento (v : option FoldingStateMemento) (s : Controller) : Controller :=
  Build_Controller (editor s) (_isEnabled s) (_useFoldingProviders s)
    (_unfoldOnClickAfterEndOfLine s) (_restoringViewState s) (_foldingImportsByDefault s)
    (_currentModelHasFoldedImports s) (_maxFoldingRegions s) (_tooManyRegionsNotified s)
    (foldingDecorationProvider s) (foldingModel s) (hiddenRangeModel s) (rangeProvider s)
    (foldingRegionPromise s) v (foldingModelPromise s) (updateScheduler s) (localToDispose s)
    (languageFeatures s) (heap s) (computations s) (continuations s) (nextId s) (effects s).
Definition set_foldingModelPromise (v : option nat) (s : Controller) : Controller :=
  Build_Controller (editor s) (_isEnabled s) (_useFoldingProviders s)
    (_unfoldOnClickAfterEndOfLine s) (_restoringViewState s) (_foldingImportsByDefault s)
    (_currentModelHasFoldedImports s) (_maxFoldingRegions s) (_tooManyRegionsNotified s)
    (foldingDecorationProvider s) (foldingModel s) (hiddenRangeModel s) (rangeProvider s)
    (foldingRegionPromise s) (foldingStateMemento s) v (updateScheduler s) (localToDispose s)
    (languageFeatures s) (heap s) (computations s) (continuations s) (nextId s) (effects s).
Definition set_updateScheduler (v : option Delayer) (s : Controller) : Controller :=
  Build_Controller (editor s) (_isEnabled s) (_useFoldingProviders s)
    (_unfoldOnClickAfterEndOfLine s) (_restoringViewState s) (_foldingImportsByDefault s)
    (_currentModelHasFoldedImports s) (_maxFoldingRegions s) (_tooManyRegionsNotified s)
    (foldingDecorationProvider s) (foldingModel s) (hiddenRangeModel s) (rangeProvider s)
    (foldingRegionPromise s) (foldingStateMemento s) (foldingModelPromise s) v (localToDispose
    s) (languageFeatures s) (heap s) (computations s) (continuations s) (nextId s) (effects s).
Definition set_localToDispose (v : bool) (s : Controller) : Controller :=
  Build_Controller (editor s) (_isEnabled s) (_useFoldingProviders s)
    (_unfoldOnClickAfterEndOfLine s) (_restoringViewState s) (_foldingImportsByDefault s)
    (_currentModelHasFoldedImports s) (_maxFoldingRegions s) (_tooManyRegionsNotified s)
    (foldingDecorationProvider s) (foldingModel s) (hiddenRangeModel s) (rangeProvider s)
    (foldingRegionPromise s) (foldingStateMemento s) (foldingModelPromise s) (updateScheduler s)
    v (languageFeatures s) (heap s) (computations s) (continuations s) (nextId s) (effects s).
Definition set_languageFeatures (v : list (string * FoldingRangeProvider)) (s : Controller) : Controller :=
  Build_Controller (editor s) (_isEnabled s) (_useFoldingProviders s)
    (_unfoldOnClickAfterEndOfLine s) (_restoringViewState s) (_foldingImportsByDefault s)
    (_currentModelHasFoldedImports s) (_maxFoldingRegions s) (_tooManyRegionsNotified s)
    (foldingDecorationProvider s) (foldingModel s) (hiddenRangeModel s) (rangeProvider s)
    (foldingRegionPromise s) (foldingStateMemento s) (foldingModelPromise s) (updateScheduler s)
    (localToDispose s) v (heap s) (computations s) (continuations s) (nextId s) (effects s).
Definition set_heap (v : gmap nat Models) (s : Controller) : Controller :=
  Build_Controller (editor s) (_isEnabled s) (_useFoldingProviders s)
    (_unfoldOnClickAfterEndOfLine s) (_restoringViewState s) (_foldingImportsByDefault s)
    (_currentModelHasFoldedImports s) (_maxFoldingRegions s) (_tooManyRegionsNotified s)
    (foldingDecorationProvider s) (foldingModel s) (hiddenRangeModel s) (rangeProvider s)
    (foldingRegionPromise s) (foldingStateMemento s) (foldingModelPromise s) (updateScheduler s)
    (localToDispose s) (languageFeatures s) v (computations s) (continuations s) (nextId s)
    (effects s).
Definition set_computations (v : gmap nat nat) (s : Controller) : Controller :=
  Build_Controller (editor s) (_isEnabled s) (_useFoldingProviders s)
    (_unfoldOnClickAfterEndOfLine s) (_restoringViewState s) (_foldingImportsByDefault s)
    (_currentModelHasFoldedImports s) (_maxFoldingRegions s) (_tooManyRegionsNotified s)
    (foldingDecorationProvider s) (foldingModel s) (hiddenRangeModel s) (rangeProvider s)
    (foldingRegionPromise s) (foldingStateMemento s) (foldingModelPromise s) (updateScheduler s)
    (localToDispose s) (languageFeatures s) (heap s) v (continuations s) (nextId s) (effects s).
Definition set_continuations (v : list (nat * Continuation)) (s : Controller) : Controller :=
  Build_Controller (editor s) (_isEnabled s) (_useFoldingProviders s)
    (_unfoldOnClickAfterEndOfLine s) (_restoringViewState s) (_foldingImportsByDefault s)
    (_currentModelHasFoldedImports s) (_maxFoldingRegions s) (_tooManyRegionsNotified s)
    (foldingDecorationProvider s) (foldingModel s) (hiddenRangeModel s) (rangeProvider s)
    (foldingRegionPromise s) (foldingStateMemento s) (foldingModelPromise s) (updateScheduler s)
    (localToDispose s) (languageFeatures s) (heap s) (computations s) v (nextId s) (effects s).
Definition set_nextId (v : nat) (s : Controller) : Controller :=
  Build_Controller (editor s) (_isEnabled s) (_useFoldingProviders s)
    (_unfoldOnClickAfterEndOfLine s) (_restoringViewState s) (_foldingImportsByDefault s)
    (_currentModelHasFoldedImports s) (_maxFoldingRegions s) (_tooManyRegionsNotified s)
    (foldingDecorationProvider s) (foldingModel s) (hiddenRangeModel s) (rangeProvider s)
    (foldingRegionPromise s) (foldingStateMemento s) (foldingModelPromise s) (updateScheduler s)
    (localToDispose s) (languageFeatures s) (heap s) (computations s) (continuations s) v
    (effects s).
Definition set_effects (v : list Effect) (s : Controller) : Controller :=
  Build_Controller (editor s) (_isEnabled s) (_useFoldingProviders s)
    (_unfoldOnClickAfterEndOfLine s) (_restoringViewState s) (_foldingImportsByDefault s)
    (_currentModelHasFoldedImports s) (_maxFoldingRegions s) (_tooManyRegionsNotified s)
    (foldingDecorationProvider s) (foldingModel s) (hiddenRangeModel s) (rangeProvider s)
    (foldingRegionPromise s) (foldingStateMemento s) (foldingModelPromise s) (updateScheduler s)
    (localToDispose s) (languageFeatures s) (heap s) (computations s) (continuations s) (nextId
    s) v.

(** ** The controller *)

Section FoldingController.
Context `{Collaborators}.

Definition emit (e : Effect) (s : Controller) : Controller :=
  set_effects (e :: effects s) s.

Definition RangeProvider_id (p : RangeProvider) : string :=
  match p with
  | IndentRangeProvider _ _ => ID_INDENT_PROVIDER
  | InitializingRangeProvider _ _ _ => ID_INIT_PROVIDER
  | SyntaxRangeProvider _ _ _ => ID_SYNTAX_PROVIDER
  end.

(** The objects behind [this.foldingModel] and [this.hiddenRangeModel]. A
    reference the controller holds was stored by [onModelChanged] together
    with its object; a reference without an object reads as [null]. *)
Definition foldingModelObject (s : Controller) : option FoldingModel :=
  k ← foldingModel s; fm <$> heap s !! k.

Definition hiddenRangeModelObject (s : Controller) : option HiddenRangeModel :=
  k ← hiddenRangeModel s; hrm <$> heap s !! k.

Definition editor_setSelections (selections : list Selection) (ed : Editor) : Editor :=
  {| getModel := getModel ed; getLineCount := getLineCount ed;
     getSelections := Some selections; hiddenAreas := hiddenAreas ed;
     getOptions := getOptions ed |}.

Definition editor_setHiddenAreas (ranges : list IRange) (ed : Editor) : Editor :=
  {| getModel := getModel ed; getLineCount := getLineCount ed;
     getSelections := getSelections ed; hiddenAreas := ranges;
     getOptions := getOptions ed |}.

Definition editor_setModel (model : option TextModel) (n : Z) (ed : Editor) : Editor :=
  {| getModel := model; getLineCount := n;
     getSelections := getSelections ed; hiddenAreas := hiddenAreas ed;
     getOptions := getOptions ed |}.

Definition editor_setLineCount (n : Z) (ed : Editor) : Editor :=
  {| getModel := getModel ed; getLineCount := n;
     getSelections := getSelections ed; hiddenAreas := hiddenAreas ed;
     getOptions := getOptions ed |}.

Definition editor_setOptions (options : EditorOptions) (ed : Editor) : Editor :=
  {| getModel := getModel ed; getLineCount := getLineCount ed;
     getSelections := getSelections ed; hiddenAreas := hiddenAreas ed;
     getOptions := options |}.

(** [this._notifyTooManyRegions], the callback handed to every
    [provider.compute]. *)
Definition _notifyTooManyRegions (maxFoldingRegions : Z) (s : Controller) : Controller :=
  if negb (_tooManyRegionsNotified s)
  then set_tooManyRegionsNotified true (emit (Notify maxFoldingRegions) s)
  else s.

Definition onHiddenRangesChanges (hiddenRanges : list IRange) (s : Controller) : Controller :=
  let s :=
    match hiddenRangeModelObject s with
    | Some h =>
        if negb (bool_decide (hiddenRanges = [])) && negb (_restoringViewState s) then
          match getSelections (editor s) with
          | Some selections =>
              let '(adjusted, changed) := HiddenRangeModel_adjustSelections h selections in
              let s := emit (AdjustSelections selections) s in
              if changed
              then emit (SetSelections adjusted)
                     (set_editor (editor_setSelections adjusted (editor s)) s)
              else s
          | None => s
          end
        else s
    | None => s
    end in
  emit (SetHiddenAreas hiddenRanges)
    (set_editor (editor_setHiddenAreas hiddenRanges (editor s)) s).

(** One change event of the hidden range model of folding model [k]. The
    controller listens to the hidden range model it holds; the listener is
    removed when the per-document bundle is disposed. *)
Definition fire (k : nat) (m : FoldingModel) (e : Emission) (s : Controller) : Controller :=
  let s := set_heap (<[k := {| fm := m; hrm := em_hrm e |}]> (heap s)) s in
  if bool_decide (hiddenRangeModel s = Some k)
  then onHiddenRangesChanges (em_ranges e) s
  else s.

(** The state after a call on the models of [k]: its change events reach
    the listener one by one, then the models are as the call leaves them. *)
Definition settle {A : Type} (k : nat) (o : Outcome A) (s : Controller) : Controller :=
  let s := foldl (fun s e => fire k (fm (out_models o)) e s) s (out_events o) in
  set_heap (<[k := out_models o]> (heap s)) s.

Definition cancelFoldingRegionPromise (s : Controller) : Controller :=
  match foldingRegionPromise s with
  | Some p => set_foldingRegionPromise None (emit (Cancel p) s)
  | None => s
  end.

Definition disposeRangeProvider (s : Controller) : Controller :=
  match rangeProvider s with
  | Some p => emit (DisposeProvider p) s
  | None => s
  end.

(** The disposable [onModelChanged] adds last to [localToDispose]. *)
Definition disposeLocal (s : Controller) : Controller :=
  let s := cancelFoldingRegionPromise s in
  let s := match updateScheduler s with
           | Some _ => emit CancelScheduler s
           | None => s
           end in
  let s := set_updateScheduler None s in
  let s := set_foldingModel None s in
  let s := set_foldingModelPromise None s in
  let s := set_hiddenRangeModel None s in
  let s := set_foldingStateMemento None s in
  let s := disposeRangeProvider s in
  set_rangeProvider None s.

(** The two disposables [onModelChanged] adds first to [localToDispose]:
    the folding model, then the hidden range model. They are disposed in
    this order and before the listener of hidden range changes is removed,
    so what they fire while they are disposed still reaches
    [onHiddenRangesChanges]. The fields still name the two models: only the
    last disposable resets them. *)
Definition disposeModels (s : Controller) : Controller :=
  let s :=
    match foldingModel s with
    | Some k =>
        match heap s !! k with
        | Some mp =>
            let '(models, events) := FoldingModel_dispose mp in
            settle k {| out_models := models; out_events := events;
                        out_result := Returned tt |} s
        | None => s
        end
    | None => s
    end in
  match hiddenRangeModel s with
  | Some k =>
      match heap s !! k with
      | Some mp =>
          let '(h, events) := HiddenRangeModel_dispose (hrm mp) in
          settle k {| out_models := {| fm := fm mp; hrm := h |}; out_events := events;
                      out_result := Returned tt |} s
      | None => s
      end
  | None => s
  end.

(** [this.localToDispose.clear()]: [localToDispose] says whether the
    per-document bundle (models, listeners, schedulers) is registered. The
    disposables run in the order they were added: the models, the listeners
    and the cursor scheduler, whose removal changes no field, and the
    disposable added last. *)
Definition localToDispose_clear (s : Controller) : Controller :=
  if localToDispose s
  then set_localToDispose false (disposeLocal (disposeModels s))
  else s.

Definition Delayer_trigger (d : Delayer) : Delayer :=
  {| defaultDelay := defaultDelay d; task := true |}.

Definition triggerFoldingModelChanged (s : Controller) : Controller :=
  match updateScheduler s with
  | Some d =>
      let s := cancelFoldingRegionPromise s in
      let s := set_updateScheduler (Some (Delayer_trigger d)) s in
      let p := nextId s in
      set_foldingModelPromise (Some p) (set_nextId (S p) s)
  | None => s
  end.

Definition onFoldingStrategyChanged (s : Controller) : Controller :=
  let s := disposeRangeProvider s in
  let s := set_rangeProvider None s in
  triggerFoldingModelChanged s.

Definition onModelChanged (s : Controller) : Controller :=
  let s := localToDispose_clear s in
  match getModel (editor s) with
  | Some model =>
      if negb (_isEnabled s) || isTooLargeForTokenization model then s
      else
        let s := set_currentModelHasFoldedImports false s in
        let k := nextId s in
        let s := set_nextId (S k) s in
        let m := new_FoldingModel model in
        let s := set_heap (<[k := {| fm := m; hrm := new_HiddenRangeModel m |}]> (heap s)) s in
        let s := set_foldingModel (Some k) s in
        let s := set_hiddenRangeModel (Some k) s in
        let s := set_updateScheduler
                   (Some {| defaultDelay := updateDebounceInfo_get model; task := false |}) s in
        let s := set_localToDispose true s in
        triggerFoldingModelChanged s
  | None => s
  end.

(** [languageFeaturesService.foldingRangeProvider.ordered(model)]: the
    suppliers registered for the language of the document, in order. *)
Definition ordered (s : Controller) (model : TextModel) : list FoldingRangeProvider :=
  map snd (List.filter (fun r => String.eqb (fst r) (languageId model)) (languageFeatures s)).

Definition getRangeProvider (editorModel : TextModel) (s : Controller)
  : RangeProvider * Controller :=
  match rangeProvider s with
  | Some p => (p, s)
  | None =>
      let fallback := IndentRangeProvider editorModel (_maxFoldingRegions s) in
      let s := set_rangeProvider (Some fallback) s in
      match (if _useFoldingProviders s then foldingModelObject s else None) with
      | Some m =>
          let foldingProviders := ordered s (textModel m) in
          match foldingProviders, foldingStateMemento s ≫= collapsedRegions with
          | [], Some initialRanges =>
              let p := InitializingRangeProvider editorModel initialRanges 30000 in
              (p, set_rangeProvider (Some p) s)
          | [], None => (fallback, set_foldingStateMemento None s)
          | _ :: _, _ =>
              let p := SyntaxRangeProvider editorModel foldingProviders
                         (_maxFoldingRegions s) in
              (p, set_foldingStateMemento None (set_rangeProvider (Some p) s))
          end
      | None => (fallback, set_foldingStateMemento None s)
      end
  end.

(** The timeout callback given to the [InitializingRangeProvider]. *)
Definition onInitializingTimeout (s : Controller) : Controller :=
  onFoldingStrategyChanged (set_foldingStateMemento None s).

Definition getFoldingModel (s : Controller) : option nat := foldingModelPromise s.

Definition onDidChangeModelContent (s : Controller) : Controller :=
  let s :=
    match hiddenRangeModel s with
    | Some k =>
        match heap s !! k with
        | Some mp =>
            set_heap (<[k := {| fm := fm mp;
                                hrm := HiddenRangeModel_notifyChangeModelContent (hrm mp) |}]>
                        (heap s)) s
        | None => s
        end
    | None => s
    end in
  triggerFoldingModelChanged s.

(** The task given to [updateScheduler.trigger], up to the point where it
    returns the promise of the folding ranges. The promise is a fresh object;
    [computations] keeps the folding model its callback closes over. *)
Definition task_body (s : Controller) : Controller :=
  match foldingModel s with
  | Some k =>
      match heap s !! k with
      | Some mp =>
          let '(provider, s) := getRangeProvider (textModel (fm mp)) s in
          let p := nextId s in
          let s := set_nextId (S p) s in
          let s := emit (Compute p provider) s in
          let s := set_computations (<[p := k]> (computations s)) s in
          set_foldingRegionPromise (Some p) s
      | None => s
      end
  | None => s
  end.

(** The timer of the [Delayer] elapses: the waiting task runs once. *)
Definition Delayer_timeout (s : Controller) : Controller :=
  match updateScheduler s with
  | Some d =>
      if task d
      then task_body (set_updateScheduler (Some {| defaultDelay := defaultDelay d; task := false |}) s)
      else s
  | None => s
  end.

Definition selectionLineNumbers (ed : Editor) : list Z :=
  match getSelections ed with
  | Some selections => map Range.startLineNumber selections
  | None => []
  end.

(** The import folding step of the callback: the ranges to hand on, whether
    a scroll state was captured, and the controller. *)
Definition foldImports (foldingRanges : FoldingRegions) (s : Controller)
  : FoldingRegions * bool * Controller :=
  if _foldingImportsByDefault s && negb (_currentModelHasFoldedImports s) then
    let '(folded, hasChanges) :=
      setCollapsedAllOfType FoldingRangeKind_Imports true foldingRanges in
    let s := emit (SetCollapsedAllOfType FoldingRangeKind_Imports hasChanges) s in
    if hasChanges
    then (folded, true, set_currentModelHasFoldedImports hasChanges (emit CaptureScrollState s))
    else (folded, false, s)
  else (foldingRanges, false, s).

(** The callback [foldingRegionPromise.then(foldingRanges => ...)] of the
    promise [p], run with the value the promise resolved to. [newValue] is
    what [updateDebounceInfo.update] returns for the elapsed time. A promise
    runs its callback once. A failure inside the callback reaches the error
    handler attached to the scheduler's promise. *)
Definition onFoldingRanges (p : nat) (foldingRanges : option FoldingRegions) (newValue : Z)
    (s : Controller) : Controller :=
  match computations s !! p with
  | Some k =>
      let s := set_computations (delete p (computations s)) s in
      match foldingRanges with
      | Some foldingRanges =>
          if bool_decide (foldingRegionPromise s = Some p) then
            let '(foldingRanges, scrollState, s) := foldImports foldingRanges s in
            let lines := selectionLineNumbers (editor s) in
            match heap s !! k with
            | Some mp =>
                let o := FoldingModel_update mp foldingRanges lines in
                let s := settle k o (emit (Update k foldingRanges lines) s) in
                match out_result o with
                | Returned _ =>
                    let s := if scrollState : bool then emit RestoreScrollState s else s in
                    match updateScheduler s with
                    | Some d =>
                        set_updateScheduler
                          (Some {| defaultDelay := newValue; task := task d |}) s
                    | None => s
                    end
                | Threw e => emit (OnUnexpectedError e) s
                end
            | None => s
            end
          else s
      | None => s
      end
  | None => s
  end.

(** The promise [p] rejects: the handler attached to the scheduler's promise
    reports the error and resolves the folding model promise to [null]. *)
Definition onFoldingRangesRejected (p : nat) (err : JSError) (s : Controller) : Controller :=
  match computations s !! p with
  | Some _ => emit (OnUnexpectedError err) (set_computations (delete p (computations s)) s)
  | None => s
  end.

Definition saveViewState (s : Controller) : Completion (option FoldingStateMemento) :=
  match getModel (editor s) with
  | Some model =>
      if negb (_isEnabled s) || isTooLargeForTokenization model then Returned (Some emptyMemento)
      else
        match foldingModel s with
        | Some k =>
            match heap s !! k with
            | Some mp =>
                let collapsed :=
                  if isInitialized (fm mp) then Returned (FoldingModel_getMemento (fm mp))
                  else match hiddenRangeModelObject s with
                       | Some h => Returned (Some (HiddenRangeModel_getMemento h))
                       | None => Threw (Failure "hiddenRangeModel is null")
                       end in
                match collapsed with
                | Returned collapsed =>
                    Returned (Some {| collapsedRegions := collapsed;
                                      lineCount := Some (getLineCount (editor s));
                                      provider := RangeProvider_id <$> rangeProvider s;
                                      foldedImports := Some (_currentModelHasFoldedImports s) |})
                | Threw e => Threw e
                end
            | None => Returned None
            end
        | None => Returned None
        end
  | None => Returned (Some emptyMemento)
  end.

Definition then_ (d : nat) (k : Continuation) (s : Controller) : Controller :=
  set_continuations (continuations s ++ [(d, k)]) s.

Definition restoreViewState (state : option FoldingStateMemento) (s : Controller)
  : Controller * Completion unit :=
  match getModel (editor s), hiddenRangeModel s with
  | Some model, Some k =>
      if negb (_isEnabled s) || isTooLargeForTokenization model then (s, Returned tt)
      else
        match state with
        | Some state =>
            if bool_decide (lineCount state = Some (getLineCount (editor s))) then
              let s := set_currentModelHasFoldedImports (default false (foldedImports state)) s in
              match collapsedRegions state with
              | Some collapsed =>
                  let s :=
                    if bool_decide (provider state = Some ID_SYNTAX_PROVIDER)
                       || bool_decide (provider state = Some ID_INIT_PROVIDER)
                    then set_foldingStateMemento (Some state) s
                    else s in
                  match heap s !! k with
                  | Some mp =>
                      let '(h, events, result) :=
                        HiddenRangeModel_applyMemento (hrm mp) collapsed in
                      let o := {| out_models := {| fm := fm mp; hrm := h |};
                                  out_events := events; out_result := result |} in
                      let s := settle k o (emit (HiddenApplyMemento k collapsed) s) in
                      match out_result o with
                      | Returned true =>
                          match getFoldingModel s with
                          | Some d => (then_ d (ApplyMementoThen collapsed) s, Returned tt)
                          | None => (s, Returned tt)
                          end
                      | Returned false => (s, Returned tt)
                      | Threw e => (s, Threw e)
                      end
                  | None => (s, Returned tt)
                  end
              | None => (s, Returned tt)
              end
            else (s, Returned tt)
        | None => (s, Returned tt)
        end
  | _, _ => (s, Returned tt)
  end.

(** The callback [restoreViewState] attaches to the folding model promise,
    run with the value the promise resolved to. *)
Definition applyMementoThen (collapsed : CollapseMemento) (value : option nat)
    (s : Controller) : Controller :=
  match value with
  | Some k =>
      match heap s !! k with
      | Some mp =>
          let s := set_restoringViewState true s in
          let o := FoldingModel_applyMemento mp collapsed in
          let s := settle k o (emit (ApplyMemento k collapsed) s) in
          let s := set_restoringViewState false s in
          match out_result o with
          | Returned _ => s
          | Threw e => emit (OnUnexpectedError e) s
          end
      | None => s
      end
  | None => s
  end.

(** ** The folding actions *)

Definition getSelectedLines (ed : Editor) : list Z :=
  match getSelections ed with
  | Some selections => map Range.startLineNumber selections
  | None => []
  end.

Definition getLineNumbers (args : option FoldingArguments) (ed : Editor) : list Z :=
  match args ≫= selectionLines with
  | Some l => map (fun n => (n + 1)%Z) l
  | None => getSelectedLines ed
  end.

(** [invoke] of each action: the helper it calls on the folding model. *)
Definition invoke (action : FoldingAction) (ed : Editor) (args : option FoldingArguments)
  : FoldOperation :=
  match action with
  | UnfoldAction =>
      let levels := or_default (args ≫= levels) (Num 1) in
      let lineNumbers := getLineNumbers args ed in
      if bool_decide (args ≫= direction = Some "up")
      then setCollapseStateLevelsUp false levels lineNumbers
      else setCollapseStateLevelsDown false (Some levels) (Some lineNumbers)
  | UnFoldRecursivelyAction =>
      setCollapseStateLevelsDown false (Some Number_MAX_VALUE) (Some (getSelectedLines ed))
  | FoldAction =>
      let lineNumbers := getLineNumbers args ed in
      let levels := args ≫= levels in
      let direction := args ≫= direction in
      match levels, direction with
      | None, None => setCollapseStateUp true lineNumbers
      | _, _ =>
          if bool_decide (direction = Some "up")
          then setCollapseStateLevelsUp true (or_default levels (Num 1)) lineNumbers
          else setCollapseStateLevelsDown true (Some (or_default levels (Num 1)))
                 (Some lineNumbers)
      end
  | ToggleFoldAction => toggleCollapseState (Num 1) (getSelectedLines ed)
  | FoldRecursivelyAction =>
      setCollapseStateLevelsDown true (Some Number_MAX_VALUE) (Some (getSelectedLines ed))
  | FoldAllRegionsExceptAction => setCollapseStateForRest true (getSelectedLines ed)
  | UnfoldAllRegionsExceptAction => setCollapseStateForRest false (getSelectedLines ed)
  | FoldAllAction => setCollapseStateLevelsDown true None None
  | UnfoldAllAction => setCollapseStateLevelsDown false None None
  | FoldLevelAction n => setCollapseStateAtLevel (Num n) true (getSelectedLines ed)
  end.

(** [FoldingAction.runEditorCommand]; [c] is [FoldingController.get(editor)]. *)
Definition runEditorCommand (action : FoldingAction) (args : option FoldingArguments)
    (c : option Controller) : option Controller :=
  match c with
  | Some s =>
      match getFoldingModel s with
      | Some d => Some (then_ d (InvokeThen action args) (emit (ReportTelemetry action) s))
      | None => Some s
      end
  | None => None
  end.

(** The callback [runEditorCommand] attaches to the folding model promise. *)
Definition invokeThen (action : FoldingAction) (args : option FoldingArguments)
    (value : option nat) (s : Controller) : Controller :=
  match value with
  | Some k =>
      match heap s !! k with
      | Some mp =>
          let op := invoke action (editor s) args in
          let o := FoldingModel_run op mp in
          let s := settle k o (emit (Run k op) s) in
          match out_result o, getSelections (editor s) with
          | Returned _, Some (selection :: _) =>
              emit (Reveal (Range.startLineNumber selection)) s
          | _, _ => s
          end
      | None => s
      end
  | None => s
  end.

Definition runContinuation (k : Continuation) (value : option nat) (s : Controller)
  : Controller :=
  match k with
  | ApplyMementoThen collapsed => applyMementoThen collapsed value s
  | InvokeThen action args => invokeThen action args value s
  end.

(** The folding model promise [d] resolves to [value]: the callbacks attached
    to it run in the order they were attached. *)
Definition onFoldingModelPromise (d : nat) (value : option nat) (s : Controller)
  : Controller :=
  let ready := List.filter (fun c => Nat.eqb (fst c) d) (continuations s) in
  let s := set_continuations
             (List.filter (fun c => negb (Nat.eqb (fst c) d)) (continuations s)) s in
  foldl (fun s c => runContinuation (snd c) value s) s ready.

(** ** Configuration and construction *)

Definition onDidChangeConfiguration (e : ConfigurationChangedEvent) (s : Controller)
  : Controller :=
  let s :=
    if hasChanged e folding
    then onModelChanged (set_isEnabled (opt_folding (getOptions (editor s))) s)
    else s in
  let s :=
    if hasChanged e foldingMaximumRegions
    then
      let s := set_maxFoldingRegions (opt_foldingMaximumRegions (getOptions (editor s))) s in
      let s := set_tooManyRegionsNotified false s in
      onModelChanged s
    else s in
  let s :=
    if hasChanged e showFoldingControls || hasChanged e foldingHighlight
    then
      let options := getOptions (editor s) in
      let s := set_foldingDecorationProvider
                 {| autoHideFoldingControls :=
                      String.eqb (opt_showFoldingControls options) "mouseover";
                    showFoldingHighlights := opt_foldingHighlight options |} s in
      triggerFoldingModelChanged s
    else s in
  let s :=
    if hasChanged e foldingStrategy
    then
      let s := set_useFoldingProviders
                 (negb (String.eqb (opt_foldingStrategy (getOptions (editor s)))
                          "indentation")) s in
      onFoldingStrategyChanged s
    else s in
  let s :=
    if hasChanged e unfoldOnClickAfterEndOfLine
    then set_unfoldOnClickAfterEndOfLine
           (opt_unfoldOnClickAfterEndOfLine (getOptions (editor s))) s
    else s in
  if hasChanged e foldingImportsByDefault
  then set_foldingImportsByDefault (opt_foldingImportsByDefault (getOptions (editor s))) s
  else s.

Definition constructor (ed : Editor) (registry : list (string * FoldingRangeProvider))
  : Controller :=
  let options := getOptions ed in
  onModelChanged
    {| editor := ed;
       _isEnabled := opt_folding options;
       _useFoldingProviders := negb (String.eqb (opt_foldingStrategy options) "indentation");
       _unfoldOnClickAfterEndOfLine := opt_unfoldOnClickAfterEndOfLine options;
       _restoringViewState := false;
       _foldingImportsByDefault := opt_foldingImportsByDefault options;
       _currentModelHasFoldedImports := false;
       _maxFoldingRegions := opt_foldingMaximumRegions options;
       _tooManyRegionsNotified := false;
       foldingDecorationProvider :=
         {| autoHideFoldingControls :=
              String.eqb (opt_showFoldingControls options) "mouseover";
            showFoldingHighlights := opt_foldingHighlight options |};
       foldingModel := None;
       hiddenRangeModel := None;
       rangeProvider := None;
       foldingRegionPromise := None;
       foldingStateMemento := None;
       foldingModelPromise := None;
       updateScheduler := None;
       localToDispose := false;
       languageFeatures := registry;
       heap := ∅;
       computations := ∅;
       continuations := [];
       nextId := 0;
       effects := [] |}.

(** ** Events

    What can happen to a controller once it is constructed: the editor and
    the registry fire an event, a timer elapses, a promise settles, or a
    public method is called. Listeners of the per-document bundle only run
    while the bundle is registered; the callbacks of a range provider only
    while the controller holds that provider. *)
Inductive Event :=
| DidChangeModel (model : option TextModel) (lines : Z)
| DidChangeConfiguration (e : ConfigurationChangedEvent) (options : EditorOptions)
| DidChangeFoldingRangeProviders (registry : list (string * FoldingRangeProvider))
| DidChangeModelLanguageConfiguration
| DidChangeModelContent (lines : Z)
| DidChangeCursorSelection (selections : list Selection)
| SchedulerTimeout
| FoldingRangesResolved (p : nat) (foldingRanges : option FoldingRegions) (newValue : Z)
| FoldingRangesRejected (p : nat) (err : JSError)
| FoldingModelPromiseResolved (d : nat) (value : option nat)
| InitializingProviderTimeout
| SyntaxProviderDidChange
| TooManyRegions (maxFoldingRegions : Z)
| RestoreViewState (state : option FoldingStateMemento)
| RunEditorCommand (action : FoldingAction) (args : option FoldingArguments).

Definition step (s : Controller) (ev : Event) : Controller :=
  match ev with
  | DidChangeModel model lines =>
      onModelChanged (set_editor (editor_setModel model lines (editor s)) s)
  | DidChangeConfiguration e options =>
      onDidChangeConfiguration e (set_editor (editor_setOptions options (editor s)) s)
  | DidChangeFoldingRangeProviders registry =>
      let s := set_languageFeatures registry s in
      if localToDispose s then onFoldingStrategyChanged s else s
  | DidChangeModelLanguageConfiguration =>
      if localToDispose s then onFoldingStrategyChanged s else s
  | DidChangeModelContent lines =>
      let s := set_editor (editor_setLineCount lines (editor s)) s in
      if localToDispose s then onDidChangeModelContent s else s
  | DidChangeCursorSelection selections =>
      set_editor (editor_setSelections selections (editor s)) s
  | SchedulerTimeout => Delayer_timeout s
  | FoldingRangesResolved p foldingRanges newValue => onFoldingRanges p foldingRanges newValue s
  | FoldingRangesRejected p err => onFoldingRangesRejected p err s
  | FoldingModelPromiseResolved d value => onFoldingModelPromise d value s
  | InitializingProviderTimeout =>
      match rangeProvider s with
      | Some (InitializingRangeProvider _ _ _) => onInitializingTimeout s
      | _ => s
      end
  | SyntaxProviderDidChange =>
      match rangeProvider s with
      | Some (SyntaxRangeProvider _ _ _) => triggerFoldingModelChanged s
      | _ => s
      end
  | TooManyRegions maxFoldingRegions => _notifyTooManyRegions maxFoldingRegions s
  | RestoreViewState state => fst (restoreViewState state s)
  | RunEditorCommand action args => default s (runEditorCommand action args (Some s))
  end.

Definition run (s : Controller) (evs : list Event) : Controller := foldl step s evs.

(** ** Observations *)

Definition cancelled (p : nat) (s : Controller) : Prop := Cancel p ∈ effects s.

(** A computation is outstanding when its promise was created, its callback
    has not run and it was not cancelled. *)
Definition outstanding (p : nat) (s : Controller) : Prop :=
  is_Some (computations s !! p) ∧ ¬ cancelled p s.

Definition isNotify (e : Effect) : bool :=
  match e with
  | Notify _ => true
  | _ => false
  end.

Definition notifications (s : Controller) : nat := length (List.filter isNotify (effects s)).

Definition touchesSelections (e : Effect) : bool :=
  match e with
  | AdjustSelections _ | SetSelections _ => true
  | _ => false
  end.

Definition selectionCalls (s : Controller) : nat :=
  length (List.filter touchesSelections (effects s)).

(** No document, folding disabled, or a document too large for tokenization. *)
Definition unavailable (s : Controller) : bool :=
  match getModel (editor s) with
  | Some model => negb (_isEnabled s) || isTooLargeForTokenization model
  | None => true
  end.

(** ** The claim on folding imports, as the specification states it *)

Definition changesDocument (ev : Event) : bool :=
  match ev with
  | DidChangeModel _ _ => true
  | _ => false
  end.

Definition collapsesImports (e : Effect) : bool :=
  match e with
  | SetCollapsedAllOfType _ true => true
  | _ => false
  end.

(** The computations so far whose folding of imports collapsed a region. *)
Definition importCollapses (s : Controller) : nat :=
  length (List.filter collapsesImports (effects s)).

(** Imports are auto-collapsed at most once per document: while the
    document stays the same, at most one computation collapses them. *)
Definition imports_folded_once_per_document : Prop :=
  ∀ (ed : Editor) (registry : list (string * FoldingRangeProvider)) (evs : list Event),
    forallb (fun ev => negb (changesDocument ev)) evs = true ->
    importCollapses (run (constructor ed registry) evs) ≤ 1.

(** ** The claim on the restoring flag, as the specification states it *)

(** While [restoreViewState] applies a collapse memento the restoring flag
    is set, and a change event handled with the flag set touches no
    selection: a call of [restoreViewState] neither adjusts nor sets the
    selections of the editor. *)
Definition selections_kept_while_restoring : Prop :=
  ∀ (ed : Editor) (registry : list (string * FoldingRangeProvider)) (evs : list Event)
    (state : option FoldingStateMemento),
    selectionCalls (step (run (constructor ed registry) evs) (RestoreViewState state))
    = selectionCalls (run (constructor ed registry) evs).

(** ** Predicates of the proofs *)

(** The calls the listener of hidden range changes makes on the editor. *)
Definition viewEffect (e : Effect) : bool :=
  match e with
  | AdjustSelections _ | SetSelections _ | SetHiddenAreas _ => true
  | _ => false
  end.

(** [s'] differs from [s] at most in the store, in the selections and
    hidden areas of the editor, and by calls of the listener on the editor. *)
Record only_view (s s' : Controller) : Prop := {
  view_rest : s' = set_effects (effects s') (set_editor (editor s') (set_heap (heap s') s));
  view_model : getModel (editor s') = getModel (editor s);
  view_lines : getLineCount (editor s') = getLineCount (editor s);
  view_options : getOptions (editor s') = getOptions (editor s);
  view_effects : ∃ extra, effects s' = extra ++ effects s ∧ forallb viewEffect extra = true
}.

(** Neither the once-flag nor the number of warnings raised moves. *)
Definition quiet (s s' : Controller) : Prop :=
  _tooManyRegionsNotified s' = _tooManyRegionsNotified s
  ∧ notifications s' = notifications s.

(** An event that reconfigures [foldingMaximumRegions]. *)
Definition reconfiguresMaximum (ev : Event) : bool :=
  match ev with
  | DidChangeConfiguration e _ => hasChanged e foldingMaximumRegions
  | _ => false
  end.

(** The warnings raised so far plus the one the once-flag still allows. *)
Definition budget (s : Controller) : nat :=
  notifications s + (if _tooManyRegionsNotified s then 0 else 1).

Definition isUpdate (e : Effect) : bool :=
  match e with
  | Update _ _ _ => true
  | _ => false
  end.

(** The calls of [foldingModel.update] made so far. *)
Definition updates (s : Controller) : list Effect := List.filter isUpdate (effects s).

Definition isCancel (e : Effect) : bool :=
  match e with
  | Cancel _ => true
  | _ => false
  end.

Definition cancellations (s : Controller) : list Effect := List.filter isCancel (effects s).

(** Two controllers that agree on everything the scheduling depends on:
    whether the per-document bundle is registered, the document and the
    enabled flag, the waiting task, the two promises, the callbacks that
    have not run and the promises cancelled so far. *)
Record calm (s s' : Controller) : Prop := {
  calm_bundle : localToDispose s' = localToDispose s;
  calm_model : getModel (editor s') = getModel (editor s);
  calm_enabled : _isEnabled s' = _isEnabled s;
  calm_task : task <$> updateScheduler s' = task <$> updateScheduler s;
  calm_modelPromise : foldingModelPromise s' = foldingModelPromise s;
  calm_regionPromise : foldingRegionPromise s' = foldingRegionPromise s;
  calm_computations : computations s' = computations s;
  calm_cancellations : cancellations s' = cancellations s
}.

(** What holds of the scheduling whatever the document: an unregistered
    bundle has no scheduler and no folding model promise, a registered one
    has a scheduler; a computation whose callback has not run and that was
    not cancelled is the one the controller holds; while a task waits for
    the timer no computation is held. *)
Record scheduling (s : Controller) : Prop := {
  disposed_idle :
    localToDispose s = false -> updateScheduler s = None ∧ foldingModelPromise s = None;
  outstanding_current :
    ∀ p, is_Some (computations s !! p) -> ¬ cancelled p s -> foldingRegionPromise s = Some p;
  waiting_none :
    ∀ d, updateScheduler s = Some d -> task d = true -> foldingRegionPromise s = None;
  registered_scheduler : localToDispose s = true -> is_Some (updateScheduler s)
}.

(** With it: without a document to fold the bundle is not registered. *)
Definition invariant (s : Controller) : Prop :=
  scheduling s ∧ (unavailable s = true -> localToDispose s = false).

(** An event after which folding ranges are to be computed anew while the
    per-document listeners are registered: an edit, or a change of the
    registered suppliers or of the language configuration. *)
Definition retriggers (ev : Event) : bool :=
  match ev with
  | DidChangeModelContent _ | DidChangeFoldingRangeProviders _
  | DidChangeModelLanguageConfiguration => true
  | _ => false
  end.

(** The selections of the editor, the calls that adjust or set them, and
    the restoring flag are the same. *)
Definition still (s s' : Controller) : Prop :=
  getSelections (editor s') = getSelections (editor s)
  ∧ selectionCalls s' = selectionCalls s
  ∧ _restoringViewState s' = _restoringViewState s.

Definition isImportFolding (e : Effect) : bool :=
  match e with
  | SetCollapsedAllOfType _ _ => true
  | _ => false
  end.

(** The calls of [setCollapsedAllOfType] made so far. *)
Definition importFoldings (s : Controller) : nat :=
  length (List.filter isImportFolding (effects s)).

(** Once the imports of the current model are folded they stay so and no
    further folding of imports is attempted. *)
Definition folded (s s' : Controller) : Prop :=
  _currentModelHasFoldedImports s = true ->
  _currentModelHasFoldedImports s' = true ∧ importFoldings s' = importFoldings s.

(** The events that run [onModelChanged] or [restoreViewState], the two
    places that write the flag besides the callback of a computation. *)
Definition rewritesFoldedImports (ev : Event) : bool :=
  match ev with
  | DidChangeModel _ _ | RestoreViewState _ => true
  | DidChangeConfiguration e _ => hasChanged e folding || hasChanged e foldingMaximumRegions
  | _ => false
  end.

Definition same_flag (s s' : Controller) : Prop :=
  _currentModelHasFoldedImports s' = _currentModelHasFoldedImports s.

(** ** What the controller holds

    The per-document bundle owns the two models, the scheduler, the two
    promises, the range provider and the stored memento. *)

(** The controller holds a folding model and the hidden range model built
    on it, both in the store, and a promise of the folding model. *)
Record attached (s : Controller) : Prop := {
  attached_models :
    ∃ k, foldingModel s = Some k ∧ hiddenRangeModel s = Some k ∧ is_Some (heap s !! k);
  attached_foldingModelPromise : is_Some (foldingModelPromise s)
}.

(** The controller holds nothing of a document. *)
Record detached (s : Controller) : Prop := {
  detached_foldingModel : foldingModel s = None;
  detached_hiddenRangeModel : hiddenRangeModel s = None;
  detached_foldingRegionPromise : foldingRegionPromise s = None;
  detached_foldingStateMemento : foldingStateMemento s = None;
  detached_rangeProvider : rangeProvider s = None
}.

(** The bundle is registered exactly when there is a document to fold; a
    registered bundle is attached, an unregistered one detached; the
    callback of the computation the controller holds closes over the
    folding model the controller holds. *)
Record wired (s : Controller) : Prop := {
  wired_attached : localToDispose s = true -> attached s;
  wired_detached : localToDispose s = false -> detached s;
  wired_available : unavailable s = false -> localToDispose s = true;
  wired_current :
    ∀ p k, foldingRegionPromise s = Some p -> computations s !! p = Some k ->
           foldingModel s = Some k
}.

(** From [s] to [s'] the bundle stays as it is: the same registration,
    document and models, no object leaves the store, the held computation
    is the same or dropped, and no callback is added. *)
Record kept (s s' : Controller) : Prop := {
  kept_bundle : localToDispose s' = localToDispose s;
  kept_model : getModel (editor s') = getModel (editor s);
  kept_enabled : _isEnabled s' = _isEnabled s;
  kept_foldingModel : foldingModel s' = foldingModel s;
  kept_hiddenRangeModel : hiddenRangeModel s' = hiddenRangeModel s;
  kept_heap : ∀ k, is_Some (heap s !! k) -> is_Some (heap s' !! k);
  kept_foldingModelPromise : is_Some (foldingModelPromise s) -> is_Some (foldingModelPromise s');
  kept_foldingRegionPromise :
    foldingRegionPromise s' = foldingRegionPromise s ∨ foldingRegionPromise s' = None;
  kept_computations : ∀ p k, computations s' !! p = Some k -> computations s !! p = Some k
}.

(** The provider and the stored memento are the same or dropped. *)
Definition released (s s' : Controller) : Prop :=
  (foldingStateMemento s' = foldingStateMemento s ∨ foldingStateMemento s' = None)
  ∧ (rangeProvider s' = rangeProvider s ∨ rangeProvider s' = None).

(** Nothing held is dropped silently: between [s] and [s'] calls are only
    added, a provider that is no longer held was disposed, and a
    computation that is no longer held was cancelled. *)
Definition handed (s s' : Controller) : Prop :=
  ∃ extra,
    effects s' = extra ++ effects s
    ∧ (∀ q, rangeProvider s = Some q ->
            rangeProvider s' = Some q ∨ DisposeProvider q ∈ extra)
    ∧ (∀ p, foldingRegionPromise s = Some p ->
            foldingRegionPromise s' = Some p ∨ Cancel p ∈ extra).

(** No call of [foldingModel.update] between [s] and [s']. *)
Definition unrefreshed (s s' : Controller) : Prop := updates s' = updates s.

Definition isCompute (e : Effect) : bool :=
  match e with
  | Compute _ _ => true
  | _ => false
  end.

(** The computations started so far. *)
Definition computes (s : Controller) : nat := length (List.filter isCompute (effects s)).

(** No computation is started between [s] and [s']. *)
Definition uncomputed (s s' : Controller) : Prop := computes s' = computes s.

(** The restoring flag is the same. *)
Definition unmarked (s s' : Controller) : Prop :=
  _restoringViewState s' = _restoringViewState s.

(** The document and the options of the editor and the fields that
    mirror its options are the same. *)
Record settings (s s' : Controller) : Prop := {
  settings_model : getModel (editor s') = getModel (editor s);
  settings_lines : getLineCount (editor s') = getLineCount (editor s);
  settings_options : getOptions (editor s') = getOptions (editor s);
  settings_isEnabled : _isEnabled s' = _isEnabled s;
  settings_useFoldingProviders : _useFoldingProviders s' = _useFoldingProviders s;
  settings_unfoldOnClickAfterEndOfLine :
    _unfoldOnClickAfterEndOfLine s' = _unfoldOnClickAfterEndOfLine s;
  settings_foldingImportsByDefault : _foldingImportsByDefault s' = _foldingImportsByDefault s;
  settings_maxFoldingRegions : _maxFoldingRegions s' = _maxFoldingRegions s
}.

(** The models are not rebuilt: the same references and store, and the
    flags that a rebuild resets are as before. *)
Record unbuilt (s s' : Controller) : Prop := {
  unbuilt_foldingModel : foldingModel s' = foldingModel s;
  unbuilt_hiddenRangeModel : hiddenRangeModel s' = hiddenRangeModel s;
  unbuilt_heap : heap s' = heap s;
  unbuilt_tooManyRegionsNotified : _tooManyRegionsNotified s' = _tooManyRegionsNotified s;
  unbuilt_currentModelHasFoldedImports :
    _currentModelHasFoldedImports s' = _currentModelHasFoldedImports s
}.


End FoldingController.

(** ** Mouse gestures

    [onEditorMouseDown] and [onEditorMouseUp] decide from the target of the
    mouse event whether a click toggles a region. The field
    [mouseDownInfo], which only these two handlers use, is passed
    explicitly: [onEditorMouseDown] returns its new value and
    [onEditorMouseUp] reads it. [getLineMaxColumn] is the method of that
    name of the attached document when the event fires. *)

(** The target types the handlers distinguish, and the others. *)
Inductive MouseTargetType :=
| GUTTER_LINE_DECORATIONS
| CONTENT_EMPTY
| CONTENT_TEXT
| otherTarget (n : nat).

(** [IMouseTarget], with the parts of its [detail] and [element] the
    handlers read: [detail.offsetX] and [element.offsetLeft] of a gutter
    target, [detail.isAfterLines] of an empty content target. *)
Module MouseTarget.
Record t := mk {
  type : MouseTargetType;
  range : option IRange;
  offsetX : Z;
  offsetLeft : Z;
  isAfterLines : bool
}.
End MouseTarget.

Record MouseEvent := {
  leftButton : bool;
  middleButton : bool;
  altKey : bool;
  shiftKey : bool
}.

Record EditorMouseEvent := {
  event : MouseEvent;
  target : option MouseTarget.t
}.

Record MouseDownInfo := {
  lineNumber : Z;
  iconClicked : bool
}.

(** The queries on the models the gestures make; foldingModel.ts,
    foldingRanges.ts and hiddenRangeModel.ts are not among the sources. *)
Class Queries := {
  HiddenRangeModel_hasRanges : HiddenRangeModel -> bool;
  FoldingModel_getRegionAtLine : FoldingModel -> Z -> option FoldingRegion;
  FoldingModel_getRegionsInside :
    FoldingModel -> option FoldingRegion -> option (FoldingRegion -> bool) -> list FoldingRegion;
  FoldingRegion_containedBy : FoldingRegion -> FoldingRegion -> bool
}.

Section Gestures.
Context `{Queries}.

Definition onEditorMouseDown (getLineMaxColumn : Z -> Z) (e : EditorMouseEvent)
    (s : Controller) : option MouseDownInfo :=
  match hiddenRangeModelObject s, target e with
  | Some h, Some t =>
      match MouseTarget.range t with
      | Some range =>
          if negb (leftButton (event e)) && negb (middleButton (event e)) then None
          else
            let mouseDownInfo iconClicked :=
              Some {| lineNumber := Range.startLineNumber range;
                      iconClicked := iconClicked |} in
            match MouseTarget.type t with
            | GUTTER_LINE_DECORATIONS =>
                let gutterOffsetX := (MouseTarget.offsetX t - MouseTarget.offsetLeft t)%Z in
                if (gutterOffsetX <? 5)%Z then None else mouseDownInfo true
            | CONTENT_EMPTY =>
                if _unfoldOnClickAfterEndOfLine s && HiddenRangeModel_hasRanges h
                then if negb (MouseTarget.isAfterLines t) then mouseDownInfo false else None
                else None
            | CONTENT_TEXT =>
                if HiddenRangeModel_hasRanges h then
                  match getModel (editor s) with
                  | Some _ =>
                      if (Range.startColumn range
                          =? getLineMaxColumn (Range.startLineNumber range))%Z
                      then mouseDownInfo false
                      else None
                  | None => None
                  end
                else None
            | otherTarget _ => None
            end
      | None => None
      end
  | _, _ => None
  end.

(** [onEditorMouseUp] up to the point where it attaches its callback: the
    folding model promise the callback is attached to, and the line and
    the flag it closes over. *)
Definition onEditorMouseUp (getLineMaxColumn : Z -> Z) (e : EditorMouseEvent)
    (mouseDownInfo : option MouseDownInfo) (s : Controller) : option (nat * MouseDownInfo) :=
  match getFoldingModel s, mouseDownInfo, target e with
  | Some foldingModel, Some info, Some t =>
      match MouseTarget.range t with
      | Some range =>
          if negb (Range.startLineNumber range =? lineNumber info)%Z then None
          else if iconClicked info then
            match MouseTarget.type t with
            | GUTTER_LINE_DECORATIONS => Some (foldingModel, info)
            | _ => None
            end
          else
            match getModel (editor s) with
            | Some _ =>
                if negb (Range.startColumn range =? getLineMaxColumn (lineNumber info))%Z
                then None
                else Some (foldingModel, info)
            | None => None
            end
      | None => None
      end
  | _, _, _ => None
  end.

(** The callback [onEditorMouseUp] attaches to the folding model promise,
    run with the value the promise resolved to: the regions it passes to
    [foldingModel.toggleCollapseState] and the line it reveals, or nothing
    when it makes no call. *)
Definition onEditorMouseUpThen (e : MouseEvent) (info : MouseDownInfo) (value : option nat)
    (s : Controller) : option (list FoldingRegion * Z) :=
  match value ≫= (fun k => heap s !! k) with
  | Some mp =>
      let foldingModel := fm mp in
      match FoldingModel_getRegionAtLine foldingModel (lineNumber info) with
      | Some region =>
          if (startLineNumber region =? lineNumber info)%Z then
            let collapsed := isCollapsed region in
            if iconClicked info || collapsed then
              let surrounding := altKey e in
              let toToggle :=
                if surrounding then
                  let filter otherRegion :=
                    negb (FoldingRegion_containedBy otherRegion region)
                    && negb (FoldingRegion_containedBy region otherRegion) in
                  let toMaybeToggle :=
                    FoldingModel_getRegionsInside foldingModel None (Some filter) in
                  let toToggle := List.filter isCollapsed toMaybeToggle in
                  match toToggle with
                  | [] => toMaybeToggle
                  | _ :: _ => toToggle
                  end
                else
                  let recursive := middleButton e || shiftKey e in
                  let toToggle :=
                    if recursive
                    then List.filter (fun r => Bool.eqb (isCollapsed r) collapsed)
                           (FoldingModel_getRegionsInside foldingModel (Some region) None)
                    else [] in
                  if collapsed || negb recursive || (length toToggle =? 0)
                  then toToggle ++ [region]
                  else toToggle in
              Some (toToggle, lineNumber info)
            else None
          else None
      | None => None
      end
  | None => None
  end.

End Gestures.

(** ** The ids of the fold level actions

    [FoldLevelAction.ID] appends the level to a prefix and
    [getFoldingLevel] reads it back with [parseInt]. *)

(** [String(n)] of a non-negative integer below 2^53, where the number is
    exact and printed with all its decimal digits. *)
Definition Number_toString (n : nat) : string := NilZero.string_of_uint (Nat.to_uint n).

(** [s.substr(start)]. *)
Definition substr (s : string) (start : nat) : string :=
  String.substring start (String.length s - start) s.

(** The white space [parseInt] skips, within ASCII. *)
Definition isWhiteSpace (c : ascii) : bool :=
  let n := nat_of_ascii c in
  (9 <=? n) && (n <=? 13) || (n =? 32).

Fixpoint trimStart (s : string) : string :=
  match s with
  | String c rest => if isWhiteSpace c then trimStart rest else s
  | EmptyString => s
  end.

(** The value of a character as a digit, in a radix up to 36. *)
Definition digitValue (c : ascii) : option Z :=
  let n := Z.of_nat (nat_of_ascii c) in
  if (48 <=? n)%Z && (n <=? 57)%Z then Some (n - 48)%Z
  else if (97 <=? n)%Z && (n <=? 122)%Z then Some (n - 87)%Z
  else if (65 <=? n)%Z && (n <=? 90)%Z then Some (n - 55)%Z
  else None.

(** The value of the longest prefix of digits of the radix, if there is a
    digit. *)
Fixpoint parseDigits (radix : Z) (acc : option Z) (s : string) : option Z :=
  match s with
  | String c rest =>
      match digitValue c with
      | Some v =>
          if (v <? radix)%Z then parseDigits radix (Some (default 0 acc * radix + v))%Z rest
          else acc
      | None => acc
      end
  | EmptyString => acc
  end.

(** [parseInt(s)] without a radix, on integers small enough to be exact:
    leading white space, a sign, the prefix [0x] or [0X] for radix 16, then
    as many digits as there are; [NaN] without a digit. *)
Definition parseInt (s : string) : number :=
  let s := trimStart s in
  let '(sign, s) :=
    match s with
    | String "-"%char rest => ((-1)%Z, rest)
    | String "+"%char rest => (1%Z, rest)
    | _ => (1%Z, s)
    end in
  let '(radix, s) :=
    match s with
    | String "0"%char (String "x"%char rest) | String "0"%char (String "X"%char rest) =>
        (16%Z, rest)
    | _ => (10%Z, s)
    end in
  match parseDigits radix None s with
  | Some z => Num (sign * z)
  | None => NaN
  end.

Definition FoldLevelAction_ID_PREFIX : string := "editor.foldLevel".

Definition FoldLevelAction_ID (level : nat) : string :=
  FoldLevelAction_ID_PREFIX ++ Number_toString level.

(** [getFoldingLevel] of the action whose id is [id]. *)
Definition getFoldingLevel (id : string) : number :=
  parseInt (substr id (String.length FoldLevelAction_ID_PREFIX)).

(** [invoke] of the fold level action whose id is [id]. *)
Definition FoldLevelAction_invoke (id : string) (ed : Editor) : FoldOperation :=
  setCollapseStateAtLevel (getFoldingLevel id) true (getSelectedLines ed).

(** ** A reference implementation of the collaborators

    Modelled from the spec: the provider ids, the models and their methods,
    which live in files that are not among the sources. The theorems below
    hold for every implementation of [Collaborators]; this one runs the
    controller on concrete inputs. *)
Module Reference.

(** The hidden ranges of collapsed regions, outermost first; a collapsed
    region inside a range that is hidden already adds nothing. *)
Fixpoint hiddenOf (last : Z) (rs : FoldingRegions) : list IRange :=
  match rs with
  | [] => []
  | r :: rs =>
      if isCollapsed r && (last <? startLineNumber r)%Z
      then Range.mk (startLineNumber r + 1) 1 (endLineNumber r) 1 :: hiddenOf (endLineNumber r) rs
      else hiddenOf last rs
  end.

Definition rangeEqb (a b : IRange) : bool :=
  (Range.startLineNumber a =? Range.startLineNumber b)%Z
  && (Range.endLineNumber a =? Range.endLineNumber b)%Z.

Fixpoint rangesEqb (a b : list IRange) : bool :=
  match a, b with
  | [], [] => true
  | x :: a, y :: b => rangeEqb x y && rangesEqb a b
  | _, _ => false
  end.

(** The models after the regions of the folding model became [rs]: the
    hidden ranges follow, with one change event when they differ. *)
Definition withRegions (mp : Models) (rs : FoldingRegions) : Outcome unit :=
  let hidden := hiddenOf 0 rs in
  let h := {| hiddenRanges := hidden |} in
  {| out_models := {| fm := {| textModel := textModel (fm mp); regions := rs;
                               isInitialized := true |};
                      hrm := h |};
     out_events := if rangesEqb hidden (hiddenRanges (hrm mp)) then []
                   else [{| em_hrm := h; em_ranges := hidden |}];
     out_result := Returned tt |}.

Definition wasCollapsed (old : FoldingRegions) (r : FoldingRegion) : bool :=
  existsb (fun o => isCollapsed o && (startLineNumber o =? startLineNumber r)%Z) old.

Definition isBlocked (lines : list Z) (r : FoldingRegion) : bool :=
  existsb (fun l => (startLineNumber r <? l)%Z && (l <=? endLineNumber r)%Z) lines.

Definition update (mp : Models) (newRegions : FoldingRegions) (lines : list Z)
  : Outcome unit :=
  withRegions mp
    (map (fun r => setCollapsed ((isCollapsed r || wasCollapsed (regions (fm mp)) r)
                                 && negb (isBlocked lines r)) r) newRegions).

Definition inMemento (state : CollapseMemento) (r : FoldingRegion) : bool :=
  existsb (fun c => (startLine c =? startLineNumber r)%Z) state.

Definition applyMemento (mp : Models) (state : CollapseMemento) : Outcome unit :=
  withRegions mp
    (map (fun r => if inMemento state r then setCollapsed true r else r) (regions (fm mp))).

Definition getMemento (rs : FoldingRegions) : CollapseMemento :=
  map (fun r => {| startLine := startLineNumber r; regionType := type r |})
    (List.filter isCollapsed rs).

(** Of the helpers of foldingModel.ts only the one without a level and
    without lines (fold all, unfold all) is carried out; the others leave
    the models as they are. *)
Definition runOperation (op : FoldOperation) (mp : Models) : Outcome unit :=
  match op with
  | setCollapseStateLevelsDown doCollapse None None =>
      withRegions mp (map (setCollapsed doCollapse) (regions (fm mp)))
  | _ => {| out_models := mp; out_events := []; out_result := Returned tt |}
  end.

(** The hidden range model has no regions of its own: with the spec's
    memento, which names start lines only, it hides for each entry the line
    after the start line. *)
Definition hiddenApplyMemento (h : HiddenRangeModel) (state : CollapseMemento)
  : HiddenRangeModel * list Emission * Completion bool :=
  match state with
  | [] => (h, [], Returned false)
  | _ :: _ =>
      let hidden := map (fun c => Range.mk (startLine c + 1) 1 (startLine c + 1) 1) state in
      let h' := {| hiddenRanges := hidden |} in
      (h', [{| em_hrm := h'; em_ranges := hidden |}], Returned true)
  end.

Definition isHidden (h : HiddenRangeModel) (line : Z) : option IRange :=
  List.find (fun r => (Range.startLineNumber r <=? line)%Z && (line <=? Range.endLineNumber r)%Z)
    (hiddenRanges h).

Definition adjustSelection (h : HiddenRangeModel) (sel : Selection) : Selection * bool :=
  match isHidden h (Range.startLineNumber sel) with
  | Some r =>
      let line := (Range.startLineNumber r - 1)%Z in
      (Range.mk line 1 line 1, true)
  | None => (sel, false)
  end.

Definition adjustSelections (h : HiddenRangeModel) (selections : list Selection)
  : list Selection * bool :=
  let adjusted := map (adjustSelection h) selections in
  (map fst adjusted, existsb snd adjusted).

(** A hidden range model that hides something is emptied when it is
    disposed, and fires one last change event, with no ranges. *)
Definition hiddenDispose (h : HiddenRangeModel) : HiddenRangeModel * list Emission :=
  match hiddenRanges h with
  | [] => (h, [])
  | _ :: _ =>
      let h' := {| hiddenRanges := [] |} in
      (h', [{| em_hrm := h'; em_ranges := [] |}])
  end.

Definition collaborators : Collaborators :=
  {| ID_SYNTAX_PROVIDER := "syntax";
     ID_INIT_PROVIDER := "init";
     ID_INDENT_PROVIDER := "indent";
     FoldingRangeKind_Imports := "imports";
     updateDebounceInfo_get := fun _ => 200%Z;
     new_FoldingModel := fun model =>
       {| textModel := model; regions := []; isInitialized := false |};
     new_HiddenRangeModel := fun _ => {| hiddenRanges := [] |};
     FoldingModel_update := update;
     FoldingModel_applyMemento := applyMemento;
     FoldingModel_getMemento := fun m => Some (getMemento (regions m));
     FoldingModel_run := runOperation;
     HiddenRangeModel_applyMemento := hiddenApplyMemento;
     HiddenRangeModel_getMemento := fun h =>
       map (fun r => {| startLine := (Range.startLineNumber r - 1)%Z; regionType := None |})
         (hiddenRanges h);
     HiddenRangeModel_adjustSelections := adjustSelections;
     HiddenRangeModel_notifyChangeModelContent := fun h => h;
     FoldingModel_dispose := fun mp => (mp, []);
     HiddenRangeModel_dispose := hiddenDispose |}.

(** A TypeScript document of 20 lines in an editor with default options. *)
Definition document : TextModel :=
  {| uri := 1; languageId := "typescript"; isTooLargeForTokenization := false |}.

Definition options : EditorOptions :=
  {| opt_folding := true;
     opt_foldingStrategy := "auto";
     opt_showFoldingControls := "mouseover";
     opt_foldingHighlight := true;
     opt_unfoldOnClickAfterEndOfLine := false;
     opt_foldingImportsByDefault := false;
     opt_foldingMaximumRegions := 5000 |}.

Definition theEditor : Editor :=
  {| getModel := Some document;
     getLineCount := 20;
     getSelections := Some [Range.mk 1 1 1 1];
     hiddenAreas := [];
     getOptions := options |}.

Definition importsRegion : FoldingRegion :=
  {| startLineNumber := 1; endLineNumber := 3; level := 1; type := Some "imports";
     isCollapsed := false |}.

Definition classRegion : FoldingRegion :=
  {| startLineNumber := 5; endLineNumber := 18; level := 1; type := None;
     isCollapsed := false |}.

Definition methodRegion : FoldingRegion :=
  {| startLineNumber := 7; endLineNumber := 12; level := 2; type := None;
     isCollapsed := false |}.

#[local] Existing Instance collaborators.

(** The controller of that editor, and the same once the scheduler has
    started the first computation (promise 2 on folding model 0). *)
Definition initial : Controller := constructor theEditor [].

Definition computing : Controller := run initial [SchedulerTimeout].

(** Three computations that each report too many regions. *)
Definition crowded : list Event :=
  [ SchedulerTimeout; TooManyRegions 5000;
    FoldingRangesResolved 2 (Some [classRegion; methodRegion]) 250;
    DidChangeModelContent 21; SchedulerTimeout; TooManyRegions 5000;
    FoldingRangesResolved 4 (Some [classRegion; methodRegion]) 250;
    DidChangeModelContent 22; SchedulerTimeout; TooManyRegions 5000 ].

(** A memento saved when the document had 50 lines, and the controller of
    the document now that it has 51. *)
Definition memento50 : FoldingStateMemento :=
  {| collapsedRegions := Some [{| startLine := 5; regionType := None |}];
     lineCount := Some 50%Z;
     provider := Some "syntax";
     foldedImports := None |}.

Definition grown : Controller := run initial [DidChangeModelContent 51].

(** A memento of the indentation provider for the document of 20 lines. *)
Definition indentMemento : FoldingStateMemento :=
  {| collapsedRegions := Some [{| startLine := 5; regionType := None |}];
     lineCount := Some 20%Z;
     provider := Some "indent";
     foldedImports := None |}.

(** The same editor with folding switched off. *)
Definition disabledEditor : Editor :=
  {| getModel := Some document;
     getLineCount := 20;
     getSelections := Some [Range.mk 1 1 1 1];
     hiddenAreas := [];
     getOptions :=
       {| opt_folding := false;
          opt_foldingStrategy := "auto";
          opt_showFoldingControls := "mouseover";
          opt_foldingHighlight := true;
          opt_unfoldOnClickAfterEndOfLine := false;
          opt_foldingImportsByDefault := false;
          opt_foldingMaximumRegions := 5000 |} |}.

(** The same editor with imports folded by default, its cursor in the class. *)
Definition importsOptions (maximum : Z) : EditorOptions :=
  {| opt_folding := true;
     opt_foldingStrategy := "auto";
     opt_showFoldingControls := "mouseover";
     opt_foldingHighlight := true;
     opt_unfoldOnClickAfterEndOfLine := false;
     opt_foldingImportsByDefault := true;
     opt_foldingMaximumRegions := maximum |}.

Definition importsEditor : Editor :=
  {| getModel := Some document;
     getLineCount := 20;
     getSelections := Some [Range.mk 6 1 6 1];
     hiddenAreas := [];
     getOptions := importsOptions 5000 |}.

(** The first computation folds the imports; then the maximum number of
    regions is reconfigured, for the same document, and the next
    computation folds them again. *)
Definition reconfigured : list Event :=
  [ SchedulerTimeout;
    FoldingRangesResolved 2 (Some [importsRegion; classRegion]) 250;
    DidChangeConfiguration [foldingMaximumRegions] (importsOptions 6000);
    SchedulerTimeout;
    FoldingRangesResolved 5 (Some [importsRegion; classRegion]) 250 ].

(** The queries of the mouse gestures on that folding model: the regions
    are kept in document order, so the innermost region at a line is the
    last that spans it. *)
Definition containedBy (r other : FoldingRegion) : bool :=
  (startLineNumber other <=? startLineNumber r)%Z
  && (endLineNumber r <=? endLineNumber other)%Z.

Definition getRegionAtLine (m : FoldingModel) (line : Z) : option FoldingRegion :=
  last (List.filter (fun r => (startLineNumber r <=? line)%Z && (line <=? endLineNumber r)%Z)
          (regions m)).

Definition getRegionsInside (m : FoldingModel) (region : option FoldingRegion)
    (filter : option (FoldingRegion -> bool)) : list FoldingRegion :=
  List.filter
    (fun r =>
       match region with
       | Some outer => containedBy r outer && negb (containedBy outer r)
       | None => true
       end
       && match filter with
          | Some f => f r
          | None => true
          end)
    (regions m).

Definition queries : Queries :=
  {| HiddenRangeModel_hasRanges := fun h =>
       match hiddenRanges h with
       | [] => false
       | _ :: _ => true
       end;
     FoldingModel_getRegionAtLine := getRegionAtLine;
     FoldingModel_getRegionsInside := getRegionsInside;
     FoldingRegion_containedBy := containedBy |}.

(** The first computation resolves with the class and, collapsed, its
    method. *)
Definition collapsedMethod : FoldingRegion := setCollapsed true methodRegion.

Definition methodFolded : list Event :=
  [ SchedulerTimeout;
    FoldingRangesResolved 2 (Some [classRegion; collapsedMethod]) 250 ].

(** The first computation resolves with the class and its method, both
    unfolded, and the cursor moves to line 10, inside the method. *)
Definition cursorInMethod : list Event :=
  [ SchedulerTimeout;
    FoldingRangesResolved 2 (Some [classRegion; methodRegion]) 250;
    DidChangeCursorSelection [Range.mk 10 1 10 1] ].

(** A memento of the syntax provider for the document of 20 lines, with
    the method, which starts on line 7, collapsed. *)
Definition methodMemento : FoldingStateMemento :=
  {| collapsedRegions := Some [{| startLine := 7; regionType := None |}];
     lineCount := Some 20%Z;
     provider := Some "syntax";
     foldedImports := None |}.

(** The same controller when [folding] has been switched off in the
    options of the editor and the configuration event is about to be
    handled. *)
Definition switchedOff : Controller :=
  set_editor
    (editor_setOptions (getOptions disabledEditor) (editor (run initial methodFolded)))
    (run initial methodFolded).

(** A click with the left button on the folding icon of line 7, and the
    line lengths of the document. *)
Definition iconClick : EditorMouseEvent :=
  {| event := {| leftButton := true; middleButton := false; altKey := false;
                 shiftKey := false |};
     target := Some (MouseTarget.mk GUTTER_LINE_DECORATIONS (Some (Range.mk 7 1 7 1))
                       30 20 false) |}.

Definition columns (line : Z) : Z := 40.

End Reference.

(** * Properties *)

Section Properties.
Context `{Collaborators}.

(** ** What a call on the models leaves alone

    The listener of hidden range changes writes the editor's selections and
    hidden areas; nothing else of the controller moves while a call on the
    models settles. *)

Lemma only_view_refl (s : Controller) : only_view s s.
Proof.
  split; try reflexivity.
  - destruct s; reflexivity.
  - exists []. split; reflexivity.
Qed.

Lemma only_view_trans (s1 s2 s3 : Controller) :
  only_view s1 s2 -> only_view s2 s3 -> only_view s1 s3.
Proof.
  intros [E1 M1 L1 O1 (x1 & X1 & F1)] [E2 M2 L2 O2 (x2 & X2 & F2)].
  split; try congruence.
  - rewrite E2 at 1. rewrite E1. reflexivity.
  - exists (x2 ++ x1). split.
    + rewrite X2, X1. apply app_assoc.
    + rewrite forallb_app, F1, F2. reflexivity.
Qed.

Lemma only_view_heap (s : Controller) (h : gmap nat Models) : only_view s (set_heap h s).
Proof.
  split; try reflexivity. exists []. split; reflexivity.
Qed.

Lemma onHiddenRangesChanges_view (hiddenRanges : list IRange) (s : Controller) :
  only_view s (onHiddenRangesChanges hiddenRanges s).
Proof.
  unfold onHiddenRangesChanges.
  destruct (hiddenRangeModelObject s) as [h|]; cbn zeta.
  2: { split; try reflexivity. exists [SetHiddenAreas hiddenRanges]. split; reflexivity. }
  destruct (negb (bool_decide (hiddenRanges = [])) && negb (_restoringViewState s)).
  2: { split; try reflexivity. exists [SetHiddenAreas hiddenRanges]. split; reflexivity. }
  destruct (getSelections (editor s)) as [selections|].
  2: { split; try reflexivity. exists [SetHiddenAreas hiddenRanges]. split; reflexivity. }
  destruct (HiddenRangeModel_adjustSelections h selections) as [adjusted [|]].
  - split; try reflexivity.
    exists [SetHiddenAreas hiddenRanges; SetSelections adjusted; AdjustSelections selections].
    split; reflexivity.
  - split; try reflexivity.
    exists [SetHiddenAreas hiddenRanges; AdjustSelections selections].
    split; reflexivity.
Qed.

Lemma fire_view (k : nat) (m : FoldingModel) (e : Emission) (s : Controller) :
  only_view s (fire k m e s).
Proof.
  unfold fire. cbn zeta.
  case_bool_decide.
  - eapply only_view_trans; [apply only_view_heap | apply onHiddenRangesChanges_view].
  - apply only_view_heap.
Qed.

Lemma settle_view {A : Type} (k : nat) (o : Outcome A) (s : Controller) :
  only_view s (settle k o s).
Proof.
  unfold settle. cbn zeta.
  eapply only_view_trans; [|apply only_view_heap].
  generalize (out_events o) s. clear s.
  induction l as [|e l IH]; intros s; simpl.
  - apply only_view_refl.
  - eapply only_view_trans; [apply fire_view | apply IH].
Qed.

Lemma disposeModels_view (s : Controller) : only_view s (disposeModels s).
Proof.
  cbv beta delta [disposeModels].
  lazymatch goal with |- only_view s (let x := ?a in @?f x) =>
    change (only_view s (f a)); assert (Q : only_view s a)
  end.
  { repeat case_match; first [apply settle_view | apply only_view_refl]. }
  revert Q.
  lazymatch goal with |- only_view s ?a -> _ => generalize a end.
  intros s1 Q. cbv beta.
  eapply only_view_trans; [exact Q|].
  repeat case_match; first [apply settle_view | apply only_view_refl].
Qed.

(** ** Walking a handler

    For a reflexive and transitive relation between the controller before
    and after, [walk] goes through a handler from its result back to its
    argument: every [let] gets a name (handlers are
    unfolded with [cbv delta], which keeps their [let]s), every branch is split with its
    equation kept, every call is closed, on a state that is a
    variable, by a lemma of the database [frames] or by the closing tactic
    given. *)

Create HintDb frames.

Ltac walk closer :=
  lazymatch goal with
  | |- ?R ?s ?s => reflexivity
  | Q : ?R ?m ?v |- ?R ?s ?v => transitivity m; [walk closer | exact Q]
  | |- ?R ?s (fst (?a, _)) => change (R s a); walk closer
  | |- ?R ?s (fst (match ?x with _ => _ end)) => destruct x eqn:?; walk closer
  | |- ?R ?s (fst (let x := ?a in @?f x)) =>
      change (R s (fst (f a)));
      lazymatch type of a with
      | Controller =>
          let Q := fresh "Q" in
          assert (Q : R s a) by walk closer;
          revert Q; generalize a; intros ? Q; cbv beta; walk closer
      | _ => generalize a; intros ?; cbv beta; walk closer
      end
  | |- ?R ?s (let x := ?a in @?f x) =>
      change (R s (f a));
      lazymatch type of a with
      | Controller =>
          let Q := fresh "Q" in
          assert (Q : R s a) by walk closer;
          revert Q; generalize a; intros ? Q; cbv beta; walk closer
      | _ => generalize a; intros ?; cbv beta; walk closer
      end
  | |- ?R ?s ?t =>
      lazymatch t with
      | context [getRangeProvider ?tm ?s1] =>
          let Q := fresh "Q" in
          assert (Q : R s1 (snd (getRangeProvider tm s1))) by auto with frames nocore;
          destruct (getRangeProvider tm s1); simpl in Q; walk closer
      | context [foldImports ?rs ?s1] =>
          let Q := fresh "Q" in
          assert (Q : R s1 (snd (foldImports rs s1))) by auto with frames nocore;
          destruct (foldImports rs s1) as [[? ?] ?]; simpl in Q; walk closer
      | (match ?x with _ => _ end) => destruct x eqn:?; walk closer
      | ?f ?s' =>
          first
            [ is_var s';
              transitivity s'; [walk closer | solve [auto with frames nocore | closer]]
            | let Q := fresh "Q" in
              assert (Q : R s s') by walk closer;
              revert Q; generalize s'; intros ? Q; walk closer ]
      end
  end.

(** ** The too-many-regions warning *)

#[local] Instance quiet_refl : Reflexive quiet.
Proof. intros s. split; reflexivity. Qed.

#[local] Instance quiet_trans : Transitive quiet.
Proof. intros s1 s2 s3 [F1 N1] [F2 N2]. split; congruence. Qed.

Lemma only_view_quiet (s s' : Controller) : only_view s s' -> quiet s s'.
Proof.
  intros [E _ _ _ (x & X & F)]. split.
  - rewrite E. reflexivity.
  - unfold notifications. rewrite X, List.filter_app, length_app.
    replace (List.filter isNotify x) with (@nil Effect); [reflexivity|].
    clear X. induction x as [|e x IH]; [reflexivity|].
    simpl in F. apply andb_prop in F as [Fe Fx].
    simpl. destruct e; try discriminate; simpl; auto.
Qed.

Lemma settle_quiet {A : Type} (k : nat) (o : Outcome A) (s : Controller) :
  quiet s (settle k o s).
Proof. apply only_view_quiet, settle_view. Qed.

Hint Resolve settle_quiet : frames.

Ltac quiet := walk ltac:(split; reflexivity).

Lemma cancelFoldingRegionPromise_quiet (s : Controller) :
  quiet s (cancelFoldingRegionPromise s).
Proof. cbv beta delta [cancelFoldingRegionPromise]. quiet. Qed.
Hint Resolve cancelFoldingRegionPromise_quiet : frames.

Lemma disposeRangeProvider_quiet (s : Controller) : quiet s (disposeRangeProvider s).
Proof. cbv beta delta [disposeRangeProvider]. quiet. Qed.
Hint Resolve disposeRangeProvider_quiet : frames.

Lemma triggerFoldingModelChanged_quiet (s : Controller) :
  quiet s (triggerFoldingModelChanged s).
Proof. cbv beta delta [triggerFoldingModelChanged]. quiet. Qed.
Hint Resolve triggerFoldingModelChanged_quiet : frames.

Lemma onFoldingStrategyChanged_quiet (s : Controller) : quiet s (onFoldingStrategyChanged s).
Proof. cbv beta delta [onFoldingStrategyChanged]. quiet. Qed.
Hint Resolve onFoldingStrategyChanged_quiet : frames.

Lemma disposeModels_quiet (s : Controller) : quiet s (disposeModels s).
Proof. apply only_view_quiet, disposeModels_view. Qed.
Hint Resolve disposeModels_quiet : frames.

Lemma localToDispose_clear_quiet (s : Controller) : quiet s (localToDispose_clear s).
Proof. cbv beta delta [localToDispose_clear disposeLocal]. quiet. Qed.
Hint Resolve localToDispose_clear_quiet : frames.

Lemma onModelChanged_quiet (s : Controller) : quiet s (onModelChanged s).
Proof. cbv beta delta [onModelChanged]. quiet. Qed.
Hint Resolve onModelChanged_quiet : frames.

Lemma getRangeProvider_quiet (editorModel : TextModel) (s : Controller) :
  quiet s (snd (getRangeProvider editorModel s)).
Proof.
  unfold getRangeProvider. destruct (rangeProvider s); cbn zeta; [reflexivity|].
  repeat case_match; simpl; quiet.
Qed.
Hint Resolve getRangeProvider_quiet : frames.

Lemma foldImports_quiet (foldingRanges : FoldingRegions) (s : Controller) :
  quiet s (snd (foldImports foldingRanges s)).
Proof. unfold foldImports. repeat case_match; simpl; quiet. Qed.
Hint Resolve foldImports_quiet : frames.

Lemma Delayer_timeout_quiet (s : Controller) : quiet s (Delayer_timeout s).
Proof. cbv beta delta [Delayer_timeout task_body]. quiet. Qed.
Hint Resolve Delayer_timeout_quiet : frames.

Lemma onFoldingRanges_quiet (p : nat) (foldingRanges : option FoldingRegions) (newValue : Z)
    (s : Controller) :
  quiet s (onFoldingRanges p foldingRanges newValue s).
Proof. cbv beta delta [onFoldingRanges]. quiet. Qed.
Hint Resolve onFoldingRanges_quiet : frames.

Lemma onFoldingRangesRejected_quiet (p : nat) (err : JSError) (s : Controller) :
  quiet s (onFoldingRangesRejected p err s).
Proof. cbv beta delta [onFoldingRangesRejected]. quiet. Qed.
Hint Resolve onFoldingRangesRejected_quiet : frames.

Lemma restoreViewState_quiet (state : option FoldingStateMemento) (s : Controller) :
  quiet s (fst (restoreViewState state s)).
Proof. cbv beta delta [restoreViewState getFoldingModel then_]. quiet. Qed.
Hint Resolve restoreViewState_quiet : frames.

Lemma runContinuation_quiet (c : Continuation) (value : option nat) (s : Controller) :
  quiet s (runContinuation c value s).
Proof. cbv beta delta [runContinuation applyMementoThen invokeThen]. quiet. Qed.
Hint Resolve runContinuation_quiet : frames.

Lemma onFoldingModelPromise_quiet (d : nat) (value : option nat) (s : Controller) :
  quiet s (onFoldingModelPromise d value s).
Proof.
  cbv beta delta [onFoldingModelPromise]. cbv zeta.
  match goal with |- quiet s (foldl _ ?x ?l) =>
    assert (Q : quiet s x) by quiet; generalize dependent x; generalize l
  end.
  induction l as [|c l IH]; intros s1 Q; simpl; [exact Q|].
  apply IH. transitivity s1; [exact Q|apply runContinuation_quiet].
Qed.
Hint Resolve onFoldingModelPromise_quiet : frames.

Lemma onDidChangeConfiguration_quiet (e : ConfigurationChangedEvent) (s : Controller) :
  hasChanged e foldingMaximumRegions = false ->
  quiet s (onDidChangeConfiguration e s).
Proof.
  intros E. cbv beta delta [onDidChangeConfiguration]. rewrite E. cbv iota. quiet.
Qed.

Lemma runEditorCommand_quiet (action : FoldingAction) (args : option FoldingArguments)
    (s : Controller) :
  quiet s (default s (runEditorCommand action args (Some s))).
Proof.
  unfold runEditorCommand, getFoldingModel.
  destruct (foldingModelPromise s); simpl; [unfold then_; quiet|reflexivity].
Qed.

Lemma step_quiet (s : Controller) (ev : Event) :
  reconfiguresMaximum ev = false ->
  (∀ n, ev ≠ TooManyRegions n) ->
  quiet s (step s ev).
Proof.
  intros R N. destruct ev; cbv beta iota delta [step reconfiguresMaximum] in R |- *.
  - quiet.
  - transitivity (set_editor (editor_setOptions options (editor s)) s); [quiet|].
    apply onDidChangeConfiguration_quiet, R.
  - quiet.
  - quiet.
  - cbv beta delta [onDidChangeModelContent]. quiet.
  - quiet.
  - quiet.
  - quiet.
  - quiet.
  - quiet.
  - cbv beta delta [onInitializingTimeout]. quiet.
  - quiet.
  - exfalso. eapply N. reflexivity.
  - apply restoreViewState_quiet.
  - apply runEditorCommand_quiet.
Qed.

Lemma TooManyRegions_or_not (ev : Event) :
  (∃ n, ev = TooManyRegions n) ∨ (∀ n, ev ≠ TooManyRegions n).
Proof. destruct ev; try (right; discriminate). left. eauto. Qed.

Lemma step_budget (s : Controller) (ev : Event) :
  reconfiguresMaximum ev = false -> budget (step s ev) = budget s.
Proof.
  intros R.
  destruct (TooManyRegions_or_not ev) as [[n ->]|N].
  - unfold budget. simpl. unfold _notifyTooManyRegions.
    destruct (_tooManyRegionsNotified s) eqn:F; simpl; [rewrite F; reflexivity|].
    unfold notifications. simpl. lia.
  - destruct (step_quiet s ev R N) as [F Q].
    unfold budget. rewrite F, Q. reflexivity.
Qed.

Lemma run_budget (evs : list Event) (s : Controller) :
  forallb (fun ev => negb (reconfiguresMaximum ev)) evs = true ->
  budget (run s evs) = budget s.
Proof.
  revert s. induction evs as [|ev evs IH]; intros s E; [reflexivity|].
  cbn [forallb] in E. apply andb_prop in E as [E1 E2]. apply negb_true_iff in E1.
  change (run s (ev :: evs)) with (run (step s ev) evs).
  rewrite IH by exact E2. apply step_budget, E1.
Qed.

Lemma onDidChangeConfiguration_resets (e : ConfigurationChangedEvent) (s : Controller) :
  hasChanged e foldingMaximumRegions = true ->
  _tooManyRegionsNotified (onDidChangeConfiguration e s) = false.
Proof.
  intros E. cbv beta delta [onDidChangeConfiguration]. rewrite E. cbv iota.
  lazymatch goal with |- _ (let x := ?a in @?f x) = ?r =>
    change (_tooManyRegionsNotified (f a) = r); generalize a; intros s1; cbv beta
  end.
  lazymatch goal with |- _ (let x := ?a in @?f x) = ?r =>
    change (_tooManyRegionsNotified (f a) = r);
    assert (F : _tooManyRegionsNotified a = false)
      by (cbv zeta; rewrite (proj1 (onModelChanged_quiet _)); reflexivity);
    revert F; generalize a; intros s2 F; cbv beta
  end.
  match goal with |- _ ?x = false =>
    assert (Q : quiet s2 x) by quiet; rewrite (proj1 Q); exact F
  end.
Qed.

(** C3. In a run without a change of [foldingMaximumRegions] at most one
    too-many-regions warning is raised, however often the computations call
    the notify callback, and none once the flag is set; a change of
    [foldingMaximumRegions] clears the flag, and with the flag cleared the
    next call of the callback raises exactly one warning and sets the flag
    again. *)
Theorem tooManyRegions_notified_once (s : Controller) (evs : list Event) :
  forallb (fun ev => negb (reconfiguresMaximum ev)) evs = true ->
  notifications (run s evs) ≤ notifications s + 1
  ∧ (_tooManyRegionsNotified s = true -> notifications (run s evs) = notifications s)
  ∧ (∀ e options,
       hasChanged e foldingMaximumRegions = true ->
       _tooManyRegionsNotified (step (run s evs) (DidChangeConfiguration e options)) = false)
  ∧ (∀ s' n,
       _tooManyRegionsNotified s' = false ->
       notifications (step s' (TooManyRegions n)) = S (notifications s')
       ∧ _tooManyRegionsNotified (step s' (TooManyRegions n)) = true).
Proof.
  intros E. pose proof (run_budget evs s E) as B. unfold budget in B.
  split; [|split; [|split]].
  - destruct (_tooManyRegionsNotified (run s evs)), (_tooManyRegionsNotified s); lia.
  - intros F. rewrite F in B.
    assert (F' : _tooManyRegionsNotified (run s evs) = true).
    { clear B. revert s F E. induction evs as [|ev evs IH]; intros s F E; [exact F|].
      simpl in E. apply andb_prop in E as [E1 E2]. apply negb_true_iff in E1.
      simpl. apply IH; [|exact E2].
      destruct (TooManyRegions_or_not ev) as [[n ->]|N].
      - simpl. unfold _notifyTooManyRegions. rewrite F. exact F.
      - rewrite (proj1 (step_quiet s ev E1 N)). exact F. }
    rewrite F' in B. lia.
  - intros e options C. simpl. apply onDidChangeConfiguration_resets, C.
  - intros s' n F. simpl. unfold _notifyTooManyRegions. rewrite F. split; reflexivity.
Qed.

(** ** Restoring a stale memento *)

(** C2. A memento whose line count differs from the line count of the
    attached document is discarded as a whole: [restoreViewState] returns
    normally and leaves the controller, the models, the stored memento and
    the calls on collaborators exactly as they were. *)
Theorem restoreViewState_stale_memento (s : Controller) (state : FoldingStateMemento)
    (model : TextModel) :
  getModel (editor s) = Some model ->
  lineCount state ≠ Some (getLineCount (editor s)) ->
  restoreViewState (Some state) s = (s, Returned tt).
Proof.
  intros M L. unfold restoreViewState. rewrite M.
  destruct (hiddenRangeModel s); [|reflexivity].
  destruct (negb (_isEnabled s) || isTooLargeForTokenization model); [reflexivity|].
  rewrite bool_decide_eq_false_2 by exact L. reflexivity.
Qed.

(** ** The store after a call on the models *)

Lemma onHiddenRangesChanges_heap (hiddenRanges : list IRange) (s : Controller) :
  heap (onHiddenRangesChanges hiddenRanges s) = heap s.
Proof.
  unfold onHiddenRangesChanges. repeat case_match; reflexivity.
Qed.

Lemma settle_heap {A : Type} (k : nat) (o : Outcome A) (s : Controller) :
  heap (settle k o s) = <[k := out_models o]> (heap s).
Proof.
  unfold settle. simpl.
  assert (G : ∀ l s1, <[k := out_models o]>
                        (heap (foldl (fun s e => fire k (fm (out_models o)) e s) s1 l))
                      = <[k := out_models o]> (heap s1)).
  { induction l as [|e l IH]; intros s1; simpl; [reflexivity|].
    rewrite IH. unfold fire. cbn zeta. case_bool_decide.
    - rewrite onHiddenRangesChanges_heap. simpl. apply insert_insert_eq.
    - simpl. apply insert_insert_eq. }
  apply G.
Qed.

Lemma settle_effects {A : Type} (k : nat) (o : Outcome A) (s : Controller) (e : Effect) :
  e ∈ effects s -> e ∈ effects (settle k o s).
Proof.
  intros I. destruct (settle_view k o s) as [_ _ _ _ (x & X & _)].
  rewrite X. apply elem_of_app. right. exact I.
Qed.

Lemma onHiddenRangesChanges_areas (hiddenRanges : list IRange) (s : Controller) :
  hiddenAreas (editor (onHiddenRangesChanges hiddenRanges s)) = hiddenRanges
  ∧ ∃ rest, effects (onHiddenRangesChanges hiddenRanges s) = SetHiddenAreas hiddenRanges :: rest.
Proof.
  unfold onHiddenRangesChanges. cbv zeta. split; [reflexivity|]. eexists. reflexivity.
Qed.

Lemma onHiddenRangesChanges_held (hiddenRanges : list IRange) (s : Controller) :
  hiddenRangeModel (onHiddenRangesChanges hiddenRanges s) = hiddenRangeModel s.
Proof.
  rewrite (view_rest _ _ (onHiddenRangesChanges_view hiddenRanges s)). reflexivity.
Qed.

Lemma settle_last {A : Type} (k : nat) (o : Outcome A) (s : Controller) (e : Emission) :
  hiddenRangeModel s = Some k -> last (out_events o) = Some e ->
  hiddenAreas (editor (settle k o s)) = em_ranges e
  ∧ ∃ rest, effects (settle k o s) = SetHiddenAreas (em_ranges e) :: rest.
Proof.
  intros Hm L. unfold settle. cbv zeta.
  change (editor (set_heap ?h ?x)) with (editor x).
  change (effects (set_heap ?h ?x)) with (effects x).
  revert s Hm e L. induction (out_events o) as [|e' l IH]; intros s Hm e L; [discriminate|].
  simpl. destruct l as [|e'' l].
  - injection L as <-. simpl. unfold fire. cbv zeta.
    change (hiddenRangeModel (set_heap ?h s)) with (hiddenRangeModel s).
    rewrite bool_decide_eq_true_2 by exact Hm.
    apply onHiddenRangesChanges_areas.
  - apply IH; [|exact L].
    unfold fire. cbv zeta.
    change (hiddenRangeModel (set_heap ?h s)) with (hiddenRangeModel s).
    rewrite bool_decide_eq_true_2 by exact Hm.
    rewrite onHiddenRangesChanges_held. exact Hm.
Qed.

Lemma settle_silent {A : Type} (k : nat) (o : Outcome A) (s : Controller) :
  out_events o = [] -> editor (settle k o s) = editor s ∧ effects (settle k o s) = effects s.
Proof. intros E. unfold settle. rewrite E. split; reflexivity. Qed.

(** The first change event of a call on the models of [k]: the rest of
    the call settles on the controller as the listener left it. *)
Lemma settle_first {A : Type} (k : nat) (models : Models) (e : Emission)
    (rest : list Emission) (result : Completion A) (s : Controller) :
  settle k {| out_models := models; out_events := e :: rest; out_result := result |} s
  = settle k {| out_models := models; out_events := rest; out_result := result |}
      (fire k (fm models) e s).
Proof. reflexivity. Qed.

(** ** The folding actions *)


(** ** Provider selection *)

Lemma triggerFoldingModelChanged_schedules (s : Controller) (d : Delayer) :
  updateScheduler s = Some d ->
  updateScheduler (triggerFoldingModelChanged s) = Some (Delayer_trigger d)
  ∧ foldingRegionPromise (triggerFoldingModelChanged s) = None
  ∧ rangeProvider (triggerFoldingModelChanged s) = rangeProvider s
  ∧ foldingStateMemento (triggerFoldingModelChanged s) = foldingStateMemento s.
Proof.
  intros U. unfold triggerFoldingModelChanged, cancelFoldingRegionPromise. rewrite U.
  destruct (foldingRegionPromise s) eqn:P; simpl; rewrite ?P; auto.
Qed.

Lemma triggerFoldingModelChanged_rangeProvider (s : Controller) :
  rangeProvider (triggerFoldingModelChanged s) = rangeProvider s
  ∧ foldingStateMemento (triggerFoldingModelChanged s) = foldingStateMemento s.
Proof.
  destruct (updateScheduler s) as [d|] eqn:U.
  - destruct (triggerFoldingModelChanged_schedules s d U) as (_ & _ & R & M). auto.
  - unfold triggerFoldingModelChanged. rewrite U. auto.
Qed.

(** C5. When a provider has to be chosen (none is held): with folding
    providers disabled by configuration it is the indentation provider;
    otherwise, with no supplier registered for the document and a stored
    memento that has collapsed regions, the initializing provider seeded
    with these regions and a timeout of 30000 ms; otherwise, with suppliers
    registered, the syntax provider over all of them; otherwise the
    indentation provider. The choice becomes the provider held. When the
    timeout of the initializing provider fires, the memento and the provider
    are dropped and a recomputation is scheduled, which selects again. *)
Theorem getRangeProvider_selection (s : Controller) (editorModel : TextModel) :
  rangeProvider s = None ->
  let selected := fst (getRangeProvider editorModel s) in
  let fallback := IndentRangeProvider editorModel (_maxFoldingRegions s) in
  (_useFoldingProviders s = false -> selected = fallback)
  ∧ (∀ m, _useFoldingProviders s = true -> foldingModelObject s = Some m ->
       (ordered s (textModel m) = [] ->
        ∀ state initialRanges,
          foldingStateMemento s = Some state -> collapsedRegions state = Some initialRanges ->
          selected = InitializingRangeProvider editorModel initialRanges 30000)
       ∧ (ordered s (textModel m) ≠ [] ->
          selected = SyntaxRangeProvider editorModel (ordered s (textModel m))
                       (_maxFoldingRegions s))
       ∧ (ordered s (textModel m) = [] ->
          foldingStateMemento s ≫= collapsedRegions = None -> selected = fallback))
  ∧ rangeProvider (snd (getRangeProvider editorModel s)) = Some selected
  ∧ (∀ s', rangeProvider (onInitializingTimeout s') = None
           ∧ foldingStateMemento (onInitializingTimeout s') = None
           ∧ (∀ d, updateScheduler s' = Some d ->
                   updateScheduler (onInitializingTimeout s') = Some (Delayer_trigger d))).
Proof.
  intros R selected fallback. subst selected fallback.
  unfold getRangeProvider. rewrite R. cbn zeta.
  change (foldingModelObject (set_rangeProvider ?v s)) with (foldingModelObject s).
  change (_useFoldingProviders (set_rangeProvider ?v s)) with (_useFoldingProviders s).
  split; [|split; [|split]].
  - intros ->. reflexivity.
  - intros m -> ->.
    change (ordered (set_rangeProvider ?v s) ?x) with (ordered s x).
    change (foldingStateMemento (set_rangeProvider ?v s)) with (foldingStateMemento s).
    split; [|split].
    + intros -> state initialRanges -> C. simpl. rewrite C. reflexivity.
    + intros O. destruct (ordered s (textModel m)); [congruence|reflexivity].
    + intros -> ->. reflexivity.
  - repeat case_match; reflexivity.
  - intros s'. unfold onInitializingTimeout, onFoldingStrategyChanged. cbn zeta.
    match goal with |- context [triggerFoldingModelChanged ?x] => set (s1 := x) end.
    destruct (triggerFoldingModelChanged_rangeProvider s1) as [R1 M1].
    rewrite R1, M1. split; [reflexivity|]. split.
    + subst s1. unfold disposeRangeProvider. simpl. case_match; reflexivity.
    + intros d U.
      assert (U1 : updateScheduler s1 = Some d).
      { subst s1. unfold disposeRangeProvider. simpl. case_match; exact U. }
      apply (triggerFoldingModelChanged_schedules s1 d U1).
Qed.

(** ** The two applications of a restored memento *)

(** [restoreViewState] on a memento it accepts, step by step: the
    folded-imports flag and the stored memento are written, the memento is
    applied to the hidden range model and the call settles, and the callback
    is attached to the folding model promise when the apply returned
    [true]. *)
Lemma restoreViewState_accepts (state : FoldingStateMemento) (s : Controller)
    (model : TextModel) (k : nat) (mp : Models) (collapsed : CollapseMemento)
    (h : HiddenRangeModel) (events : list Emission) (result : Completion bool) :
  getModel (editor s) = Some model -> unavailable s = false ->
  hiddenRangeModel s = Some k -> heap s !! k = Some mp ->
  lineCount state = Some (getLineCount (editor s)) ->
  collapsedRegions state = Some collapsed ->
  HiddenRangeModel_applyMemento (hrm mp) collapsed = (h, events, result) ->
  let s' := fst (restoreViewState (Some state) s) in
  let o := {| out_models := {| fm := fm mp; hrm := h |}; out_events := events;
              out_result := result |} in
  ∃ s1,
    s1 = set_foldingStateMemento (foldingStateMemento s1)
           (set_currentModelHasFoldedImports (default false (foldedImports state)) s)
    ∧ s' = set_continuations (continuations s')
             (settle k o (emit (HiddenApplyMemento k collapsed) s1))
    ∧ continuations s'
      = match result, foldingModelPromise s with
        | Returned true, Some d => continuations s ++ [(d, ApplyMementoThen collapsed)]
        | _, _ => continuations s
        end
    ∧ snd (restoreViewState (Some state) s)
      = match result with
        | Returned _ => Returned tt
        | Threw e => Threw e
        end.
Proof.
  intros M U Hk K L C A. unfold unavailable in U. rewrite M in U.
  cbv zeta. unfold restoreViewState. rewrite M, Hk, U, C.
  rewrite bool_decide_eq_true_2 by exact L. cbn zeta.
  match goal with |- context [heap ?x !! k] => set (s1 := x) end.
  assert (E1 : s1 = set_foldingStateMemento (foldingStateMemento s1)
                      (set_currentModelHasFoldedImports
                         (default false (foldedImports state)) s)).
  { subst s1. destruct (bool_decide (provider state = Some ID_SYNTAX_PROVIDER) || _);
      [reflexivity|]. destruct s; reflexivity. }
  assert (K1 : heap s1 !! k = Some mp) by (rewrite E1; exact K).
  assert (P1 : foldingModelPromise s1 = foldingModelPromise s) by (rewrite E1; reflexivity).
  assert (C1 : continuations s1 = continuations s) by (rewrite E1; reflexivity).
  clearbody s1. rewrite K1, A. cbn zeta.
  exists s1. split; [exact E1|].
  match goal with |- context [settle k ?o ?x] =>
    pose proof (view_rest _ _ (settle_view k o x)) as V; set (s2 := settle k o x) in *
  end.
  assert (P2 : foldingModelPromise s2 = foldingModelPromise s)
    by (rewrite V, <- P1; reflexivity).
  assert (C2 : continuations s2 = continuations s) by (rewrite V, <- C1; reflexivity).
  clearbody s2. clear V.
  assert (R : s2 = set_continuations (continuations s2) s2) by (destruct s2; reflexivity).
  destruct result as [[|]|e]; simpl.
  - unfold getFoldingModel. rewrite P2.
    destruct (foldingModelPromise s) as [d|]; unfold then_; simpl; rewrite C2.
    + split; [reflexivity|]. split; reflexivity.
    + rewrite C2 in R. split; [exact R|]. split; reflexivity.
  - rewrite C2. rewrite C2 in R. split; [exact R|]. split; reflexivity.
  - rewrite C2. rewrite C2 in R. split; [exact R|]. split; reflexivity.
Qed.

Lemma filter_none (A : Type) (p : A -> bool) (l : list A) :
  List.filter p l = [] -> List.filter (fun x => negb (p x)) l = l.
Proof.
  induction l as [|x l IH]; [reflexivity|]. simpl.
  destruct (p x); [discriminate|]. intros E. simpl. rewrite (IH E). reflexivity.
Qed.

(** A folding model promise with one callback waiting, attached last. *)
Lemma onFoldingModelPromise_single (d : nat) (c : Continuation) (value : option nat)
    (cs : list (nat * Continuation)) (s : Controller) :
  continuations s = cs ++ [(d, c)] ->
  List.filter (fun c => Nat.eqb (fst c) d) cs = [] ->
  onFoldingModelPromise d value s = runContinuation c value (set_continuations cs s).
Proof.
  intros E F. unfold onFoldingModelPromise. cbv zeta.
  rewrite E, !List.filter_app, F, (filter_none _ _ _ F). simpl.
  rewrite Nat.eqb_refl. simpl. rewrite app_nil_r. reflexivity.
Qed.

Lemma onHiddenRangesChanges_restoring (hiddenRanges : list IRange) (s : Controller) :
  _restoringViewState s = true -> still s (onHiddenRangesChanges hiddenRanges s).
Proof.
  intros F. unfold onHiddenRangesChanges. rewrite F, andb_false_r.
  destruct (hiddenRangeModelObject s); repeat split.
Qed.

Lemma onHiddenRangesChanges_suppressed (hiddenRanges : list IRange) (s : Controller) :
  _restoringViewState s = true ->
  effects (onHiddenRangesChanges hiddenRanges s) = SetHiddenAreas hiddenRanges :: effects s.
Proof.
  intros F. unfold onHiddenRangesChanges. rewrite F, andb_false_r.
  destruct (hiddenRangeModelObject s); reflexivity.
Qed.

Lemma events_restoring (k : nat) (m : FoldingModel) (l : list Emission) (s : Controller) :
  _restoringViewState s = true -> still s (foldl (fun s e => fire k m e s) s l).
Proof.
  revert s. induction l as [|e l IH]; intros s F; simpl; [repeat split|].
  assert (Q : still s (fire k m e s)).
  { unfold fire. cbn zeta. case_bool_decide; [|repeat split].
    apply (onHiddenRangesChanges_restoring (em_ranges e) (set_heap _ s) F). }
  destruct Q as (Q1 & Q2 & Q3).
  destruct (IH _ (eq_trans Q3 F)) as (R1 & R2 & R3).
  repeat split; congruence.
Qed.

Lemma settle_restoring {A : Type} (k : nat) (o : Outcome A) (s : Controller) :
  _restoringViewState s = true -> still s (settle k o s).
Proof.
  intros F. unfold settle. cbn zeta.
  destruct (events_restoring k (fm (out_models o)) (out_events o) s F) as (Q1 & Q2 & Q3).
  repeat split; assumption.
Qed.

(** With the restoring flag set the listener of the held model passes
    every change event to [editor.setHiddenAreas] and does nothing else. *)
Lemma events_suppressed (k : nat) (m : FoldingModel) (l : list Emission) (s : Controller) :
  _restoringViewState s = true -> hiddenRangeModel s = Some k ->
  effects (foldl (fun s e => fire k m e s) s l)
  = rev (map (fun e => SetHiddenAreas (em_ranges e)) l) ++ effects s.
Proof.
  revert s. induction l as [|e l IH]; intros s F Hm; [reflexivity|].
  cbn [foldl map rev].
  assert (Q : effects (fire k m e s) = SetHiddenAreas (em_ranges e) :: effects s
              ∧ _restoringViewState (fire k m e s) = true
              ∧ hiddenRangeModel (fire k m e s) = Some k).
  { unfold fire. cbn zeta.
    change (hiddenRangeModel (set_heap ?v s)) with (hiddenRangeModel s).
    rewrite bool_decide_eq_true_2 by exact Hm.
    match goal with |- context [onHiddenRangesChanges ?r ?x] =>
      pose proof (onHiddenRangesChanges_suppressed r x F) as E;
      destruct (onHiddenRangesChanges_restoring r x F) as (_ & _ & R);
      pose proof (onHiddenRangesChanges_held r x) as Hh
    end.
    split; [exact E|]. split; [rewrite R; exact F|rewrite Hh; exact Hm]. }
  destruct Q as (Q1 & Q2 & Q3).
  rewrite (IH _ Q2 Q3), Q1, <- app_assoc. reflexivity.
Qed.

(** The callback of [restoreViewState] on the folding model [k]: the
    calls it makes, in order, and what it leaves. *)
Lemma applyMementoThen_trace (collapsed : CollapseMemento) (k : nat) (mp : Models)
    (s : Controller) :
  heap s !! k = Some mp -> hiddenRangeModel s = Some k ->
  let o := FoldingModel_applyMemento mp collapsed in
  let s' := applyMementoThen collapsed (Some k) s in
  effects s'
  = match out_result o with
    | Returned _ => []
    | Threw e => [OnUnexpectedError e]
    end
    ++ rev (map (fun e => SetHiddenAreas (em_ranges e)) (out_events o))
    ++ ApplyMemento k collapsed :: effects s
  ∧ _restoringViewState s' = false
  ∧ heap s' = <[k := out_models o]> (heap s)
  ∧ continuations s' = continuations s
  ∧ getSelections (editor s') = getSelections (editor s)
  ∧ selectionCalls s' = selectionCalls s
  ∧ foldingStateMemento s' = foldingStateMemento s.
Proof.
  intros K Hm. cbv zeta. unfold applyMementoThen. rewrite K. cbn zeta.
  match goal with |- context [settle k ?o ?x] =>
    pose proof (events_suppressed k (fm (out_models o)) (out_events o) x eq_refl Hm) as T;
    pose proof (settle_heap k o x) as SH;
    pose proof (view_rest _ _ (settle_view k o x)) as V;
    destruct (settle_restoring k o x eq_refl) as (Q1 & Q2 & _);
    change (effects (foldl (fun s e => fire k (fm (out_models o)) e s) x (out_events o)))
      with (effects (settle k o x)) in T;
    generalize dependent (settle k o x)
  end.
  intros s2 T SH V Q1 Q2. simpl in T, SH, Q1, Q2.
  change (selectionCalls (emit (ApplyMemento k collapsed) (set_restoringViewState true s)))
    with (selectionCalls s) in Q2.
  assert (C2 : continuations s2 = continuations s) by (rewrite V; reflexivity).
  assert (M2 : foldingStateMemento s2 = foldingStateMemento s) by (rewrite V; reflexivity).
  destruct (out_result (FoldingModel_applyMemento mp collapsed)); simpl;
    rewrite ?T; auto 10.
Qed.

(** Whenever the callback runs, and whatever the promise resolved to, it
    leaves the selections alone and the flag, clear before, clear. *)
Lemma applyMementoThen_still (collapsed : CollapseMemento) (value : option nat)
    (s : Controller) :
  let s' := applyMementoThen collapsed value s in
  getSelections (editor s') = getSelections (editor s)
  ∧ selectionCalls s' = selectionCalls s
  ∧ (_restoringViewState s = false -> _restoringViewState s' = false).
Proof.
  cbv zeta. unfold applyMementoThen.
  destruct value as [k|]; [|auto].
  destruct (heap s !! k) as [mp|]; [|auto]. cbn zeta.
  match goal with |- context [settle k ?o ?x] =>
    destruct (settle_restoring k o x eq_refl) as (Q1 & Q2 & _);
    generalize dependent (settle k o x)
  end.
  intros s2 Q1 Q2. simpl in Q1, Q2.
  change (selectionCalls (emit (ApplyMemento k collapsed) (set_restoringViewState true s)))
    with (selectionCalls s) in Q2.
  destruct (out_result (FoldingModel_applyMemento mp collapsed)); simpl; auto.
Qed.

(** What an accepted memento leaves: the outcome of the apply to the
    hidden range model is in the store, its change events reached the
    editor, and the callback waits for the folding model. *)
Lemma restoreViewState_applied (state : FoldingStateMemento) (s : Controller)
    (model : TextModel) (k : nat) (mp : Models) (collapsed : CollapseMemento)
    (h : HiddenRangeModel) (events : list Emission) (result : Completion bool) :
  getModel (editor s) = Some model -> unavailable s = false ->
  hiddenRangeModel s = Some k -> heap s !! k = Some mp ->
  lineCount state = Some (getLineCount (editor s)) ->
  collapsedRegions state = Some collapsed ->
  HiddenRangeModel_applyMemento (hrm mp) collapsed = (h, events, result) ->
  let s' := fst (restoreViewState (Some state) s) in
  HiddenApplyMemento k collapsed ∈ effects s'
  ∧ heap s' !! k = Some {| fm := fm mp; hrm := h |}
  ∧ hiddenRangeModel s' = Some k
  ∧ _restoringViewState s' = _restoringViewState s
  ∧ (∀ e, last events = Some e ->
       hiddenAreas (editor s') = em_ranges e ∧ SetHiddenAreas (em_ranges e) ∈ effects s')
  ∧ (events = [] -> editor s' = editor s)
  ∧ continuations s'
    = match result, foldingModelPromise s with
      | Returned true, Some d => continuations s ++ [(d, ApplyMementoThen collapsed)]
      | _, _ => continuations s
      end
  ∧ snd (restoreViewState (Some state) s)
    = match result with
      | Returned _ => Returned tt
      | Threw e => Threw e
      end.
Proof.
  intros M U Hk K L C A.
  destruct (restoreViewState_accepts state s model k mp collapsed h events result
              M U Hk K L C A) as (s1 & E1 & S' & Cs & R).
  cbv zeta in S', Cs |- *.
  set (s' := fst (restoreViewState (Some state) s)) in *. clearbody s'.
  set (x := emit (HiddenApplyMemento k collapsed) s1) in *.
  assert (Hx : hiddenRangeModel x = Some k) by (subst x; rewrite E1; exact Hk).
  assert (Fx : _restoringViewState x = _restoringViewState s)
    by (subst x; rewrite E1; reflexivity).
  assert (Ex : editor x = editor s) by (subst x; rewrite E1; reflexivity).
  assert (Ix : HiddenApplyMemento k collapsed ∈ effects x)
    by (subst x; simpl; apply elem_of_cons; left; reflexivity).
  clearbody x. clear s1 E1.
  set (o := {| out_models := {| fm := fm mp; hrm := h |}; out_events := events;
               out_result := result |}) in *.
  pose proof (view_rest _ _ (settle_view k o x)) as V.
  assert (S1 : effects s' = effects (settle k o x)) by (rewrite S'; reflexivity).
  assert (S2 : heap s' = heap (settle k o x)) by (rewrite S'; reflexivity).
  assert (S3 : hiddenRangeModel s' = hiddenRangeModel (settle k o x))
    by (rewrite S'; reflexivity).
  assert (S4 : _restoringViewState s' = _restoringViewState (settle k o x))
    by (rewrite S'; reflexivity).
  assert (S5 : editor s' = editor (settle k o x)) by (rewrite S'; reflexivity).
  clear S'.
  split; [rewrite S1; apply (settle_effects k o x _ Ix)|].
  split; [rewrite S2, settle_heap; apply lookup_insert_eq|].
  split; [rewrite S3, V; exact Hx|].
  split; [rewrite S4, V; exact Fx|].
  split.
  { intros e La. destruct (settle_last k o x e Hx La) as (A1 & rest & A2).
    rewrite S5, S1. split; [exact A1|]. rewrite A2. apply elem_of_cons. left. reflexivity. }
  split.
  { intros N. destruct (settle_silent k o x N) as [A1 _].
    rewrite S5, A1. exact Ex. }
  split; [exact Cs|exact R].
Qed.

(** With the restoring flag clear the first change event of the apply to
    the hidden range model adjusts the selections. *)
Lemma restoreViewState_adjusts (state : FoldingStateMemento) (s : Controller)
    (model : TextModel) (k : nat) (mp : Models) (collapsed : CollapseMemento)
    (h : HiddenRangeModel) (e : Emission) (rest : list Emission) (result : Completion bool)
    (selections : list Selection) :
  getModel (editor s) = Some model -> unavailable s = false ->
  hiddenRangeModel s = Some k -> heap s !! k = Some mp ->
  lineCount state = Some (getLineCount (editor s)) ->
  collapsedRegions state = Some collapsed ->
  HiddenRangeModel_applyMemento (hrm mp) collapsed = (h, e :: rest, result) ->
  _restoringViewState s = false -> em_ranges e ≠ [] ->
  getSelections (editor s) = Some selections ->
  let s' := fst (restoreViewState (Some state) s) in
  AdjustSelections selections ∈ effects s'
  ∧ (∀ adjusted, HiddenRangeModel_adjustSelections (em_hrm e) selections = (adjusted, true) ->
       SetSelections adjusted ∈ effects s').
Proof.
  intros M U Hk K L C A F N S.
  destruct (restoreViewState_accepts state s model k mp collapsed h (e :: rest) result
              M U Hk K L C A) as (s1 & E1 & S' & _).
  cbv zeta in S' |- *.
  set (s' := fst (restoreViewState (Some state) s)) in *. clearbody s'.
  set (x := emit (HiddenApplyMemento k collapsed) s1) in *.
  assert (Hx : hiddenRangeModel x = Some k) by (subst x; rewrite E1; exact Hk).
  assert (Fx : _restoringViewState x = false) by (subst x; rewrite E1; exact F).
  assert (Sx : getSelections (editor x) = Some selections)
    by (subst x; rewrite E1; exact S).
  clearbody x. clear s1 E1.
  rewrite settle_first in S'.
  assert (G : AdjustSelections selections ∈ effects (fire k (fm mp) e x)
              ∧ (∀ adjusted,
                   HiddenRangeModel_adjustSelections (em_hrm e) selections = (adjusted, true) ->
                   SetSelections adjusted ∈ effects (fire k (fm mp) e x))).
  { unfold fire. cbn zeta.
    change (hiddenRangeModel (set_heap ?v x)) with (hiddenRangeModel x).
    rewrite bool_decide_eq_true_2 by exact Hx.
    unfold onHiddenRangesChanges, hiddenRangeModelObject.
    change (hiddenRangeModel (set_heap ?v x)) with (hiddenRangeModel x).
    change (heap (set_heap ?v x)) with v.
    change (_restoringViewState (set_heap ?v x)) with (_restoringViewState x).
    change (editor (set_heap ?v x)) with (editor x).
    rewrite Hx. simpl. rewrite lookup_insert_eq. simpl.
    rewrite bool_decide_eq_false_2 by exact N. rewrite Fx, Sx. simpl.
    destruct (HiddenRangeModel_adjustSelections (em_hrm e) selections)
      as [adjusted [|]]; simpl.
    - split.
      + apply elem_of_cons. right. apply elem_of_cons. right. apply elem_of_cons. left.
        reflexivity.
      + intros a [= <-]. apply elem_of_cons. right. apply elem_of_cons. left. reflexivity.
    - split; [|discriminate].
      apply elem_of_cons. right. apply elem_of_cons. left. reflexivity. }
  destruct G as [G1 G2].
  match type of S' with _ = set_continuations _ ?y =>
    assert (S1 : effects s' = effects y) by (rewrite S'; reflexivity)
  end.
  rewrite S1. split.
  - apply settle_effects, G1.
  - intros adjusted Adj. apply settle_effects, (G2 adjusted Adj).
Qed.

(** The folding model promise resolves to the folding model held, with
    the callback of [restoreViewState] the only one waiting. *)
Lemma restoreViewState_resolves (state : FoldingStateMemento) (s : Controller)
    (model : TextModel) (k : nat) (mp : Models) (collapsed : CollapseMemento)
    (h : HiddenRangeModel) (events : list Emission) (d : nat) :
  getModel (editor s) = Some model -> unavailable s = false ->
  hiddenRangeModel s = Some k -> heap s !! k = Some mp ->
  lineCount state = Some (getLineCount (editor s)) ->
  collapsedRegions state = Some collapsed ->
  HiddenRangeModel_applyMemento (hrm mp) collapsed = (h, events, Returned true) ->
  foldingModelPromise s = Some d ->
  List.filter (fun c => Nat.eqb (fst c) d) (continuations s) = [] ->
  let s' := fst (restoreViewState (Some state) s) in
  let o := FoldingModel_applyMemento {| fm := fm mp; hrm := h |} collapsed in
  let s'' := onFoldingModelPromise d (Some k) s' in
  effects s''
  = match out_result o with
    | Returned _ => []
    | Threw e => [OnUnexpectedError e]
    end
    ++ rev (map (fun e => SetHiddenAreas (em_ranges e)) (out_events o))
    ++ ApplyMemento k collapsed :: effects s'
  ∧ _restoringViewState s'' = false
  ∧ heap s'' !! k = Some (out_models o)
  ∧ continuations s'' = continuations s
  ∧ getSelections (editor s'') = getSelections (editor s')
  ∧ selectionCalls s'' = selectionCalls s'
  ∧ foldingStateMemento s'' = foldingStateMemento s'
  ∧ effects (onFoldingModelPromise d None s') = effects s'.
Proof.
  intros M U Hk K L C A P N.
  destruct (restoreViewState_applied state s model k mp collapsed h events (Returned true)
              M U Hk K L C A) as (_ & K' & H' & _ & _ & _ & Cs & _).
  cbv zeta in K', H', Cs |- *. rewrite P in Cs.
  set (s' := fst (restoreViewState (Some state) s)) in *. clearbody s'.
  rewrite !(onFoldingModelPromise_single d (ApplyMementoThen collapsed) _
              (continuations s) s' Cs N).
  cbv beta iota delta [runContinuation].
  set (y := set_continuations (continuations s) s').
  assert (Ky : heap y !! k = Some {| fm := fm mp; hrm := h |}) by exact K'.
  assert (Hy : hiddenRangeModel y = Some k) by exact H'.
  destruct (applyMementoThen_trace collapsed k _ y Ky Hy)
    as (T1 & T2 & T3 & T4 & T5 & T6 & T7).
  cbv zeta in T1, T2, T3, T4, T5, T6, T7.
  split; [exact T1|]. split; [exact T2|].
  split; [rewrite T3; apply lookup_insert_eq|].
  split; [exact T4|]. split; [exact T5|]. split; [exact T6|]. split; [exact T7|].
  reflexivity.
Qed.


(** ** Which memento is kept *)

Lemma restoreViewState_memento (state : FoldingStateMemento) (s : Controller) :
  foldingStateMemento (fst (restoreViewState (Some state) s)) = foldingStateMemento s
  ∨ (foldingStateMemento (fst (restoreViewState (Some state) s)) = Some state
     ∧ (provider state = Some ID_SYNTAX_PROVIDER ∨ provider state = Some ID_INIT_PROVIDER)).
Proof.
  unfold restoreViewState.
  destruct (getModel (editor s)) as [model|]; [|auto].
  destruct (hiddenRangeModel s) as [k|]; [|auto].
  destruct (negb (_isEnabled s) || isTooLargeForTokenization model); [auto|].
  case_bool_decide; [|auto]. cbn zeta.
  destruct (collapsedRegions state) as [collapsed|]; [|auto].
  match goal with |- context [heap ?x !! k] => set (s1 := x) end.
  assert (M : foldingStateMemento s1 = foldingStateMemento s
              ∨ (foldingStateMemento s1 = Some state
                 ∧ (provider state = Some ID_SYNTAX_PROVIDER
                    ∨ provider state = Some ID_INIT_PROVIDER))).
  { subst s1. repeat case_bool_decide; simpl; auto. }
  clearbody s1.
  destruct (heap s1 !! k) as [mp|]; [|exact M].
  destruct (HiddenRangeModel_applyMemento (hrm mp) collapsed) as [[h events] result].
  cbn zeta.
  match goal with |- context [settle k ?o ?x] =>
    assert (E : foldingStateMemento (settle k o x) = foldingStateMemento s1)
      by (rewrite (view_rest _ _ (settle_view k o x)); reflexivity);
    generalize dependent (settle k o x)
  end.
  intros s2 E. simpl.
  destruct result as [[|]|]; simpl; [|rewrite E; exact M..].
  unfold getFoldingModel. destruct (foldingModelPromise s2); simpl; rewrite E; exact M.
Qed.

Lemma getRangeProvider_ext (editorModel : TextModel) (s s' : Controller) :
  rangeProvider s' = rangeProvider s ->
  _maxFoldingRegions s' = _maxFoldingRegions s ->
  _useFoldingProviders s' = _useFoldingProviders s ->
  languageFeatures s' = languageFeatures s ->
  foldingModelObject s' = foldingModelObject s ->
  foldingStateMemento s' = foldingStateMemento s ->
  fst (getRangeProvider editorModel s') = fst (getRangeProvider editorModel s).
Proof.
  intros R M U L F S. unfold getRangeProvider. rewrite R.
  destruct (rangeProvider s); [reflexivity|].
  unfold ordered, foldingModelObject in *. simpl. rewrite M, U, L, F, S.
  repeat case_match; reflexivity.
Qed.

Lemma restoreViewState_selection (state : FoldingStateMemento) (s : Controller) :
  let s' := fst (restoreViewState (Some state) s) in
  rangeProvider s' = rangeProvider s
  ∧ _maxFoldingRegions s' = _maxFoldingRegions s
  ∧ _useFoldingProviders s' = _useFoldingProviders s
  ∧ languageFeatures s' = languageFeatures s
  ∧ foldingModelObject s' = foldingModelObject s.
Proof.
  unfold restoreViewState.
  destruct (getModel (editor s)) as [model|]; [|simpl; auto].
  destruct (hiddenRangeModel s) as [k|]; [|simpl; auto].
  destruct (negb (_isEnabled s) || isTooLargeForTokenization model); [simpl; auto|].
  case_bool_decide; [|simpl; auto]. cbn zeta.
  destruct (collapsedRegions state) as [collapsed|]; [|simpl; auto].
  match goal with |- context [heap ?x !! k] => set (s1 := x) end.
  assert (M : rangeProvider s1 = rangeProvider s
              ∧ _maxFoldingRegions s1 = _maxFoldingRegions s
              ∧ _useFoldingProviders s1 = _useFoldingProviders s
              ∧ languageFeatures s1 = languageFeatures s
              ∧ foldingModelObject s1 = foldingModelObject s).
  { subst s1. destruct (_ || _); simpl; auto. }
  clearbody s1.
  destruct (heap s1 !! k) as [mp|] eqn:K; [|exact M].
  destruct (HiddenRangeModel_applyMemento (hrm mp) collapsed) as [[h events] result].
  cbn zeta.
  match goal with |- context [settle k ?o ?x] =>
    pose proof (settle_view k o x) as V; pose proof (settle_heap k o x) as E;
    generalize dependent (settle k o x)
  end.
  intros s2 V E. simpl in E.
  assert (M2 : rangeProvider s2 = rangeProvider s
               ∧ _maxFoldingRegions s2 = _maxFoldingRegions s
               ∧ _useFoldingProviders s2 = _useFoldingProviders s
               ∧ languageFeatures s2 = languageFeatures s
               ∧ foldingModelObject s2 = foldingModelObject s).
  { destruct M as (M1 & M2 & M3 & M4 & M5).
    rewrite <- M1, <- M2, <- M3, <- M4, <- M5.
    unfold foldingModelObject. rewrite E.
    rewrite (view_rest _ _ V). simpl. repeat split.
    destruct (foldingModel s1) as [k'|]; [|reflexivity]. simpl.
    destruct (decide (k' = k)) as [->|N].
    - rewrite lookup_insert_eq, K. reflexivity.
    - rewrite lookup_insert_ne by congruence. reflexivity. }
  destruct result as [[|]|]; simpl; try exact M2.
  unfold getFoldingModel. destruct (foldingModelPromise s2); exact M2.
Qed.

(** The stored memento after an accepted memento with collapsed regions. *)
Lemma restoreViewState_stores (state : FoldingStateMemento) (s : Controller)
    (model : TextModel) (k : nat) (collapsed : CollapseMemento) :
  getModel (editor s) = Some model -> unavailable s = false ->
  hiddenRangeModel s = Some k ->
  lineCount state = Some (getLineCount (editor s)) ->
  collapsedRegions state = Some collapsed ->
  foldingStateMemento (fst (restoreViewState (Some state) s))
  = (if bool_decide (provider state = Some ID_SYNTAX_PROVIDER)
        || bool_decide (provider state = Some ID_INIT_PROVIDER)
     then Some state else foldingStateMemento s).
Proof.
  intros M U Hk L C. unfold unavailable in U. rewrite M in U.
  unfold restoreViewState. rewrite M, Hk, U, C.
  rewrite bool_decide_eq_true_2 by exact L. cbn zeta.
  match goal with |- context [heap ?x !! k] => set (s1 := x) end.
  assert (M1 : foldingStateMemento s1
               = (if bool_decide (provider state = Some ID_SYNTAX_PROVIDER)
                     || bool_decide (provider state = Some ID_INIT_PROVIDER)
                  then Some state else foldingStateMemento s))
    by (subst s1; destruct (bool_decide (provider state = Some ID_SYNTAX_PROVIDER) || _);
        reflexivity).
  clearbody s1.
  destruct (heap s1 !! k) as [mp|]; [|exact M1].
  destruct (HiddenRangeModel_applyMemento (hrm mp) collapsed) as [[h events] result].
  cbn zeta.
  match goal with |- context [settle k ?o ?x] =>
    assert (E : foldingStateMemento (settle k o x) = foldingStateMemento s1)
      by (rewrite (view_rest _ _ (settle_view k o x)); reflexivity);
    generalize dependent (settle k o x)
  end.
  intros s2 E. simpl.
  destruct result as [[|]|]; simpl; [|rewrite E; exact M1..].
  unfold getFoldingModel. destruct (foldingModelPromise s2); simpl; rewrite E; exact M1.
Qed.

(** C9. [restoreViewState] changes the stored memento only for a memento
    whose provider is the syntax or the initializing provider, and an
    accepted memento of one of these two is stored. A memento of the
    indentation provider, or of no provider, leaves the stored memento and
    with it the provider chosen by the next selection as they were, so
    with no memento stored before the initializing provider is not chosen.
    Its collapsed regions are applied all the same: the hidden range model
    is left as its [applyMemento] leaves it, the change events of the apply
    reach the hidden areas of the editor, and when the apply returns [true]
    the callback that applies the regions to the folding model waits for
    the folding model promise; when the promise resolves to the folding
    model, [applyMemento] is called on it and the folding model is left as
    that call leaves it, the stored memento still being as it was. *)
Theorem restoreViewState_keeps_provider_mementos (s : Controller)
    (state : FoldingStateMemento) :
  let s' := fst (restoreViewState (Some state) s) in
  (foldingStateMemento s' ≠ foldingStateMemento s ->
   provider state = Some ID_SYNTAX_PROVIDER ∨ provider state = Some ID_INIT_PROVIDER)
  ∧ (∀ model k collapsed,
       getModel (editor s) = Some model -> unavailable s = false ->
       hiddenRangeModel s = Some k ->
       lineCount state = Some (getLineCount (editor s)) ->
       collapsedRegions state = Some collapsed ->
       provider state = Some ID_SYNTAX_PROVIDER ∨ provider state = Some ID_INIT_PROVIDER ->
       foldingStateMemento s' = Some state)
  ∧ (ID_INDENT_PROVIDER ≠ ID_SYNTAX_PROVIDER -> ID_INDENT_PROVIDER ≠ ID_INIT_PROVIDER ->
     provider state = Some ID_INDENT_PROVIDER ∨ provider state = None ->
     foldingStateMemento s' = foldingStateMemento s
     ∧ (∀ editorModel,
          fst (getRangeProvider editorModel s') = fst (getRangeProvider editorModel s))
     ∧ (rangeProvider s = None -> foldingStateMemento s = None ->
        ∀ editorModel initialRanges timeout,
          fst (getRangeProvider editorModel s')
          ≠ InitializingRangeProvider editorModel initialRanges timeout)
     ∧ (∀ model k mp collapsed h events result,
          getModel (editor s) = Some model -> unavailable s = false ->
          hiddenRangeModel s = Some k -> heap s !! k = Some mp ->
          lineCount state = Some (getLineCount (editor s)) ->
          collapsedRegions state = Some collapsed ->
          HiddenRangeModel_applyMemento (hrm mp) collapsed = (h, events, result) ->
          HiddenApplyMemento k collapsed ∈ effects s'
          ∧ heap s' !! k = Some {| fm := fm mp; hrm := h |}
          ∧ (∀ e, last events = Some e ->
               hiddenAreas (editor s') = em_ranges e
               ∧ SetHiddenAreas (em_ranges e) ∈ effects s')
          ∧ (events = [] -> editor s' = editor s)
          ∧ snd (restoreViewState (Some state) s)
            = match result with
              | Returned _ => Returned tt
              | Threw e => Threw e
              end
          ∧ continuations s'
            = match result, foldingModelPromise s with
              | Returned true, Some d => continuations s ++ [(d, ApplyMementoThen collapsed)]
              | _, _ => continuations s
              end
          ∧ (∀ d, result = Returned true -> foldingModelPromise s = Some d ->
               List.filter (fun c => Nat.eqb (fst c) d) (continuations s) = [] ->
               let o := FoldingModel_applyMemento {| fm := fm mp; hrm := h |} collapsed in
               let s'' := step s' (FoldingModelPromiseResolved d (Some k)) in
               ApplyMemento k collapsed ∈ effects s''
               ∧ heap s'' !! k = Some (out_models o)
               ∧ foldingStateMemento s'' = foldingStateMemento s))).
Proof.
  intros s'. subst s'. split; [|split].
  - intros N. destruct (restoreViewState_memento state s) as [E|[_ P]]; [congruence|exact P].
  - intros model k collapsed M U Hk L C P.
    rewrite (restoreViewState_stores state s model k collapsed M U Hk L C).
    destruct P as [P|P]; rewrite P.
    + rewrite bool_decide_eq_true_2 by reflexivity. reflexivity.
    + rewrite (bool_decide_eq_true_2 (Some ID_INIT_PROVIDER = Some ID_INIT_PROVIDER))
        by reflexivity.
      rewrite orb_true_r. reflexivity.
  - intros D1 D2 P.
    assert (E : foldingStateMemento (fst (restoreViewState (Some state) s))
                = foldingStateMemento s).
    { destruct (restoreViewState_memento state s) as [E|[_ [Q|Q]]]; [exact E|..];
        destruct P as [P|P]; congruence. }
    destruct (restoreViewState_selection state s) as (S1 & S2 & S3 & S4 & S5).
    assert (G : ∀ editorModel,
              fst (getRangeProvider editorModel (fst (restoreViewState (Some state) s)))
              = fst (getRangeProvider editorModel s)).
    { intros editorModel. apply getRangeProvider_ext; assumption. }
    split; [exact E|]. split; [exact G|]. split.
    + intros R M editorModel initialRanges timeout. rewrite G.
      unfold getRangeProvider. rewrite R. simpl. rewrite M. simpl.
      repeat case_match; simpl; discriminate.
    + intros model k mp collapsed h events result M U Hk K L C A.
      destruct (restoreViewState_applied state s model k mp collapsed h events result
                  M U Hk K L C A) as (A1 & A2 & A3 & A4 & A5 & A6 & A7 & A8).
      cbv zeta in A1, A2, A3, A4, A5, A6, A7, A8.
      split; [exact A1|]. split; [exact A2|]. split; [exact A5|]. split; [exact A6|].
      split; [exact A8|]. split; [exact A7|].
      intros d -> Pd N. cbv zeta. cbv beta iota delta [step].
      destruct (restoreViewState_resolves state s model k mp collapsed h events d
                  M U Hk K L C A Pd N) as (T1 & _ & T3 & _ & _ & _ & T7 & _).
      cbv zeta in T1, T3, T7.
      split; [|split; [exact T3|rewrite T7; exact E]].
      rewrite T1. apply elem_of_app. right. apply elem_of_app. right.
      apply elem_of_cons. left. reflexivity.
Qed.

(** ** Rejected and abandoned computations *)

(** C6. A rejected computation hands its error to [onUnexpectedError] and
    changes nothing else: no model is updated and every field of the
    controller is as before. A computation that resolves to [null] changes
    no model and calls nothing. A current computation that resolves to the
    empty set of regions does call [update], with no regions. *)
Theorem rejected_and_null_computations (s : Controller) (p : nat) (err : JSError)
    (newValue : Z) :
  let rejected := step s (FoldingRangesRejected p err) in
  let abandoned := step s (FoldingRangesResolved p None newValue) in
  let empty := step s (FoldingRangesResolved p (Some []) newValue) in
  (is_Some (computations s !! p) -> effects rejected = OnUnexpectedError err :: effects s)
  ∧ heap rejected = heap s
  ∧ updates rejected = updates s
  ∧ rejected = set_effects (effects rejected) (set_computations (computations rejected) s)
  ∧ heap abandoned = heap s
  ∧ effects abandoned = effects s
  ∧ abandoned = set_computations (computations abandoned) s
  ∧ (∀ k mp, computations s !! p = Some k -> foldingRegionPromise s = Some p ->
             heap s !! k = Some mp ->
             Update k [] (selectionLineNumbers (editor s)) ∈ effects empty
             ∧ heap empty
               = <[k := out_models (FoldingModel_update mp [] (selectionLineNumbers (editor s)))]>
                   (heap s)).
Proof.
  simpl. unfold onFoldingRangesRejected, onFoldingRanges.
  split; [|split; [|split; [|split; [|split; [|split; [|split]]]]]].
  - intros [k ->]. reflexivity.
  - destruct (computations s !! p); reflexivity.
  - destruct (computations s !! p); reflexivity.
  - destruct (computations s !! p); [reflexivity|]. destruct s; reflexivity.
  - destruct (computations s !! p); reflexivity.
  - destruct (computations s !! p); reflexivity.
  - destruct (computations s !! p); [reflexivity|]. destruct s; reflexivity.
  - intros k mp C P K. rewrite C. cbn zeta.
    change (foldingRegionPromise (set_computations ?v s)) with (foldingRegionPromise s).
    rewrite bool_decide_eq_true_2 by exact P.
    match goal with |- context [foldImports [] ?x] => set (s1 := x) end.
    assert (F : ∃ s2, foldImports [] s1 = ([], false, s2) ∧ heap s2 = heap s
                      ∧ editor s2 = editor s).
    { unfold foldImports.
      destruct (_foldingImportsByDefault s1 && negb (_currentModelHasFoldedImports s1));
        simpl; eexists; split; try reflexivity; split; reflexivity. }
    destruct F as (s2 & -> & H2 & E2). rewrite H2, E2, K.
    match goal with |- context [settle k ?o ?x] =>
      pose proof (settle_heap k o x) as SH;
      assert (I : Update k [] (selectionLineNumbers (editor s)) ∈ effects (settle k o x))
        by (apply settle_effects; simpl; apply elem_of_cons; left; reflexivity);
      generalize dependent (settle k o x)
    end.
    intros s3 SH I. simpl in SH. rewrite H2 in SH.
    destruct (out_result _); simpl.
    + destruct (updateScheduler s3); simpl; split; assumption.
    + split; [apply elem_of_cons; right; exact I|exact SH].
Qed.

(** ** Invariants of the scheduling

    Handlers that are [calm] keep the invariant; the handlers that cancel,
    dispose, schedule, start or finish a computation are taken one by one. *)

Lemma cancelled_cancellations (p : nat) (s : Controller) :
  cancelled p s ↔ Cancel p ∈ cancellations s.
Proof.
  unfold cancelled, cancellations. rewrite !list_elem_of_In, List.filter_In. simpl. tauto.
Qed.

#[local] Instance calm_refl : Reflexive calm.
Proof. intros s. split; reflexivity. Qed.

#[local] Instance calm_trans : Transitive calm.
Proof. intros s1 s2 s3 [] []. split; congruence. Qed.

Lemma only_view_calm (s s' : Controller) : only_view s s' -> calm s s'.
Proof.
  intros [E M _ _ (x & X & F)].
  split; try (rewrite E; reflexivity); [exact M|].
  unfold cancellations. rewrite X, List.filter_app.
  replace (List.filter isCancel x) with (@nil Effect); [reflexivity|].
  clear X. induction x as [|e x IH]; [reflexivity|].
  simpl in F. apply andb_prop in F as [Fe Fx].
  simpl. destruct e; try discriminate; simpl; auto.
Qed.

Lemma settle_calm {A : Type} (k : nat) (o : Outcome A) (s : Controller) :
  calm s (settle k o s).
Proof. apply only_view_calm, settle_view. Qed.
Hint Resolve settle_calm : frames.

Ltac calm_close :=
  split; simpl;
  first [ reflexivity
        | match goal with
          | E : updateScheduler ?x = _ |- context [updateScheduler ?x] => rewrite E; reflexivity
          end ].

Ltac calm := walk calm_close.

Lemma disposeRangeProvider_calm (s : Controller) : calm s (disposeRangeProvider s).
Proof. cbv beta delta [disposeRangeProvider]. calm. Qed.
Hint Resolve disposeRangeProvider_calm : frames.

Lemma getRangeProvider_calm (editorModel : TextModel) (s : Controller) :
  calm s (snd (getRangeProvider editorModel s)).
Proof. unfold getRangeProvider. repeat case_match; simpl; calm. Qed.
Hint Resolve getRangeProvider_calm : frames.

Lemma foldImports_calm (foldingRanges : FoldingRegions) (s : Controller) :
  calm s (snd (foldImports foldingRanges s)).
Proof. unfold foldImports. repeat case_match; simpl; calm. Qed.
Hint Resolve foldImports_calm : frames.

Lemma notifyTooManyRegions_calm (n : Z) (s : Controller) : calm s (_notifyTooManyRegions n s).
Proof. cbv beta delta [_notifyTooManyRegions]. calm. Qed.
Hint Resolve notifyTooManyRegions_calm : frames.

Lemma restoreViewState_calm (state : option FoldingStateMemento) (s : Controller) :
  calm s (fst (restoreViewState state s)).
Proof.
  cbv beta delta [restoreViewState getFoldingModel then_]. calm.
Qed.
Hint Resolve restoreViewState_calm : frames.

Lemma runContinuation_calm (c : Continuation) (value : option nat) (s : Controller) :
  calm s (runContinuation c value s).
Proof. cbv beta delta [runContinuation applyMementoThen invokeThen]. calm. Qed.
Hint Resolve runContinuation_calm : frames.

Lemma onFoldingModelPromise_calm (d : nat) (value : option nat) (s : Controller) :
  calm s (onFoldingModelPromise d value s).
Proof.
  cbv beta delta [onFoldingModelPromise]. cbv zeta.
  match goal with |- calm s (foldl _ ?x ?l) =>
    assert (Q : calm s x) by calm; generalize dependent x; generalize l
  end.
  induction l as [|c l IH]; intros s1 Q; simpl; [exact Q|].
  apply IH. transitivity s1; [exact Q|apply runContinuation_calm].
Qed.
Hint Resolve onFoldingModelPromise_calm : frames.

Lemma calm_scheduling (s s' : Controller) : calm s s' -> scheduling s -> scheduling s'.
Proof.
  intros [B M E T MP RP C X] [A O W G]. split.
  - rewrite B, MP. intros L. destruct (A L) as [U ->].
    rewrite U in T. destruct (updateScheduler s'); [discriminate|auto].
  - intros p. rewrite C, RP, !cancelled_cancellations, X, <- cancelled_cancellations. apply O.
  - intros d' U' T'. rewrite U' in T. simpl in T. rewrite RP.
    destruct (updateScheduler s) as [d|]; [|discriminate].
    apply (W d); [reflexivity|]. simpl in T. congruence.
  - rewrite B. intros L. destruct (G L) as [d U]. rewrite U in T.
    destruct (updateScheduler s'); [eauto|discriminate].
Qed.

Lemma calm_invariant (s s' : Controller) : calm s s' -> invariant s -> invariant s'.
Proof.
  intros Q [S U]. split; [eapply calm_scheduling; eassumption|].
  unfold unavailable in *. rewrite (calm_model _ _ Q), (calm_enabled _ _ Q), (calm_bundle _ _ Q).
  exact U.
Qed.

Lemma cancelFoldingRegionPromise_scheduling (s : Controller) :
  scheduling s ->
  scheduling (cancelFoldingRegionPromise s)
  ∧ foldingRegionPromise (cancelFoldingRegionPromise s) = None.
Proof.
  intros S. unfold cancelFoldingRegionPromise.
  destruct (foldingRegionPromise s) as [p|] eqn:P; [|split; assumption].
  destruct S as [A O W G]. split; [|reflexivity]. split; simpl; [exact A| |reflexivity|exact G].
  - intros q I N. exfalso.
    assert (Y : ¬ cancelled q s).
    { intros Y. apply N. unfold cancelled. simpl. apply elem_of_cons. right. exact Y. }
    specialize (O q I Y). rewrite P in O. injection O as <-.
    apply N. unfold cancelled. simpl. apply elem_of_cons. left. reflexivity.
Qed.

(** A new trigger cancels the computation in flight before it schedules. *)
Lemma triggerFoldingModelChanged_cancels (s : Controller) (d : Delayer) :
  updateScheduler s = Some d ->
  foldingRegionPromise (triggerFoldingModelChanged s) = None
  ∧ (∀ p, foldingRegionPromise s = Some p -> cancelled p (triggerFoldingModelChanged s))
  ∧ (∃ d', updateScheduler (triggerFoldingModelChanged s) = Some d' ∧ task d' = true).
Proof.
  intros U. unfold triggerFoldingModelChanged, cancelFoldingRegionPromise. rewrite U.
  destruct (foldingRegionPromise s) as [p|] eqn:P; simpl.
  - split; [reflexivity|]. split; [|eauto].
    intros q [= ->]. unfold cancelled. simpl. apply elem_of_cons. left. reflexivity.
  - rewrite P. split; [reflexivity|]. split; [discriminate|eauto].
Qed.

Lemma cancelFoldingRegionPromise_rest (s : Controller) :
  localToDispose (cancelFoldingRegionPromise s) = localToDispose s
  ∧ editor (cancelFoldingRegionPromise s) = editor s
  ∧ _isEnabled (cancelFoldingRegionPromise s) = _isEnabled s
  ∧ updateScheduler (cancelFoldingRegionPromise s) = updateScheduler s
  ∧ foldingModelPromise (cancelFoldingRegionPromise s) = foldingModelPromise s
  ∧ rangeProvider (cancelFoldingRegionPromise s) = rangeProvider s.
Proof.
  unfold cancelFoldingRegionPromise. destruct (foldingRegionPromise s); simpl; auto 10.
Qed.

Lemma triggerFoldingModelChanged_invariant (s : Controller) :
  invariant s -> invariant (triggerFoldingModelChanged s).
Proof.
  intros [S B]. unfold triggerFoldingModelChanged.
  destruct (updateScheduler s) as [d|] eqn:U; [|split; assumption].
  destruct (cancelFoldingRegionPromise_scheduling s S) as [[A O W G] P].
  destruct (cancelFoldingRegionPromise_rest s) as (L & E & I & _).
  cbn zeta. split.
  - split; simpl.
    + rewrite L. intros F. destruct (disposed_idle s S F). congruence.
    + exact O.
    + intros; exact P.
    + eauto.
  - unfold unavailable. simpl. rewrite L, E, I. exact B.
Qed.

Lemma onFoldingStrategyChanged_invariant (s : Controller) :
  invariant s -> invariant (onFoldingStrategyChanged s).
Proof.
  intros I. unfold onFoldingStrategyChanged. cbn zeta.
  apply triggerFoldingModelChanged_invariant.
  eapply calm_invariant; [|exact I]. calm.
Qed.

Lemma disposeModels_calm (s : Controller) : calm s (disposeModels s).
Proof. apply only_view_calm, disposeModels_view. Qed.
Hint Resolve disposeModels_calm : frames.

Lemma localToDispose_clear_scheduling (s : Controller) :
  scheduling s ->
  scheduling (localToDispose_clear s)
  ∧ localToDispose (localToDispose_clear s) = false
  ∧ getModel (editor (localToDispose_clear s)) = getModel (editor s)
  ∧ _isEnabled (localToDispose_clear s) = _isEnabled s.
Proof.
  intros S0. unfold localToDispose_clear.
  destruct (localToDispose s) eqn:L0; [|auto].
  pose proof (disposeModels_calm s) as C0.
  pose proof (calm_scheduling _ _ C0 S0) as S.
  rewrite <- (calm_model _ _ C0), <- (calm_enabled _ _ C0).
  rewrite <- (calm_bundle _ _ C0) in L0.
  generalize dependent (disposeModels s). intros s1 L C0 S. clear s S0 C0.
  rename s1 into s.
  unfold disposeLocal.
  destruct (cancelFoldingRegionPromise_scheduling s S) as [[A O W G] P].
  destruct (cancelFoldingRegionPromise_rest s) as (_ & E & I & _).
  generalize dependent (cancelFoldingRegionPromise s). intros s1 A O W G P E I.
  assert (X : ∀ s2, localToDispose s2 = false -> computations s2 = computations s1 ->
                    foldingRegionPromise s2 = None ->
                    updateScheduler s2 = None -> foldingModelPromise s2 = None ->
                    (∀ q, cancelled q s1 -> cancelled q s2) -> scheduling s2).
  { intros s2 L' C' P' U' M' N'. split.
    - auto.
    - intros q Iq N. exfalso. rewrite C' in Iq.
      specialize (O q Iq (fun c => N (N' q c))). congruence.
    - intros d. rewrite U'. discriminate.
    - rewrite L'. discriminate. }
  unfold disposeRangeProvider.
  destruct (updateScheduler s1), (rangeProvider _); simpl;
    (split; [|rewrite E; auto]); apply X; simpl; try reflexivity; try assumption;
    intros q C; unfold cancelled in *; simpl;
    repeat (apply elem_of_cons; right); exact C.
Qed.

Lemma onModelChanged_invariant (s : Controller) :
  scheduling s -> invariant (onModelChanged s).
Proof.
  intros S. unfold onModelChanged.
  destruct (localToDispose_clear_scheduling s S) as (S1 & L & _).
  generalize dependent (localToDispose_clear s). clear s S. intros s S L. cbn zeta.
  destruct (getModel (editor s)) as [model|] eqn:M.
  - destruct (negb (_isEnabled s) || isTooLargeForTokenization model) eqn:U.
    + split; auto.
    + match goal with |- invariant (triggerFoldingModelChanged ?x) =>
        apply triggerFoldingModelChanged_invariant; set (s1 := x)
      end.
      destruct S as [A O W G]. split.
      * split; simpl; [intros; discriminate|exact O|intros d [= <-]; discriminate|eauto].
      * unfold unavailable. simpl. rewrite M, U. discriminate.
  - split; auto.
Qed.

Lemma Delayer_timeout_invariant (s : Controller) :
  invariant s -> invariant (Delayer_timeout s).
Proof.
  intros I. unfold Delayer_timeout.
  destruct (updateScheduler s) as [d|] eqn:U; [|exact I].
  destruct (task d) eqn:T; [|exact I].
  pose proof (waiting_none s (proj1 I) d U T) as P.
  match goal with |- invariant (task_body ?x) => set (s1 := x) end.
  assert (I1 : invariant s1).
  { destruct I as [[A O W G] B]. split; [split; simpl|exact B].
    - intros L. destruct (A L). congruence.
    - exact O.
    - intros d' [= <-]. discriminate.
    - eauto. }
  assert (P1 : foldingRegionPromise s1 = None) by exact P.
  assert (T1 : task <$> updateScheduler s1 = Some false) by reflexivity.
  clearbody s1. clear s I U P. unfold task_body.
  destruct (foldingModel s1) as [k|]; [|exact I1].
  destruct (heap s1 !! k) as [mp|]; [|exact I1].
  pose proof (getRangeProvider_calm (textModel (fm mp)) s1) as Q.
  destruct (getRangeProvider (textModel (fm mp)) s1) as [provider s2]. simpl in Q.
  pose proof (calm_invariant _ _ Q I1) as [[A O W G] B].
  rewrite <- (calm_regionPromise _ _ Q) in P1. rewrite <- (calm_task _ _ Q) in T1.
  cbn zeta. split; [split; simpl|exact B].
  - exact A.
  - intros p I N. destruct (decide (p = nextId s2)) as [->|D]; [reflexivity|].
    rewrite lookup_insert_ne in I by congruence.
    assert (N' : ¬ cancelled p s2).
    { intros C. apply N. unfold cancelled in *. simpl. apply elem_of_cons. right. exact C. }
    specialize (O p I N'). congruence.
  - intros d' U' T'. rewrite U' in T1. simpl in T1. congruence.
  - exact G.
Qed.

Lemma forget_invariant (p : nat) (s : Controller) :
  invariant s -> invariant (set_computations (delete p (computations s)) s).
Proof.
  intros [[A O W G] B]. split; [split; simpl|exact B]; try assumption.
  intros q I. apply O. destruct I as [k I].
  apply lookup_delete_Some in I as [_ I]. eauto.
Qed.

Lemma onFoldingRanges_invariant (p : nat) (foldingRanges : option FoldingRegions)
    (newValue : Z) (s : Controller) :
  invariant s -> invariant (onFoldingRanges p foldingRanges newValue s).
Proof.
  intros I. cbv beta delta [onFoldingRanges].
  destruct (computations s !! p) as [k|]; [|exact I].
  lazymatch goal with |- invariant (let x := ?a in @?f x) =>
    change (invariant (f a)); generalize (forget_invariant p s I); generalize a
  end.
  intros s1 I1. cbv beta.
  eapply calm_invariant; [|exact I1]. calm.
Qed.

Lemma onFoldingRangesRejected_invariant (p : nat) (err : JSError) (s : Controller) :
  invariant s -> invariant (onFoldingRangesRejected p err s).
Proof.
  intros I. unfold onFoldingRangesRejected.
  destruct (computations s !! p) as [k|]; [|exact I].
  eapply calm_invariant; [|exact (forget_invariant p s I)]. calm.
Qed.

Lemma onDidChangeConfiguration_invariant (e : ConfigurationChangedEvent) (s : Controller) :
  scheduling s ->
  (hasChanged e folding = false -> invariant s) ->
  invariant (onDidChangeConfiguration e s).
Proof.
  intros S I. cbv beta delta [onDidChangeConfiguration].
  lazymatch goal with |- invariant (let x := ?a in @?f x) =>
    change (invariant (f a)); assert (I1 : invariant a)
  end.
  { destruct (hasChanged e folding); [|auto].
    apply onModelChanged_invariant. destruct S. split; assumption. }
  revert I1. generalize (if hasChanged e folding
    then onModelChanged (set_isEnabled (opt_folding (getOptions (editor s))) s) else s).
  clear s S I. intros s I. cbv beta.
  lazymatch goal with |- invariant (let x := ?a in @?f x) =>
    change (invariant (f a)); assert (I1 : invariant a)
  end.
  { destruct (hasChanged e foldingMaximumRegions); [|exact I]. cbn zeta.
    apply onModelChanged_invariant. destruct I as [[] _]. split; assumption. }
  revert I1.
  lazymatch goal with |- invariant ?a -> _ => generalize a end.
  clear s I. intros s I. cbv beta.
  lazymatch goal with |- invariant (let x := ?a in @?f x) =>
    change (invariant (f a)); assert (I1 : invariant a)
  end.
  { destruct (_ || _); [|exact I]. cbn zeta.
    apply triggerFoldingModelChanged_invariant.
    eapply calm_invariant; [|exact I]. calm. }
  revert I1.
  lazymatch goal with |- invariant ?a -> _ => generalize a end.
  clear s I. intros s I. cbv beta.
  lazymatch goal with |- invariant (let x := ?a in @?f x) =>
    change (invariant (f a)); assert (I1 : invariant a)
  end.
  { destruct (hasChanged e foldingStrategy); [|exact I]. cbn zeta.
    apply onFoldingStrategyChanged_invariant.
    eapply calm_invariant; [|exact I]. calm. }
  revert I1.
  lazymatch goal with |- invariant ?a -> _ => generalize a end.
  clear s I. intros s I. cbv beta.
  eapply calm_invariant; [|exact I]. calm.
Qed.

Lemma step_invariant (s : Controller) (ev : Event) : invariant s -> invariant (step s ev).
Proof.
  intros I. destruct ev; simpl.
  - apply onModelChanged_invariant. destruct I as [[] _]. split; assumption.
  - apply onDidChangeConfiguration_invariant.
    + destruct I as [[] _]. split; assumption.
    + intros _. eapply calm_invariant; [|exact I]. calm.
  - destruct (localToDispose s) eqn:L;
      [apply onFoldingStrategyChanged_invariant|]; (eapply calm_invariant; [|exact I]; calm).
  - destruct (localToDispose s); [apply onFoldingStrategyChanged_invariant|]; exact I.
  - assert (I1 : invariant (set_editor (editor_setLineCount lines (editor s)) s))
      by (eapply calm_invariant; [|exact I]; calm).
    destruct (localToDispose s); [|exact I1].
    unfold onDidChangeModelContent. cbn zeta.
    apply triggerFoldingModelChanged_invariant.
    eapply calm_invariant; [|exact I1]. calm.
  - eapply calm_invariant; [|exact I]. calm.
  - apply Delayer_timeout_invariant, I.
  - apply onFoldingRanges_invariant, I.
  - apply onFoldingRangesRejected_invariant, I.
  - eapply calm_invariant; [|exact I]. apply onFoldingModelPromise_calm.
  - destruct (rangeProvider s) as [[]|]; try exact I.
    unfold onInitializingTimeout. apply onFoldingStrategyChanged_invariant.
    eapply calm_invariant; [|exact I]. calm.
  - destruct (rangeProvider s) as [[]|]; try exact I.
    apply triggerFoldingModelChanged_invariant, I.
  - eapply calm_invariant; [|exact I]. apply notifyTooManyRegions_calm.
  - eapply calm_invariant; [|exact I]. apply restoreViewState_calm.
  - eapply calm_invariant; [|exact I].
    unfold runEditorCommand, getFoldingModel.
    destruct (foldingModelPromise s); simpl; [unfold then_; calm|reflexivity].
Qed.

Lemma constructor_invariant (ed : Editor) (registry : list (string * FoldingRangeProvider)) :
  invariant (constructor ed registry).
Proof.
  unfold constructor. cbn zeta. apply onModelChanged_invariant.
  split; simpl;
    [auto|intros p [k I]; rewrite lookup_empty in I; discriminate|discriminate|discriminate].
Qed.

Lemma run_invariant (evs : list Event) (s : Controller) :
  invariant s -> invariant (run s evs).
Proof.
  revert s. induction evs as [|ev evs IH]; intros s I; simpl; [exact I|].
  apply IH, step_invariant, I.
Qed.

(** ** Entry points without a document to fold *)

(** C7. In every state the controller reaches from its construction, while
    no document is attached, folding is disabled or the document is too
    large for tokenization, the public entry points do nothing and return
    normally: [saveViewState] returns the empty object, [restoreViewState]
    returns with the controller unchanged, and [runEditorCommand] returns
    early, there being no folding model promise, as it does on an editor
    without folding controller. *)
Theorem unavailable_entry_points (ed : Editor)
    (registry : list (string * FoldingRangeProvider)) (evs : list Event)
    (state : option FoldingStateMemento) (action : FoldingAction)
    (args : option FoldingArguments) :
  let s := run (constructor ed registry) evs in
  unavailable s = true ->
  saveViewState s = Returned (Some emptyMemento)
  ∧ restoreViewState state s = (s, Returned tt)
  ∧ getFoldingModel s = None
  ∧ runEditorCommand action args (Some s) = Some s
  ∧ runEditorCommand action args None = None.
Proof.
  intros s U.
  destruct (run_invariant evs _ (constructor_invariant ed registry)) as [S B].
  fold s in S, B. specialize (B U). destruct (disposed_idle s S B) as [_ M].
  unfold unavailable in U.
  split; [|split; [|split; [|split]]].
  - unfold saveViewState. destruct (getModel (editor s)); [rewrite U|]; reflexivity.
  - unfold restoreViewState.
    destruct (getModel (editor s)); [|reflexivity].
    destruct (hiddenRangeModel s); [rewrite U|]; reflexivity.
  - exact M.
  - unfold runEditorCommand, getFoldingModel. rewrite M. reflexivity.
  - reflexivity.
Qed.

(** ** Stale computations *)

Lemma onFoldingRanges_stale (p : nat) (foldingRanges : option FoldingRegions) (newValue : Z)
    (s : Controller) :
  foldingRegionPromise s ≠ Some p ->
  onFoldingRanges p foldingRanges newValue s
  = match computations s !! p with
    | Some _ => set_computations (delete p (computations s)) s
    | None => s
    end.
Proof.
  intros N. unfold onFoldingRanges.
  destruct (computations s !! p); [|reflexivity].
  destruct foldingRanges; [|reflexivity]. cbn zeta.
  change (foldingRegionPromise (set_computations ?v s)) with (foldingRegionPromise s).
  rewrite bool_decide_eq_false_2 by exact N. reflexivity.
Qed.

Lemma onFoldingStrategyChanged_cancels (s : Controller) (d : Delayer) :
  updateScheduler s = Some d ->
  foldingRegionPromise (onFoldingStrategyChanged s) = None
  ∧ (∀ p, foldingRegionPromise s = Some p -> cancelled p (onFoldingStrategyChanged s))
  ∧ (∃ d', updateScheduler (onFoldingStrategyChanged s) = Some d' ∧ task d' = true).
Proof.
  intros U. unfold onFoldingStrategyChanged. cbn zeta.
  match goal with |- context [triggerFoldingModelChanged ?x] => set (s1 := x) end.
  assert (U1 : updateScheduler s1 = Some d)
    by (subst s1; unfold disposeRangeProvider; destruct (rangeProvider s); exact U).
  assert (P1 : foldingRegionPromise s1 = foldingRegionPromise s)
    by (subst s1; unfold disposeRangeProvider; destruct (rangeProvider s); reflexivity).
  rewrite <- P1. apply (triggerFoldingModelChanged_cancels s1 d U1).
Qed.

(** C1. In every state the controller reaches from its construction:
    the callback of a computation whose promise is not the one the
    controller holds changes no folding model and calls no [update]; a
    computation that is outstanding (created, not cancelled, callback not
    run) is the one the controller holds, so at most one is; while a newly
    scheduled computation waits for the timer none is outstanding and none
    is held, whatever event, a change of configuration included, scheduled
    it; and a trigger, with a document attached, cancels the promise held
    and leaves none held before its task waits for the timer, as do an edit
    and a change of strategy. *)
Theorem stale_computations_discarded (ed : Editor)
    (registry : list (string * FoldingRangeProvider)) (evs : list Event) :
  let s := run (constructor ed registry) evs in
  (∀ p foldingRanges newValue,
     foldingRegionPromise s ≠ Some p ->
     let s' := step s (FoldingRangesResolved p foldingRanges newValue) in
     heap s' = heap s ∧ updates s' = updates s
     ∧ s' = set_computations (computations s') s)
  ∧ (∀ p, outstanding p s -> foldingRegionPromise s = Some p)
  ∧ (∀ p q, outstanding p s -> outstanding q s -> p = q)
  ∧ (∀ d, updateScheduler s = Some d -> task d = true -> ∀ p, ¬ outstanding p s)
  ∧ (∀ ev d, updateScheduler (step s ev) = Some d -> task d = true ->
       foldingRegionPromise (step s ev) = None ∧ ∀ p, ¬ outstanding p (step s ev))
  ∧ (∀ d, updateScheduler s = Some d ->
       let s' := triggerFoldingModelChanged s in
       foldingRegionPromise s' = None
       ∧ (∀ p, foldingRegionPromise s = Some p -> cancelled p s')
       ∧ (∃ d', updateScheduler s' = Some d' ∧ task d' = true))
  ∧ (∀ ev, retriggers ev = true -> localToDispose s = true ->
       let s' := step s ev in
       foldingRegionPromise s' = None
       ∧ (∀ p, foldingRegionPromise s = Some p -> cancelled p s')
       ∧ (∃ d', updateScheduler s' = Some d' ∧ task d' = true)).
Proof.
  intros s.
  destruct (run_invariant evs _ (constructor_invariant ed registry)) as [S B].
  fold s in S, B. pose proof (conj S B : invariant s) as I. destruct S as [A O W G].
  split; [|split; [|split; [|split; [|split; [|split]]]]].
  - intros p foldingRanges newValue N. simpl.
    rewrite (onFoldingRanges_stale p foldingRanges newValue s N).
    destruct (computations s !! p); [repeat split|repeat split; clear; destruct s; reflexivity].
  - intros p [Ip N]. apply O; assumption.
  - intros p q [Ip Np] [Iq Nq].
    pose proof (O p Ip Np) as Hp. pose proof (O q Iq Nq) as Hq. congruence.
  - intros d U T p [Ip N]. pose proof (O p Ip N) as Hp. pose proof (W d U T). congruence.
  - intros ev d U T. destruct (step_invariant s ev I) as [[_ O' W' _] _].
    split; [exact (W' d U T)|].
    intros p [Ip N]. pose proof (O' p Ip N) as Hp. pose proof (W' d U T). congruence.
  - intros d U. apply (triggerFoldingModelChanged_cancels s d U).
  - intros ev R L. destruct (G L) as [d U].
    destruct ev; try discriminate; simpl; rewrite L.
    + apply (onFoldingStrategyChanged_cancels (set_languageFeatures registry0 s) d U).
    + apply (onFoldingStrategyChanged_cancels s d U).
    + unfold onDidChangeModelContent. cbn zeta.
      match goal with |- context [triggerFoldingModelChanged ?x] => set (s1 := x) end.
      assert (U1 : updateScheduler s1 = Some d) by (subst s1; repeat case_match; exact U).
      assert (P1 : foldingRegionPromise s1 = foldingRegionPromise s)
        by (subst s1; repeat case_match; reflexivity).
      rewrite <- P1. apply (triggerFoldingModelChanged_cancels s1 d U1).
Qed.

(** ** Restoring the view state *)

(** C8 as amended. [restoreViewState] applies an accepted memento twice.
    It applies it at once to the hidden range model, without touching the
    restoring flag: with the flag clear, as it is between events, the first
    change event of this apply, when it hides something, has the selections
    adjusted, and set when they changed. And it attaches a callback to the
    folding model promise. When the promise resolves to the folding model,
    the callback sets the flag, applies the memento to the folding model and
    clears the flag, also when [applyMemento] throws, the error then going to
    [onUnexpectedError]. Every change event of this second apply is handled
    with the flag set: it is passed to [editor.setHiddenAreas] and nothing
    else is called, so the selections are neither adjusted nor set. When the
    promise resolves to [null] the callback calls nothing. In whatever state
    the callback runs it leaves the selections alone and the flag clear; a
    change event handled with the flag set never touches the selections. *)
Theorem restoring_suppresses_selection_adjustment (s : Controller)
    (state : FoldingStateMemento) (model : TextModel) (k : nat) (mp : Models)
    (collapsed : CollapseMemento) (h : HiddenRangeModel) (events : list Emission)
    (d : nat) :
  getModel (editor s) = Some model -> unavailable s = false ->
  hiddenRangeModel s = Some k -> heap s !! k = Some mp ->
  lineCount state = Some (getLineCount (editor s)) ->
  collapsedRegions state = Some collapsed ->
  HiddenRangeModel_applyMemento (hrm mp) collapsed = (h, events, Returned true) ->
  foldingModelPromise s = Some d ->
  List.filter (fun c => Nat.eqb (fst c) d) (continuations s) = [] ->
  let s' := step s (RestoreViewState (Some state)) in
  let o := FoldingModel_applyMemento {| fm := fm mp; hrm := h |} collapsed in
  let s'' := step s' (FoldingModelPromiseResolved d (Some k)) in
  _restoringViewState s' = _restoringViewState s
  ∧ (∀ e rest selections,
       _restoringViewState s = false -> events = e :: rest -> em_ranges e ≠ [] ->
       getSelections (editor s) = Some selections ->
       AdjustSelections selections ∈ effects s'
       ∧ (∀ adjusted,
            HiddenRangeModel_adjustSelections (em_hrm e) selections = (adjusted, true) ->
            SetSelections adjusted ∈ effects s'))
  ∧ continuations s' = continuations s ++ [(d, ApplyMementoThen collapsed)]
  ∧ heap s' !! k = Some {| fm := fm mp; hrm := h |}
  ∧ effects s''
    = match out_result o with
      | Returned _ => []
      | Threw e => [OnUnexpectedError e]
      end
      ++ rev (map (fun e => SetHiddenAreas (em_ranges e)) (out_events o))
      ++ ApplyMemento k collapsed :: effects s'
  ∧ getSelections (editor s'') = getSelections (editor s')
  ∧ selectionCalls s'' = selectionCalls s'
  ∧ _restoringViewState s'' = false
  ∧ heap s'' !! k = Some (out_models o)
  ∧ continuations s'' = continuations s
  ∧ effects (step s' (FoldingModelPromiseResolved d None)) = effects s'
  ∧ (∀ value s0,
       let s1 := runContinuation (ApplyMementoThen collapsed) value s0 in
       getSelections (editor s1) = getSelections (editor s0)
       ∧ selectionCalls s1 = selectionCalls s0
       ∧ (_restoringViewState s0 = false -> _restoringViewState s1 = false))
  ∧ (∀ hiddenRanges s0, _restoringViewState s0 = true ->
       let s1 := onHiddenRangesChanges hiddenRanges s0 in
       effects s1 = SetHiddenAreas hiddenRanges :: effects s0
       ∧ getSelections (editor s1) = getSelections (editor s0)
       ∧ selectionCalls s1 = selectionCalls s0
       ∧ _restoringViewState s1 = true).
Proof.
  intros M U Hk K L C A P N. cbv zeta. cbv beta iota delta [step].
  destruct (restoreViewState_applied state s model k mp collapsed h events (Returned true)
              M U Hk K L C A) as (_ & A2 & _ & A4 & _ & _ & A7 & _).
  cbv zeta in A2, A4, A7. rewrite P in A7.
  destruct (restoreViewState_resolves state s model k mp collapsed h events d
              M U Hk K L C A P N) as (T1 & T2 & T3 & T4 & T5 & T6 & _ & T8).
  cbv zeta in T1, T2, T3, T4, T5, T6, T8.
  split; [exact A4|]. split.
  { intros e rest selections F -> Ne S.
    apply (restoreViewState_adjusts state s model k mp collapsed h e rest (Returned true)
             selections M U Hk K L C A F Ne S). }
  split; [exact A7|]. split; [exact A2|]. split; [exact T1|]. split; [exact T5|].
  split; [exact T6|]. split; [exact T2|]. split; [exact T3|]. split; [exact T4|].
  split; [exact T8|].
  split; [intros value s0; apply (applyMementoThen_still collapsed value s0)|].
  intros hiddenRanges s0 F. cbv zeta.
  destruct (onHiddenRangesChanges_restoring hiddenRanges s0 F) as (Q1 & Q2 & Q3).
  split; [apply onHiddenRangesChanges_suppressed, F|].
  split; [exact Q1|]. split; [exact Q2|]. rewrite Q3. exact F.
Qed.

(** ** Folding imports by default *)

#[local] Instance folded_refl : Reflexive folded.
Proof. intros s F. auto. Qed.

#[local] Instance folded_trans : Transitive folded.
Proof.
  intros s1 s2 s3 Q1 Q2 F. destruct (Q1 F) as [F2 N2]. destruct (Q2 F2) as [F3 N3].
  split; congruence.
Qed.

Lemma only_view_folded (s s' : Controller) : only_view s s' -> folded s s'.
Proof.
  intros [E _ _ _ (x & X & F)] C. split.
  - rewrite E. exact C.
  - unfold importFoldings. rewrite X, List.filter_app, length_app.
    replace (List.filter isImportFolding x) with (@nil Effect); [reflexivity|].
    clear X. induction x as [|e x IH]; [reflexivity|].
    simpl in F. apply andb_prop in F as [Fe Fx].
    simpl. destruct e; try discriminate; simpl; auto.
Qed.

Lemma settle_folded {A : Type} (k : nat) (o : Outcome A) (s : Controller) :
  folded s (settle k o s).
Proof. apply only_view_folded, settle_view. Qed.
Hint Resolve settle_folded : frames.

Lemma foldImports_folded (foldingRanges : FoldingRegions) (s : Controller) :
  folded s (snd (foldImports foldingRanges s)).
Proof.
  intros F. unfold foldImports. rewrite F, andb_false_r. simpl. auto.
Qed.
Hint Resolve foldImports_folded : frames.

Ltac folded := walk ltac:(intros ?; split; [assumption|reflexivity]).

Lemma cancelFoldingRegionPromise_folded (s : Controller) :
  folded s (cancelFoldingRegionPromise s).
Proof. cbv beta delta [cancelFoldingRegionPromise]. folded. Qed.
Hint Resolve cancelFoldingRegionPromise_folded : frames.

Lemma disposeRangeProvider_folded (s : Controller) : folded s (disposeRangeProvider s).
Proof. cbv beta delta [disposeRangeProvider]. folded. Qed.
Hint Resolve disposeRangeProvider_folded : frames.

Lemma triggerFoldingModelChanged_folded (s : Controller) :
  folded s (triggerFoldingModelChanged s).
Proof. cbv beta delta [triggerFoldingModelChanged]. folded. Qed.
Hint Resolve triggerFoldingModelChanged_folded : frames.

Lemma onFoldingStrategyChanged_folded (s : Controller) :
  folded s (onFoldingStrategyChanged s).
Proof. cbv beta delta [onFoldingStrategyChanged]. folded. Qed.
Hint Resolve onFoldingStrategyChanged_folded : frames.

Lemma getRangeProvider_folded (editorModel : TextModel) (s : Controller) :
  folded s (snd (getRangeProvider editorModel s)).
Proof.
  unfold getRangeProvider. destruct (rangeProvider s); cbn zeta; [reflexivity|].
  repeat case_match; simpl; folded.
Qed.
Hint Resolve getRangeProvider_folded : frames.

Lemma Delayer_timeout_folded (s : Controller) : folded s (Delayer_timeout s).
Proof. cbv beta delta [Delayer_timeout task_body]. folded. Qed.
Hint Resolve Delayer_timeout_folded : frames.

Lemma onFoldingRanges_folded (p : nat) (foldingRanges : option FoldingRegions)
    (newValue : Z) (s : Controller) :
  folded s (onFoldingRanges p foldingRanges newValue s).
Proof. cbv beta delta [onFoldingRanges]. folded. Qed.
Hint Resolve onFoldingRanges_folded : frames.

Lemma onFoldingRangesRejected_folded (p : nat) (err : JSError) (s : Controller) :
  folded s (onFoldingRangesRejected p err s).
Proof. cbv beta delta [onFoldingRangesRejected]. folded. Qed.
Hint Resolve onFoldingRangesRejected_folded : frames.

Lemma runContinuation_folded (c : Continuation) (value : option nat) (s : Controller) :
  folded s (runContinuation c value s).
Proof. cbv beta delta [runContinuation applyMementoThen invokeThen]. folded. Qed.
Hint Resolve runContinuation_folded : frames.

Lemma onFoldingModelPromise_folded (d : nat) (value : option nat) (s : Controller) :
  folded s (onFoldingModelPromise d value s).
Proof.
  cbv beta delta [onFoldingModelPromise]. cbv zeta.
  match goal with |- folded s (foldl _ ?x ?l) =>
    assert (Q : folded s x) by folded; generalize dependent x; generalize l
  end.
  induction l as [|c l IH]; intros s1 Q; simpl; [exact Q|].
  apply IH. transitivity s1; [exact Q|apply runContinuation_folded].
Qed.
Hint Resolve onFoldingModelPromise_folded : frames.

Lemma step_folded (s : Controller) (ev : Event) :
  rewritesFoldedImports ev = false -> folded s (step s ev).
Proof.
  intros R. destruct ev; cbv beta iota delta [step rewritesFoldedImports] in R |- *;
    try discriminate.
  - apply orb_false_elim in R as [R1 R2].
    cbv beta delta [onDidChangeConfiguration]. rewrite R1, R2. cbv iota. folded.
  - folded.
  - folded.
  - cbv beta delta [onDidChangeModelContent]. folded.
  - folded.
  - folded.
  - folded.
  - folded.
  - folded.
  - cbv beta delta [onInitializingTimeout]. folded.
  - folded.
  - cbv beta delta [_notifyTooManyRegions]. folded.
  - unfold runEditorCommand, getFoldingModel.
    destruct (foldingModelPromise s); simpl; [unfold then_; folded|reflexivity].
Qed.

Lemma run_folded (evs : list Event) (s : Controller) :
  forallb (fun ev => negb (rewritesFoldedImports ev)) evs = true -> folded s (run s evs).
Proof.
  revert s. induction evs as [|ev evs IH]; intros s E; [reflexivity|].
  cbn [forallb] in E. apply andb_prop in E as [E1 E2]. apply negb_true_iff in E1.
  change (run s (ev :: evs)) with (run (step s ev) evs).
  transitivity (step s ev); [apply step_folded, E1|apply IH, E2].
Qed.

#[local] Instance same_flag_refl : Reflexive same_flag.
Proof. intros s. reflexivity. Qed.

#[local] Instance same_flag_trans : Transitive same_flag.
Proof. intros s1 s2 s3 Q1 Q2. unfold same_flag in *. congruence. Qed.

Lemma triggerFoldingModelChanged_same_flag (s : Controller) :
  same_flag s (triggerFoldingModelChanged s).
Proof.
  cbv beta delta [triggerFoldingModelChanged cancelFoldingRegionPromise].
  walk ltac:(reflexivity).
Qed.

Lemma localToDispose_clear_document (s : Controller) :
  getModel (editor (localToDispose_clear s)) = getModel (editor s)
  ∧ _isEnabled (localToDispose_clear s) = _isEnabled s.
Proof.
  unfold localToDispose_clear. destruct (localToDispose s); [|auto].
  pose proof (disposeModels_calm s) as C0.
  rewrite <- (calm_model _ _ C0), <- (calm_enabled _ _ C0).
  generalize (disposeModels s). clear s C0. intros s.
  unfold disposeLocal, disposeRangeProvider.
  destruct (cancelFoldingRegionPromise_rest s) as (_ & E & I & _).
  generalize dependent (cancelFoldingRegionPromise s). intros s1 E I.
  repeat case_match; simpl; rewrite ?E; auto.
Qed.

Lemma onModelChanged_unfolds (s : Controller) :
  unavailable s = false -> _currentModelHasFoldedImports (onModelChanged s) = false.
Proof.
  intros U. cbv beta delta [onModelChanged].
  destruct (localToDispose_clear_document s) as [E I].
  unfold unavailable in U. rewrite <- E, <- I in U. clear E I.
  revert U. generalize (localToDispose_clear s). intros s1 U. cbv beta.
  lazymatch goal with |- _ (let x := ?a in @?f x) = _ =>
    change (_currentModelHasFoldedImports (f a) = false); cbv beta
  end.
  destruct (getModel (editor s1)); [|discriminate]. rewrite U.
  lazymatch goal with |- _ (let x := ?a in @?f x) = _ =>
    change (_currentModelHasFoldedImports (f a) = false);
    generalize (eq_refl : _currentModelHasFoldedImports a = false); generalize a
  end.
  intros s2 F. cbv beta. rewrite <- F.
  lazymatch goal with
  | |- _currentModelHasFoldedImports ?x = _currentModelHasFoldedImports ?y =>
      change (same_flag y x)
  end.
  walk ltac:(first [apply triggerFoldingModelChanged_same_flag | reflexivity]).
Qed.

(** C4 as amended. A current computation that resolves to folding ranges
    folds the import regions when [foldingImportsByDefault] is configured
    and the flag is not set, and sets the flag when a region was tagged as
    import; with the flag set it hands the ranges on as they are. With the
    flag set no run of events folds imports again or clears the flag unless
    it contains a model change, a reconfiguration of [folding] or
    [foldingMaximumRegions], or a [restoreViewState]: [onModelChanged]
    clears the flag whenever there is a document to fold, and
    [restoreViewState] sets it to the [foldedImports] of an accepted
    memento. *)
Theorem imports_folded_until_reset (s : Controller) :
  (∀ p foldingRanges newValue k mp,
     computations s !! p = Some k -> foldingRegionPromise s = Some p ->
     heap s !! k = Some mp ->
     let s' := step s (FoldingRangesResolved p (Some foldingRanges) newValue) in
     let result := setCollapsedAllOfType FoldingRangeKind_Imports true foldingRanges in
     (_foldingImportsByDefault s = true -> _currentModelHasFoldedImports s = false ->
      Update k (fst result) (selectionLineNumbers (editor s)) ∈ effects s'
      ∧ SetCollapsedAllOfType FoldingRangeKind_Imports (snd result) ∈ effects s'
      ∧ _currentModelHasFoldedImports s' = snd result)
     ∧ (_currentModelHasFoldedImports s = true ->
        Update k foldingRanges (selectionLineNumbers (editor s)) ∈ effects s'))
  ∧ (∀ evs, forallb (fun ev => negb (rewritesFoldedImports ev)) evs = true ->
       _currentModelHasFoldedImports s = true ->
       _currentModelHasFoldedImports (run s evs) = true
       ∧ importFoldings (run s evs) = importFoldings s)
  ∧ (unavailable s = false -> _currentModelHasFoldedImports (onModelChanged s) = false)
  ∧ (∀ state model k collapsed,
       getModel (editor s) = Some model -> unavailable s = false ->
       hiddenRangeModel s = Some k ->
       lineCount state = Some (getLineCount (editor s)) ->
       collapsedRegions state = Some collapsed ->
       _currentModelHasFoldedImports (fst (restoreViewState (Some state) s))
       = default false (foldedImports state)).
Proof.
  split; [|split; [|split]].
  - intros p foldingRanges newValue k mp C P K. cbv zeta.
    cbv beta iota delta [step onFoldingRanges]. rewrite C. cbv zeta.
    change (foldingRegionPromise (set_computations ?v s)) with (foldingRegionPromise s).
    rewrite bool_decide_eq_true_2 by exact P.
    match goal with |- context [foldImports foldingRanges ?x] => set (s1 := x) end.
    assert (G : ∀ rs scroll s2, heap s2 = heap s -> editor s2 = editor s ->
              let s' :=
                match heap s2 !! k with
                | Some mp =>
                    let o := FoldingModel_update mp rs (selectionLineNumbers (editor s2)) in
                    let s := settle k o
                               (emit (Update k rs (selectionLineNumbers (editor s2))) s2) in
                    match out_result o with
                    | Returned _ =>
                        let s := if scroll : bool then emit RestoreScrollState s else s in
                        match updateScheduler s with
                        | Some d =>
                            set_updateScheduler
                              (Some {| defaultDelay := newValue; task := task d |}) s
                        | None => s
                        end
                    | Threw e => emit (OnUnexpectedError e) s
                    end
                | None => s2
                end in
              Update k rs (selectionLineNumbers (editor s)) ∈ effects s'
              ∧ (∀ e, e ∈ effects s2 -> e ∈ effects s')
              ∧ _currentModelHasFoldedImports s' = _currentModelHasFoldedImports s2).
    { intros rs scroll s2 H2 E2. rewrite H2, E2, K. cbv zeta.
      match goal with |- context [settle k ?o ?x] =>
        pose proof (settle_effects k o x) as SE;
        pose proof (view_rest _ _ (settle_view k o x)) as SV;
        generalize dependent (settle k o x)
      end.
      intros s3 SE SV.
      assert (F3 : _currentModelHasFoldedImports s3 = _currentModelHasFoldedImports s2)
        by (rewrite SV; reflexivity).
      assert (U3 : Update k rs (selectionLineNumbers (editor s)) ∈ effects s3)
        by (apply SE; simpl; apply elem_of_cons; left; reflexivity).
      assert (M3 : ∀ e, e ∈ effects s2 -> e ∈ effects s3)
        by (intros e I; apply SE; simpl; apply elem_of_cons; right; exact I).
      clear SE SV.
      destruct (out_result _); [destruct scroll; destruct (updateScheduler _)|]; simpl;
        (split; [|split];
         [ try (apply elem_of_cons; right); exact U3
         | intros e' I; try (apply elem_of_cons; right); apply M3, I
         | exact F3 ]). }
    split.
    + intros D F. unfold foldImports.
      change (_foldingImportsByDefault s1) with (_foldingImportsByDefault s).
      change (_currentModelHasFoldedImports s1) with (_currentModelHasFoldedImports s).
      rewrite D, F. cbn [andb negb].
      destruct (setCollapsedAllOfType FoldingRangeKind_Imports true foldingRanges)
        as [rs [|]]; cbn [fst snd].
      * match goal with |- context [heap ?x !! k] =>
          destruct (G rs true x eq_refl eq_refl) as (G1 & G2 & G3)
        end.
        split; [exact G1|]. split; [|exact (eq_trans G3 eq_refl)].
        refine (G2 _ _). simpl. apply elem_of_cons. right. apply elem_of_cons. left.
        reflexivity.
      * match goal with |- context [heap ?x !! k] =>
          destruct (G rs false x eq_refl eq_refl) as (G1 & G2 & G3)
        end.
        split; [exact G1|]. split; [|exact (eq_trans G3 F)].
        refine (G2 _ _). simpl. apply elem_of_cons. left. reflexivity.
    + intros F. unfold foldImports.
      change (_currentModelHasFoldedImports s1) with (_currentModelHasFoldedImports s).
      rewrite F, andb_false_r.
      destruct (G foldingRanges false s1 eq_refl eq_refl) as (G1 & _). exact G1.
  - intros evs E F. apply (run_folded evs s E F).
  - apply onModelChanged_unfolds.
  - intros state model k collapsed M U Hk L C.
    unfold unavailable in U. rewrite M in U.
    unfold restoreViewState. rewrite M, Hk, U, C.
    rewrite bool_decide_eq_true_2 by exact L. cbv zeta.
    match goal with |- context [heap ?x !! k] =>
      assert (F : _currentModelHasFoldedImports x = default false (foldedImports state))
        by (destruct (bool_decide (provider state = Some ID_SYNTAX_PROVIDER) || _);
            reflexivity);
      generalize dependent x
    end.
    intros s1 F.
    destruct (heap s1 !! k) as [mp|]; [|exact F].
    destruct (HiddenRangeModel_applyMemento (hrm mp) collapsed) as [[h events] result].
    match goal with |- context [settle k ?o ?x] =>
      pose proof (view_rest _ _ (settle_view k o x)) as SV;
      generalize dependent (settle k o x)
    end.
    intros s2 SV.
    assert (F2 : _currentModelHasFoldedImports s2 = default false (foldedImports state))
      by (rewrite SV; exact F).
    destruct result as [[|]|]; simpl; try exact F2.
    unfold getFoldingModel. destruct (foldingModelPromise s2); exact F2.
Qed.
(** * The bundle and what it owns *)

#[local] Instance kept_refl : Reflexive kept.
Proof. intros s. split; auto. Qed.

#[local] Instance kept_trans : Transitive kept.
Proof.
  intros s1 s2 s3 [B1 M1 E1 F1 H1 P1 MP1 RP1 C1] [B2 M2 E2 F2 H2 P2 MP2 RP2 C2].
  split; try congruence; auto.
  destruct RP2 as [R|R]; rewrite R; auto.
Qed.

Ltac kept_close :=
  split; simpl;
  first [ reflexivity
        | left; reflexivity
        | right; reflexivity
        | intros; assumption
        | intros; eauto; fail
        | intros ? ?; apply lookup_insert_is_Some'; right; assumption
        | intros ? ? [_ ?]%lookup_delete_Some; assumption ].

Ltac kept := walk kept_close.

Lemma onHiddenRangesChanges_kept (hiddenRanges : list IRange) (s : Controller) :
  kept s (onHiddenRangesChanges hiddenRanges s).
Proof. cbv beta delta [onHiddenRangesChanges]. kept. Qed.
Hint Resolve onHiddenRangesChanges_kept : frames.

Lemma fire_kept (k : nat) (m : FoldingModel) (e : Emission) (s : Controller) :
  kept s (fire k m e s).
Proof. cbv beta delta [fire]. kept. Qed.
Hint Resolve fire_kept : frames.

Lemma settle_kept {A : Type} (k : nat) (o : Outcome A) (s : Controller) :
  kept s (settle k o s).
Proof.
  assert (G : ∀ l s0 s1, kept s0 s1 ->
                kept s0 (foldl (fun s e => fire k (fm (out_models o)) e s) s1 l)).
  { induction l as [|e l IH]; intros s0 s1 Q; simpl; [exact Q|].
    apply IH. transitivity s1; [exact Q|apply fire_kept]. }
  cbv beta delta [settle]. cbv zeta.
  specialize (G (out_events o) s s (reflexivity s)). revert G.
  generalize (foldl (fun s e => fire k (fm (out_models o)) e s) s (out_events o)).
  intros s1 Q. transitivity s1; [exact Q|kept_close].
Qed.
Hint Resolve settle_kept : frames.

Lemma cancelFoldingRegionPromise_kept (s : Controller) :
  kept s (cancelFoldingRegionPromise s).
Proof. cbv beta delta [cancelFoldingRegionPromise]. kept. Qed.
Hint Resolve cancelFoldingRegionPromise_kept : frames.

Lemma disposeRangeProvider_kept (s : Controller) : kept s (disposeRangeProvider s).
Proof. cbv beta delta [disposeRangeProvider]. kept. Qed.
Hint Resolve disposeRangeProvider_kept : frames.

Lemma triggerFoldingModelChanged_kept (s : Controller) :
  kept s (triggerFoldingModelChanged s).
Proof. cbv beta delta [triggerFoldingModelChanged]. kept. Qed.
Hint Resolve triggerFoldingModelChanged_kept : frames.

Lemma onFoldingStrategyChanged_kept (s : Controller) : kept s (onFoldingStrategyChanged s).
Proof. cbv beta delta [onFoldingStrategyChanged]. kept. Qed.
Hint Resolve onFoldingStrategyChanged_kept : frames.

Lemma getRangeProvider_kept (editorModel : TextModel) (s : Controller) :
  kept s (snd (getRangeProvider editorModel s)).
Proof. unfold getRangeProvider. repeat case_match; simpl; kept. Qed.
Hint Resolve getRangeProvider_kept : frames.

Lemma foldImports_kept (foldingRanges : FoldingRegions) (s : Controller) :
  kept s (snd (foldImports foldingRanges s)).
Proof. unfold foldImports. repeat case_match; simpl; kept. Qed.
Hint Resolve foldImports_kept : frames.

Lemma notifyTooManyRegions_kept (n : Z) (s : Controller) : kept s (_notifyTooManyRegions n s).
Proof. cbv beta delta [_notifyTooManyRegions]. kept. Qed.
Hint Resolve notifyTooManyRegions_kept : frames.

Lemma onDidChangeModelContent_kept (s : Controller) : kept s (onDidChangeModelContent s).
Proof. cbv beta delta [onDidChangeModelContent]. kept. Qed.
Hint Resolve onDidChangeModelContent_kept : frames.

Lemma onFoldingRanges_kept (p : nat) (foldingRanges : option FoldingRegions) (newValue : Z)
    (s : Controller) :
  kept s (onFoldingRanges p foldingRanges newValue s).
Proof. cbv beta delta [onFoldingRanges]. kept. Qed.
Hint Resolve onFoldingRanges_kept : frames.

Lemma onFoldingRangesRejected_kept (p : nat) (err : JSError) (s : Controller) :
  kept s (onFoldingRangesRejected p err s).
Proof. cbv beta delta [onFoldingRangesRejected]. kept. Qed.
Hint Resolve onFoldingRangesRejected_kept : frames.

Lemma restoreViewState_kept (state : option FoldingStateMemento) (s : Controller) :
  kept s (fst (restoreViewState state s)).
Proof. cbv beta delta [restoreViewState getFoldingModel then_]. kept. Qed.
Hint Resolve restoreViewState_kept : frames.

Lemma runContinuation_kept (c : Continuation) (value : option nat) (s : Controller) :
  kept s (runContinuation c value s).
Proof. cbv beta delta [runContinuation applyMementoThen invokeThen]. kept. Qed.
Hint Resolve runContinuation_kept : frames.

Lemma onFoldingModelPromise_kept (d : nat) (value : option nat) (s : Controller) :
  kept s (onFoldingModelPromise d value s).
Proof.
  cbv beta delta [onFoldingModelPromise]. cbv zeta.
  match goal with |- kept s (foldl _ ?x ?l) =>
    assert (Q : kept s x) by kept; generalize dependent x; generalize l
  end.
  induction l as [|c l IH]; intros s1 Q; simpl; [exact Q|].
  apply IH. transitivity s1; [exact Q|apply runContinuation_kept].
Qed.
Hint Resolve onFoldingModelPromise_kept : frames.

Lemma runEditorCommand_kept (action : FoldingAction) (args : option FoldingArguments)
    (s : Controller) :
  kept s (default s (runEditorCommand action args (Some s))).
Proof.
  unfold runEditorCommand, getFoldingModel.
  destruct (foldingModelPromise s); simpl; [unfold then_; kept|reflexivity].
Qed.

#[local] Instance released_refl : Reflexive released.
Proof. intros s. split; auto. Qed.

#[local] Instance released_trans : Transitive released.
Proof.
  intros s1 s2 s3 [M1 P1] [M2 P2]. split.
  - destruct M2 as [M2|M2]; rewrite M2; auto.
  - destruct P2 as [P2|P2]; rewrite P2; auto.
Qed.

Lemma only_view_released (s s' : Controller) : only_view s s' -> released s s'.
Proof. intros [E _ _ _ _]. rewrite E. split; left; reflexivity. Qed.

Lemma settle_released {A : Type} (k : nat) (o : Outcome A) (s : Controller) :
  released s (settle k o s).
Proof. apply only_view_released, settle_view. Qed.
Hint Resolve settle_released : frames.

Ltac released_close := split; simpl; first [left; reflexivity | right; reflexivity].

Ltac released := walk released_close.

Lemma cancelFoldingRegionPromise_released (s : Controller) :
  released s (cancelFoldingRegionPromise s).
Proof. cbv beta delta [cancelFoldingRegionPromise]. released. Qed.
Hint Resolve cancelFoldingRegionPromise_released : frames.

Lemma disposeRangeProvider_released (s : Controller) : released s (disposeRangeProvider s).
Proof. cbv beta delta [disposeRangeProvider]. released. Qed.
Hint Resolve disposeRangeProvider_released : frames.

Lemma triggerFoldingModelChanged_released (s : Controller) :
  released s (triggerFoldingModelChanged s).
Proof. cbv beta delta [triggerFoldingModelChanged]. released. Qed.
Hint Resolve triggerFoldingModelChanged_released : frames.

Lemma onFoldingStrategyChanged_released (s : Controller) :
  released s (onFoldingStrategyChanged s).
Proof. cbv beta delta [onFoldingStrategyChanged]. released. Qed.
Hint Resolve onFoldingStrategyChanged_released : frames.

Lemma foldImports_released (foldingRanges : FoldingRegions) (s : Controller) :
  released s (snd (foldImports foldingRanges s)).
Proof. unfold foldImports. repeat case_match; simpl; released. Qed.
Hint Resolve foldImports_released : frames.

Lemma notifyTooManyRegions_released (n : Z) (s : Controller) :
  released s (_notifyTooManyRegions n s).
Proof. cbv beta delta [_notifyTooManyRegions]. released. Qed.
Hint Resolve notifyTooManyRegions_released : frames.

Lemma onDidChangeModelContent_released (s : Controller) :
  released s (onDidChangeModelContent s).
Proof. cbv beta delta [onDidChangeModelContent]. released. Qed.
Hint Resolve onDidChangeModelContent_released : frames.

Lemma onFoldingRanges_released (p : nat) (foldingRanges : option FoldingRegions)
    (newValue : Z) (s : Controller) :
  released s (onFoldingRanges p foldingRanges newValue s).
Proof. cbv beta delta [onFoldingRanges]. released. Qed.
Hint Resolve onFoldingRanges_released : frames.

Lemma onFoldingRangesRejected_released (p : nat) (err : JSError) (s : Controller) :
  released s (onFoldingRangesRejected p err s).
Proof. cbv beta delta [onFoldingRangesRejected]. released. Qed.
Hint Resolve onFoldingRangesRejected_released : frames.

Lemma runContinuation_released (c : Continuation) (value : option nat) (s : Controller) :
  released s (runContinuation c value s).
Proof. cbv beta delta [runContinuation applyMementoThen invokeThen]. released. Qed.
Hint Resolve runContinuation_released : frames.

Lemma onFoldingModelPromise_released (d : nat) (value : option nat) (s : Controller) :
  released s (onFoldingModelPromise d value s).
Proof.
  cbv beta delta [onFoldingModelPromise]. cbv zeta.
  match goal with |- released s (foldl _ ?x ?l) =>
    assert (Q : released s x) by released; generalize dependent x; generalize l
  end.
  induction l as [|c l IH]; intros s1 Q; simpl; [exact Q|].
  apply IH. transitivity s1; [exact Q|apply runContinuation_released].
Qed.
Hint Resolve onFoldingModelPromise_released : frames.

Lemma runEditorCommand_released (action : FoldingAction) (args : option FoldingArguments)
    (s : Controller) :
  released s (default s (runEditorCommand action args (Some s))).
Proof.
  unfold runEditorCommand, getFoldingModel.
  destruct (foldingModelPromise s); simpl; [unfold then_; released|reflexivity].
Qed.

(** Under both relations the bundle stays wired. *)
Lemma kept_wired (s s' : Controller) : kept s s' -> released s s' -> wired s -> wired s'.
Proof.
  intros [B M E F Hm Hp MP RP C] [SM P] [WA WD WV WC]. split.
  - rewrite B. intros L. destruct (WA L) as [(k & K1 & K2 & K3) A2].
    split; [exists k; rewrite F, Hm; auto|auto].
  - rewrite B. intros L. destruct (WD L) as [D1 D2 D3 D4 D5].
    split; try congruence.
    + destruct RP; congruence.
    + destruct SM; congruence.
    + destruct P; congruence.
  - unfold unavailable in *. rewrite M, E, B. exact WV.
  - intros p k R I. rewrite F. apply (WC p k); [|auto].
    destruct RP as [RP|RP]; congruence.
Qed.

Lemma kept_wired_registered (s s' : Controller) :
  kept s s' -> localToDispose s = true -> wired s -> wired s'.
Proof.
  intros [B M E F Hm Hp MP RP C] L [WA WD WV WC]. split.
  - intros _. destruct (WA L) as [(k & K1 & K2 & K3) A2].
    split; [exists k; rewrite F, Hm; auto|auto].
  - rewrite B, L. discriminate.
  - intros _. congruence.
  - intros p k R I. rewrite F. apply (WC p k); [|auto].
    destruct RP as [RP|RP]; congruence.
Qed.

Lemma wired_registered (s : Controller) :
  wired s -> is_Some (hiddenRangeModel s) ∨ is_Some (foldingModel s) ->
  localToDispose s = true.
Proof.
  intros [_ WD _ _] I. destruct (localToDispose s); [reflexivity|].
  destruct (WD eq_refl) as [D1 D2 _ _ _]. rewrite D1, D2 in I.
  destruct I as [[? I]|[? I]]; discriminate.
Qed.

(** Clearing the bundle leaves the controller detached. *)
Lemma localToDispose_clear_detached (s : Controller) :
  (localToDispose s = false -> detached s) ->
  localToDispose (localToDispose_clear s) = false
  ∧ detached (localToDispose_clear s)
  ∧ getModel (editor (localToDispose_clear s)) = getModel (editor s)
  ∧ _isEnabled (localToDispose_clear s) = _isEnabled s.
Proof.
  intros D. unfold localToDispose_clear.
  destruct (localToDispose s) eqn:L; [|auto].
  pose proof (disposeModels_calm s) as C0.
  rewrite <- (calm_model _ _ C0), <- (calm_enabled _ _ C0).
  generalize (disposeModels s). clear s D L C0. intros s.
  unfold disposeLocal, cancelFoldingRegionPromise, disposeRangeProvider.
  destruct s. simpl.
  repeat case_match; simpl;
    (split; [reflexivity|split; [split; reflexivity|split; reflexivity]]).
Qed.

Lemma onModelChanged_wired (s : Controller) :
  (localToDispose s = false -> detached s) -> wired (onModelChanged s).
Proof.
  intros D. unfold onModelChanged.
  destruct (localToDispose_clear_detached s D) as (L & [D1 D2 D3 D4 D5] & _).
  generalize dependent (localToDispose_clear s). clear s D. intros s L D1 D2 D3 D4 D5.
  cbn zeta.
  assert (W : unavailable s = true -> wired s).
  { intros U. split.
    - rewrite L. discriminate.
    - intros _. split; assumption.
    - rewrite U. discriminate.
    - rewrite D3. discriminate. }
  destruct (getModel (editor s)) as [model|] eqn:M.
  2: { apply W. unfold unavailable. rewrite M. reflexivity. }
  destruct (negb (_isEnabled s) || isTooLargeForTokenization model) eqn:U.
  { apply W. unfold unavailable. rewrite M. exact U. }
  clear W. unfold triggerFoldingModelChanged, cancelFoldingRegionPromise. simpl.
  rewrite D3. simpl. split; simpl.
  - intros _. split; simpl; [|eauto].
    exists (nextId s). rewrite lookup_insert_eq. eauto.
  - discriminate.
  - reflexivity.
  - intros p k. rewrite D3. discriminate.
Qed.

Lemma Delayer_timeout_wired (s : Controller) :
  invariant s -> wired s -> wired (Delayer_timeout s).
Proof.
  intros [S _] W. unfold Delayer_timeout.
  destruct (updateScheduler s) as [d|] eqn:U; [|exact W].
  destruct (task d) eqn:T; [|exact W].
  assert (L : localToDispose s = true).
  { destruct (localToDispose s) eqn:L; [reflexivity|].
    destruct (disposed_idle s S L). congruence. }
  match goal with |- wired (task_body ?x) => set (s1 := x) end.
  assert (W1 : wired s1) by (apply (kept_wired_registered s); [kept_close|exact L|exact W]).
  assert (L1 : localToDispose s1 = true) by exact L.
  clearbody s1. clear s S W U L. unfold task_body.
  destruct (foldingModel s1) as [k|] eqn:F; [|exact W1].
  destruct (heap s1 !! k) as [mp|]; [|exact W1].
  pose proof (getRangeProvider_kept (textModel (fm mp)) s1) as Q.
  destruct (getRangeProvider (textModel (fm mp)) s1) as [provider s2]. simpl in Q.
  pose proof (kept_wired_registered _ _ Q L1 W1) as [WA WD WV WC].
  rewrite <- (kept_bundle _ _ Q) in L1. rewrite <- (kept_foldingModel _ _ Q) in F.
  cbn zeta. split; simpl.
  - intros _. destruct (WA L1) as [A1 A2]. split; assumption.
  - rewrite L1. discriminate.
  - auto.
  - intros p k' [= <-]. rewrite lookup_insert_eq. intros [= <-]. exact F.
Qed.

Lemma restoreViewState_wired (state : option FoldingStateMemento) (s : Controller) :
  wired s -> wired (fst (restoreViewState state s)).
Proof.
  intros W. destruct (hiddenRangeModel s) as [k|] eqn:Hm.
  - apply (kept_wired_registered s); [apply restoreViewState_kept| |exact W].
    apply wired_registered; [exact W|]. rewrite Hm. eauto.
  - unfold restoreViewState. rewrite Hm. destruct (getModel (editor s)); exact W.
Qed.

Lemma wired_detached_set (s s' : Controller) :
  wired s ->
  localToDispose s' = localToDispose s -> foldingModel s' = foldingModel s ->
  hiddenRangeModel s' = hiddenRangeModel s ->
  foldingRegionPromise s' = foldingRegionPromise s ->
  foldingStateMemento s' = foldingStateMemento s -> rangeProvider s' = rangeProvider s ->
  localToDispose s' = false -> detached s'.
Proof.
  intros [_ WD _ _] L F Hm R M P L'. rewrite L in L'.
  destruct (WD L') as [D1 D2 D3 D4 D5]. split; congruence.
Qed.

Lemma onDidChangeConfiguration_wired (e : ConfigurationChangedEvent) (s : Controller) :
  wired s -> wired (onDidChangeConfiguration e s).
Proof.
  intros W. cbv beta delta [onDidChangeConfiguration].
  lazymatch goal with |- wired (let x := ?a in @?f x) =>
    change (wired (f a)); assert (W1 : wired a)
  end.
  { destruct (hasChanged e folding); [|exact W].
    apply onModelChanged_wired. apply (wired_detached_set s); auto. }
  revert W1. generalize (if hasChanged e folding
    then onModelChanged (set_isEnabled (opt_folding (getOptions (editor s))) s) else s).
  clear s W. intros s W. cbv beta.
  lazymatch goal with |- wired (let x := ?a in @?f x) =>
    change (wired (f a)); assert (W1 : wired a)
  end.
  { destruct (hasChanged e foldingMaximumRegions); [|exact W]. cbn zeta.
    apply onModelChanged_wired. apply (wired_detached_set s); auto. }
  revert W1.
  lazymatch goal with |- wired ?a -> _ => generalize a end.
  clear s W. intros s W. cbv beta.
  lazymatch goal with |- wired (let x := ?a in @?f x) =>
    change (wired (f a)); assert (W1 : wired a)
  end.
  { destruct (_ || _); [|exact W]. cbn zeta.
    apply (kept_wired s); [kept|released|exact W]. }
  revert W1.
  lazymatch goal with |- wired ?a -> _ => generalize a end.
  clear s W. intros s W. cbv beta.
  lazymatch goal with |- wired (let x := ?a in @?f x) =>
    change (wired (f a)); assert (W1 : wired a)
  end.
  { destruct (hasChanged e foldingStrategy); [|exact W]. cbn zeta.
    apply (kept_wired s); [kept|released|exact W]. }
  revert W1.
  lazymatch goal with |- wired ?a -> _ => generalize a end.
  clear s W. intros s W. cbv beta.
  apply (kept_wired s); [kept|released|exact W].
Qed.

Lemma step_wired (s : Controller) (ev : Event) :
  invariant s -> wired s -> wired (step s ev).
Proof.
  intros I W. destruct ev; cbv beta iota delta [step].
  - apply onModelChanged_wired. apply (wired_detached_set s); auto.
  - apply onDidChangeConfiguration_wired.
    apply (kept_wired s); [kept_close|released_close|exact W].
  - apply (kept_wired s); [kept|released|exact W].
  - apply (kept_wired s); [kept|released|exact W].
  - apply (kept_wired s); [kept|released|exact W].
  - apply (kept_wired s); [kept|released|exact W].
  - apply Delayer_timeout_wired; assumption.
  - apply (kept_wired s); [kept|released|exact W].
  - apply (kept_wired s); [kept|released|exact W].
  - apply (kept_wired s); [kept|released|exact W].
  - apply (kept_wired s); [|
      |exact W]; cbv beta delta [onInitializingTimeout]; [kept|released].
  - apply (kept_wired s); [kept|released|exact W].
  - apply (kept_wired s); [kept|released|exact W].
  - apply restoreViewState_wired, W.
  - apply (kept_wired s);
      [apply runEditorCommand_kept|apply runEditorCommand_released|exact W].
Qed.

Lemma constructor_wired (ed : Editor) (registry : list (string * FoldingRangeProvider)) :
  wired (constructor ed registry).
Proof.
  unfold constructor. cbn zeta. apply onModelChanged_wired.
  intros _. split; reflexivity.
Qed.

Lemma run_wired (evs : list Event) (s : Controller) :
  invariant s -> wired s -> wired (run s evs).
Proof.
  revert s. induction evs as [|ev evs IH]; intros s I W; simpl; [exact W|].
  apply IH; [apply step_invariant, I|apply step_wired; assumption].
Qed.

Lemma reachable_wired (ed : Editor) (registry : list (string * FoldingRangeProvider))
    (evs : list Event) :
  invariant (run (constructor ed registry) evs) ∧ wired (run (constructor ed registry) evs).
Proof.
  split.
  - apply run_invariant, constructor_invariant.
  - apply run_wired; [apply constructor_invariant|apply constructor_wired].
Qed.

Lemma wired_held (s : Controller) :
  invariant s -> wired s -> unavailable s = false ->
  ∃ k mp, foldingModel s = Some k ∧ hiddenRangeModel s = Some k ∧ heap s !! k = Some mp
          ∧ is_Some (updateScheduler s) ∧ is_Some (foldingModelPromise s).
Proof.
  intros [S _] [WA _ WV _] U. specialize (WV U).
  destruct (WA WV) as [(k & F & Hm & mp & K) MP].
  exists k, mp. split; [exact F|]. split; [exact Hm|]. split; [exact K|].
  split; [apply (registered_scheduler s S WV)|exact MP].
Qed.

(** X1. In every state the controller reaches from its construction, it
    holds a folding model, the hidden range model built on it (both under
    one reference, with their objects in the store), a scheduler and a
    promise of the folding model exactly when a document is attached,
    folding is enabled and the document is not too large for tokenization;
    otherwise it holds none of them, and neither a computation, a stored
    memento nor a range provider. *)
Theorem bundle_follows_availability (ed : Editor)
    (registry : list (string * FoldingRangeProvider)) (evs : list Event) :
  let s := run (constructor ed registry) evs in
  (unavailable s = true ->
   foldingModel s = None ∧ hiddenRangeModel s = None ∧ updateScheduler s = None
   ∧ foldingModelPromise s = None ∧ foldingRegionPromise s = None
   ∧ foldingStateMemento s = None ∧ rangeProvider s = None)
  ∧ (unavailable s = false ->
     ∃ k mp, foldingModel s = Some k ∧ hiddenRangeModel s = Some k ∧ heap s !! k = Some mp
             ∧ is_Some (updateScheduler s) ∧ is_Some (foldingModelPromise s)).
Proof.
  intros s. destruct (reachable_wired ed registry evs) as [I W]. fold s in I, W.
  split.
  - intros U. destruct I as [S B]. specialize (B U).
    destruct (disposed_idle s S B) as [D1 D2].
    destruct (wired_detached s W B) as [D3 D4 D5 D6 D7]. auto 10.
  - apply wired_held; assumption.
Qed.

(** ** Saving and restoring the view state *)

Lemma saveViewState_held (s : Controller) (k : nat) (mp : Models) :
  unavailable s = false ->
  foldingModel s = Some k -> hiddenRangeModel s = Some k -> heap s !! k = Some mp ->
  saveViewState s
  = Returned (Some {| collapsedRegions :=
                        if isInitialized (fm mp) then FoldingModel_getMemento (fm mp)
                        else Some (HiddenRangeModel_getMemento (hrm mp));
                      lineCount := Some (getLineCount (editor s));
                      provider := RangeProvider_id <$> rangeProvider s;
                      foldedImports := Some (_currentModelHasFoldedImports s) |}).
Proof.
  intros U F Hm K. unfold unavailable in U. unfold saveViewState, hiddenRangeModelObject.
  destruct (getModel (editor s)) as [model|]; [|discriminate].
  rewrite U, F, Hm. simpl. rewrite K. simpl.
  destruct (isInitialized (fm mp)); reflexivity.
Qed.

(** X2. In every state the controller reaches from its construction,
    [saveViewState] returns normally and never [undefined]: the empty
    object when there is no document to fold, and otherwise a memento with
    the line count of the document, the id of the range provider in use (if
    any), the flag of the folded imports, and the collapsed regions of the
    folding model once it is initialized, of the hidden range model before.
    The hidden range model it dereferences is never [null]. *)
Theorem saveViewState_returns (ed : Editor)
    (registry : list (string * FoldingRangeProvider)) (evs : list Event) :
  let s := run (constructor ed registry) evs in
  (unavailable s = true ∧ saveViewState s = Returned (Some emptyMemento))
  ∨ (unavailable s = false
     ∧ ∃ k mp,
         foldingModel s = Some k ∧ heap s !! k = Some mp
         ∧ saveViewState s
           = Returned
               (Some {| collapsedRegions :=
                          if isInitialized (fm mp) then FoldingModel_getMemento (fm mp)
                          else Some (HiddenRangeModel_getMemento (hrm mp));
                        lineCount := Some (getLineCount (editor s));
                        provider := RangeProvider_id <$> rangeProvider s;
                        foldedImports := Some (_currentModelHasFoldedImports s) |})).
Proof.
  intros s. destruct (reachable_wired ed registry evs) as [I W]. fold s in I, W.
  destruct (unavailable s) eqn:U.
  - left. split; [reflexivity|].
    unfold unavailable in U. unfold saveViewState.
    destruct (getModel (editor s)); [rewrite U|]; reflexivity.
  - right. split; [reflexivity|].
    destruct (wired_held s I W U) as (k & mp & F & Hm & K & _).
    exists k, mp. split; [exact F|]. split; [exact K|].
    apply (saveViewState_held s k mp); assumption.
Qed.

(** What [restoreViewState] does with a memento it accepts. *)
Lemma restoreViewState_accepted (state : FoldingStateMemento) (s : Controller)
    (k : nat) (mp : Models) (collapsed : CollapseMemento) :
  unavailable s = false ->
  hiddenRangeModel s = Some k ->
  heap s !! k = Some mp ->
  lineCount state = Some (getLineCount (editor s)) ->
  collapsedRegions state = Some collapsed ->
  let s' := fst (restoreViewState (Some state) s) in
  _currentModelHasFoldedImports s' = default false (foldedImports state)
  ∧ foldingStateMemento s'
    = (if bool_decide (provider state = Some ID_SYNTAX_PROVIDER)
          || bool_decide (provider state = Some ID_INIT_PROVIDER)
       then Some state else foldingStateMemento s)
  ∧ ∃ view, effects s' = view ++ HiddenApplyMemento k collapsed :: effects s
            ∧ forallb viewEffect view = true.
Proof.
  intros U Hk K L C. unfold unavailable in U.
  unfold restoreViewState.
  destruct (getModel (editor s)) as [model|]; [|discriminate].
  rewrite Hk, U, C.
  rewrite bool_decide_eq_true_2 by exact L. cbn zeta.
  match goal with |- context [heap ?x !! k] => set (s1 := x) end.
  assert (F1 : _currentModelHasFoldedImports s1 = default false (foldedImports state))
    by (subst s1; destruct (bool_decide (provider state = Some ID_SYNTAX_PROVIDER) || _); reflexivity).
  assert (M1 : foldingStateMemento s1
               = (if bool_decide (provider state = Some ID_SYNTAX_PROVIDER)
                     || bool_decide (provider state = Some ID_INIT_PROVIDER)
                  then Some state else foldingStateMemento s))
    by (subst s1; destruct (bool_decide (provider state = Some ID_SYNTAX_PROVIDER) || _); reflexivity).
  assert (E1 : effects s1 = effects s) by (subst s1; destruct (bool_decide (provider state = Some ID_SYNTAX_PROVIDER) || _); reflexivity).
  assert (K1 : heap s1 !! k = Some mp) by (subst s1; destruct (bool_decide (provider state = Some ID_SYNTAX_PROVIDER) || _); exact K).
  clearbody s1. rewrite K1.
  destruct (HiddenRangeModel_applyMemento (hrm mp) collapsed) as [[h events] result].
  cbn zeta.
  match goal with |- context [settle k ?o ?x] =>
    pose proof (settle_view k o x) as [SV _ _ _ (view & V1 & V2)];
    generalize dependent (settle k o x)
  end.
  intros s2 SV V1. simpl in V1. rewrite E1 in V1.
  assert (G : _currentModelHasFoldedImports s2 = default false (foldedImports state)
              ∧ foldingStateMemento s2
                = (if bool_decide (provider state = Some ID_SYNTAX_PROVIDER)
                      || bool_decide (provider state = Some ID_INIT_PROVIDER)
                   then Some state else foldingStateMemento s)
              ∧ ∃ view, effects s2 = view ++ HiddenApplyMemento k collapsed :: effects s
                        ∧ forallb viewEffect view = true).
  { split; [rewrite SV; exact F1|]. split; [rewrite SV; exact M1|eauto]. }
  destruct result as [[|]|]; simpl; try exact G.
  unfold getFoldingModel. destruct (foldingModelPromise s2); exact G.
Qed.

(** X3. Saving and restoring round-trip: in every state the controller
    reaches from its construction, the state [saveViewState] returns is one
    [restoreViewState] accepts at once. Restoring it leaves the flag of the
    folded imports as it is; a state without collapsed regions (the empty
    object, or a folding model without memento) changes nothing at all;
    otherwise the hidden range model is given exactly the saved regions, the
    only calls made besides being those of the listener of hidden range
    changes, and the state is stored as the memento for the next provider
    selection when a syntax or initializing provider was in use, and not
    when no provider was. *)
Theorem saved_state_restores (ed : Editor)
    (registry : list (string * FoldingRangeProvider)) (evs : list Event) :
  let s := run (constructor ed registry) evs in
  ∃ state,
    saveViewState s = Returned (Some state)
    ∧ let s' := fst (restoreViewState (Some state) s) in
      _currentModelHasFoldedImports s' = _currentModelHasFoldedImports s
      ∧ (collapsedRegions state = None -> s' = s)
      ∧ (∀ collapsed, collapsedRegions state = Some collapsed ->
           ∃ k view,
             hiddenRangeModel s = Some k
             ∧ effects s' = view ++ HiddenApplyMemento k collapsed :: effects s
             ∧ forallb viewEffect view = true
             ∧ (∀ p, rangeProvider s = Some p ->
                  (∀ m i, p ≠ IndentRangeProvider m i) ->
                  foldingStateMemento s' = Some state)
             ∧ (rangeProvider s = None -> foldingStateMemento s' = foldingStateMemento s)).
Proof.
  intros s. destruct (reachable_wired ed registry evs) as [I W]. fold s in I, W.
  clearbody s. destruct (unavailable s) eqn:U.
  - exists emptyMemento.
    assert (R : restoreViewState (Some emptyMemento) s = (s, Returned tt)).
    { unfold unavailable in U. unfold restoreViewState.
      destruct (getModel (editor s)); [|reflexivity].
      destruct (hiddenRangeModel s); [rewrite U|]; reflexivity. }
    split.
    + unfold unavailable in U. unfold saveViewState.
      destruct (getModel (editor s)); [rewrite U|]; reflexivity.
    + cbv zeta. rewrite R. simpl. split; [reflexivity|]. split; [reflexivity|].
      intros collapsed. discriminate.
  - destruct (wired_held s I W U) as (k & mp & F & Hm & K & _).
    eexists. split; [apply (saveViewState_held s k mp); assumption|].
    match goal with |- context [restoreViewState (Some ?x) s] => set (state := x) end.
    cbv zeta. destruct (collapsedRegions state) as [collapsed|] eqn:C.
    + destruct (restoreViewState_accepted state s k mp collapsed U Hm K eq_refl C)
        as (G1 & G2 & view & G3 & G4).
      split; [exact G1|]. split; [discriminate|].
      intros c [= <-]. exists k, view.
      split; [exact Hm|]. split; [exact G3|]. split; [exact G4|].
      rewrite G2. change (provider state) with (RangeProvider_id <$> rangeProvider s).
      split.
      * intros p P N. rewrite P. simpl.
        destruct p as [m i| |]; [destruct (N m i eq_refl)| |]; simpl.
        -- rewrite (bool_decide_eq_true_2 (Some ID_INIT_PROVIDER = Some ID_INIT_PROVIDER))
             by reflexivity.
           rewrite orb_true_r. reflexivity.
        -- rewrite bool_decide_eq_true_2 by reflexivity. reflexivity.
      * intros P. rewrite P. reflexivity.
    + assert (R : restoreViewState (Some state) s = (s, Returned tt)).
      { unfold unavailable in U. unfold restoreViewState.
        destruct (getModel (editor s)); [|discriminate].
        rewrite Hm, U, C. rewrite bool_decide_eq_true_2 by reflexivity.
        cbn zeta. simpl. destruct s; reflexivity. }
      rewrite R. simpl. split; [reflexivity|]. split; [reflexivity|].
      intros collapsed. discriminate.
Qed.

(** ** Calls of [foldingModel.update] *)

#[local] Instance unrefreshed_refl : Reflexive unrefreshed.
Proof. intros s. reflexivity. Qed.

#[local] Instance unrefreshed_trans : Transitive unrefreshed.
Proof. intros s1 s2 s3 U1 U2. unfold unrefreshed in *. congruence. Qed.

Lemma only_view_unrefreshed (s s' : Controller) : only_view s s' -> unrefreshed s s'.
Proof.
  intros [_ _ _ _ (x & X & F)]. unfold unrefreshed, updates.
  rewrite X, List.filter_app.
  replace (List.filter isUpdate x) with (@nil Effect); [reflexivity|].
  clear X. induction x as [|e x IH]; [reflexivity|].
  simpl in F. apply andb_prop in F as [Fe Fx].
  simpl. destruct e; try discriminate; simpl; auto.
Qed.

Lemma settle_unrefreshed {A : Type} (k : nat) (o : Outcome A) (s : Controller) :
  unrefreshed s (settle k o s).
Proof. apply only_view_unrefreshed, settle_view. Qed.
Hint Resolve settle_unrefreshed : frames.

Ltac unrefreshed_close := unfold unrefreshed, updates; simpl; reflexivity.

Ltac unrefreshed := walk unrefreshed_close.

Lemma cancelFoldingRegionPromise_unrefreshed (s : Controller) :
  unrefreshed s (cancelFoldingRegionPromise s).
Proof. cbv beta delta [cancelFoldingRegionPromise]. unrefreshed. Qed.
Hint Resolve cancelFoldingRegionPromise_unrefreshed : frames.

Lemma disposeRangeProvider_unrefreshed (s : Controller) :
  unrefreshed s (disposeRangeProvider s).
Proof. cbv beta delta [disposeRangeProvider]. unrefreshed. Qed.
Hint Resolve disposeRangeProvider_unrefreshed : frames.

Lemma triggerFoldingModelChanged_unrefreshed (s : Controller) :
  unrefreshed s (triggerFoldingModelChanged s).
Proof. cbv beta delta [triggerFoldingModelChanged]. unrefreshed. Qed.
Hint Resolve triggerFoldingModelChanged_unrefreshed : frames.

Lemma onFoldingStrategyChanged_unrefreshed (s : Controller) :
  unrefreshed s (onFoldingStrategyChanged s).
Proof. cbv beta delta [onFoldingStrategyChanged]. unrefreshed. Qed.
Hint Resolve onFoldingStrategyChanged_unrefreshed : frames.

Lemma disposeModels_unrefreshed (s : Controller) : unrefreshed s (disposeModels s).
Proof. apply only_view_unrefreshed, disposeModels_view. Qed.
Hint Resolve disposeModels_unrefreshed : frames.

Lemma localToDispose_clear_unrefreshed (s : Controller) :
  unrefreshed s (localToDispose_clear s).
Proof. cbv beta delta [localToDispose_clear disposeLocal]. unrefreshed. Qed.
Hint Resolve localToDispose_clear_unrefreshed : frames.

Lemma onModelChanged_unrefreshed (s : Controller) : unrefreshed s (onModelChanged s).
Proof. cbv beta delta [onModelChanged]. unrefreshed. Qed.
Hint Resolve onModelChanged_unrefreshed : frames.

Lemma getRangeProvider_unrefreshed (editorModel : TextModel) (s : Controller) :
  unrefreshed s (snd (getRangeProvider editorModel s)).
Proof. unfold getRangeProvider. repeat case_match; simpl; unrefreshed. Qed.
Hint Resolve getRangeProvider_unrefreshed : frames.

Lemma foldImports_unrefreshed (foldingRanges : FoldingRegions) (s : Controller) :
  unrefreshed s (snd (foldImports foldingRanges s)).
Proof. unfold foldImports. repeat case_match; simpl; unrefreshed. Qed.
Hint Resolve foldImports_unrefreshed : frames.

Lemma Delayer_timeout_unrefreshed (s : Controller) : unrefreshed s (Delayer_timeout s).
Proof. cbv beta delta [Delayer_timeout task_body]. unrefreshed. Qed.
Hint Resolve Delayer_timeout_unrefreshed : frames.

Lemma notifyTooManyRegions_unrefreshed (n : Z) (s : Controller) :
  unrefreshed s (_notifyTooManyRegions n s).
Proof. cbv beta delta [_notifyTooManyRegions]. unrefreshed. Qed.
Hint Resolve notifyTooManyRegions_unrefreshed : frames.

Lemma onFoldingRangesRejected_unrefreshed (p : nat) (err : JSError) (s : Controller) :
  unrefreshed s (onFoldingRangesRejected p err s).
Proof. cbv beta delta [onFoldingRangesRejected]. unrefreshed. Qed.
Hint Resolve onFoldingRangesRejected_unrefreshed : frames.

Lemma restoreViewState_unrefreshed (state : option FoldingStateMemento) (s : Controller) :
  unrefreshed s (fst (restoreViewState state s)).
Proof. cbv beta delta [restoreViewState getFoldingModel then_]. unrefreshed. Qed.
Hint Resolve restoreViewState_unrefreshed : frames.

Lemma runContinuation_unrefreshed (c : Continuation) (value : option nat) (s : Controller) :
  unrefreshed s (runContinuation c value s).
Proof. cbv beta delta [runContinuation applyMementoThen invokeThen]. unrefreshed. Qed.
Hint Resolve runContinuation_unrefreshed : frames.

Lemma onFoldingModelPromise_unrefreshed (d : nat) (value : option nat) (s : Controller) :
  unrefreshed s (onFoldingModelPromise d value s).
Proof.
  cbv beta delta [onFoldingModelPromise]. cbv zeta.
  match goal with |- unrefreshed s (foldl _ ?x ?l) =>
    assert (Q : unrefreshed s x) by unrefreshed; generalize dependent x; generalize l
  end.
  induction l as [|c l IH]; intros s1 Q; simpl; [exact Q|].
  apply IH. transitivity s1; [exact Q|apply runContinuation_unrefreshed].
Qed.
Hint Resolve onFoldingModelPromise_unrefreshed : frames.

Lemma onDidChangeConfiguration_unrefreshed (e : ConfigurationChangedEvent)
    (s : Controller) :
  unrefreshed s (onDidChangeConfiguration e s).
Proof. cbv beta delta [onDidChangeConfiguration]. unrefreshed. Qed.

Lemma runEditorCommand_unrefreshed (action : FoldingAction)
    (args : option FoldingArguments) (s : Controller) :
  unrefreshed s (default s (runEditorCommand action args (Some s))).
Proof.
  unfold runEditorCommand, getFoldingModel.
  destruct (foldingModelPromise s); simpl; [unfold then_; unrefreshed|reflexivity].
Qed.

Lemma step_unrefreshed (s : Controller) (ev : Event) :
  (∀ p foldingRanges newValue, ev ≠ FoldingRangesResolved p foldingRanges newValue) ->
  unrefreshed s (step s ev).
Proof.
  intros N. destruct ev; cbv beta iota delta [step].
  - unrefreshed.
  - transitivity (set_editor (editor_setOptions options (editor s)) s); [unrefreshed|].
    apply onDidChangeConfiguration_unrefreshed.
  - unrefreshed.
  - unrefreshed.
  - cbv beta delta [onDidChangeModelContent]. unrefreshed.
  - unrefreshed.
  - unrefreshed.
  - exfalso. eapply N. reflexivity.
  - unrefreshed.
  - unrefreshed.
  - cbv beta delta [onInitializingTimeout]. unrefreshed.
  - unrefreshed.
  - unrefreshed.
  - apply restoreViewState_unrefreshed.
  - apply runEditorCommand_unrefreshed.
Qed.

Lemma foldImports_frame (foldingRanges : FoldingRegions) (s : Controller) :
  heap (snd (foldImports foldingRanges s)) = heap s
  ∧ editor (snd (foldImports foldingRanges s)) = editor s
  ∧ updates (snd (foldImports foldingRanges s)) = updates s.
Proof. unfold foldImports. repeat case_match; simpl; auto. Qed.

(** The callback of the computation the controller holds, on ranges. *)
Lemma onFoldingRanges_current (p : nat) (foldingRanges : FoldingRegions) (newValue : Z)
    (s : Controller) (k : nat) (mp : Models) :
  foldingRegionPromise s = Some p -> computations s !! p = Some k ->
  heap s !! k = Some mp ->
  updates (onFoldingRanges p (Some foldingRanges) newValue s)
  = Update k (fst (fst (foldImports foldingRanges s))) (selectionLineNumbers (editor s))
    :: updates s.
Proof.
  intros P C K. cbv beta iota delta [onFoldingRanges]. rewrite C. cbv zeta.
  change (foldingRegionPromise (set_computations ?v s)) with (foldingRegionPromise s).
  rewrite bool_decide_eq_true_2 by exact P.
  match goal with |- context [foldImports foldingRanges ?x] => set (s1 := x) end.
  assert (E : fst (fst (foldImports foldingRanges s1)) = fst (fst (foldImports foldingRanges s)))
    by (unfold foldImports; subst s1; simpl; repeat case_match; simplify_eq; reflexivity).
  destruct (foldImports_frame foldingRanges s1) as (F1 & F2 & F3).
  change (heap s1) with (heap s) in F1. change (editor s1) with (editor s) in F2.
  change (updates s1) with (updates s) in F3.
  rewrite <- E. clearbody s1.
  destruct (foldImports foldingRanges s1) as [[rs scroll] s2]. simpl in *.
  rewrite F1, F2, K. cbv zeta.
  match goal with |- context [settle k ?o ?x] =>
    pose proof (settle_unrefreshed k o x) as SU;
    generalize dependent (settle k o x)
  end.
  intros s3 SU. unfold unrefreshed in SU.
  change (updates s3 = Update k rs (selectionLineNumbers (editor s)) :: updates s2) in SU.
  rewrite F3 in SU. rewrite <- SU.
  destruct (out_result _); [|reflexivity].
  destruct scroll; simpl.
  - destruct (updateScheduler s3); reflexivity.
  - destruct (updateScheduler s3); reflexivity.
Qed.

Lemma onFoldingRanges_otherwise (p : nat) (foldingRanges : option FoldingRegions)
    (newValue : Z) (s : Controller) :
  unrefreshed s (onFoldingRanges p foldingRanges newValue s)
  ∨ ∃ k rs, foldingRanges = Some rs ∧ foldingRegionPromise s = Some p
            ∧ computations s !! p = Some k.
Proof.
  destruct (computations s !! p) as [k|] eqn:C.
  2: { left. unfold onFoldingRanges. rewrite C. reflexivity. }
  destruct foldingRanges as [rs|].
  2: { left. unfold onFoldingRanges. rewrite C. reflexivity. }
  destruct (decide (foldingRegionPromise s = Some p)) as [P|P]; [right; eauto|].
  left. rewrite (onFoldingRanges_stale p (Some rs) newValue s P). rewrite C. reflexivity.
Qed.

(** X4. In every state the controller reaches from its construction, an
    event calls [foldingModel.update] at most once, and only when it is the
    resolution, with ranges, of the computation the controller holds. The
    call is then made on the folding model the controller holds, never on
    the model of a document it has left, with the ranges computed (imports
    folded first where due) and the start lines of the selections. *)
Theorem updates_reach_the_current_model (ed : Editor)
    (registry : list (string * FoldingRangeProvider)) (evs : list Event) (ev : Event) :
  let s := run (constructor ed registry) evs in
  updates (step s ev) = updates s
  ∨ ∃ p foldingRanges newValue k mp,
      ev = FoldingRangesResolved p (Some foldingRanges) newValue
      ∧ foldingRegionPromise s = Some p
      ∧ foldingModel s = Some k ∧ heap s !! k = Some mp
      ∧ updates (step s ev)
        = Update k (fst (fst (foldImports foldingRanges s)))
            (selectionLineNumbers (editor s)) :: updates s.
Proof.
  intros s. destruct (reachable_wired ed registry evs) as [I W]. fold s in I, W.
  clearbody s.
  assert (D : (∃ p r v, ev = FoldingRangesResolved p r v)
              ∨ ∀ p r v, ev ≠ FoldingRangesResolved p r v).
  { destruct ev; try (right; discriminate). left. eauto. }
  destruct D as [(p & r & v & ->)|N]; [|left; apply step_unrefreshed, N].
  destruct (onFoldingRanges_otherwise p r v s) as [U|(k & rs & -> & P & C)]; [left; exact U|].
  right. pose proof (wired_current s W p k P C) as F.
  assert (L : localToDispose s = true).
  { apply wired_registered; [exact W|]. right. rewrite F. eauto. }
  destruct (wired_attached s W L) as [(k' & F' & _ & mp & K) _].
  assert (k' = k) as -> by congruence.
  exists p, rs, v, k, mp. split; [reflexivity|]. split; [exact P|]. split; [exact F|].
  split; [exact K|]. apply (onFoldingRanges_current p rs v s k mp P C K).
Qed.

(** ** Nothing held is dropped silently *)

#[local] Instance handed_refl : Reflexive handed.
Proof. intros s. exists []. auto. Qed.

#[local] Instance handed_trans : Transitive handed.
Proof.
  intros s1 s2 s3 (x1 & E1 & P1 & R1) (x2 & E2 & P2 & R2).
  exists (x2 ++ x1). split; [rewrite E2, E1; apply app_assoc|]. split.
  - intros q Q. destruct (P1 q Q) as [K|D].
    + destruct (P2 q K) as [K2|D2]; [left; exact K2|].
      right. apply elem_of_app. left. exact D2.
    + right. apply elem_of_app. right. exact D.
  - intros p Q. destruct (R1 p Q) as [K|D].
    + destruct (R2 p K) as [K2|D2]; [left; exact K2|].
      right. apply elem_of_app. left. exact D2.
    + right. apply elem_of_app. right. exact D.
Qed.

Lemma only_view_handed (s s' : Controller) : only_view s s' -> handed s s'.
Proof.
  intros [E _ _ _ (x & X & _)]. exists x. split; [exact X|].
  rewrite E. simpl. auto.
Qed.

Lemma settle_handed {A : Type} (k : nat) (o : Outcome A) (s : Controller) :
  handed s (settle k o s).
Proof. apply only_view_handed, settle_view. Qed.
Hint Resolve settle_handed : frames.

Ltac handed_finish :=
  split; [reflexivity|split; intros ? ?; left; assumption].

Ltac handed_close :=
  first [ solve [exists []; handed_finish] | solve [eexists [_]; handed_finish] ].

Ltac handed := walk handed_close.

Lemma cancelFoldingRegionPromise_handed (s : Controller) :
  handed s (cancelFoldingRegionPromise s).
Proof.
  unfold cancelFoldingRegionPromise.
  destruct (foldingRegionPromise s) as [p|] eqn:P; [|reflexivity].
  exists [Cancel p]. split; [reflexivity|]. split.
  - intros q Q. left. exact Q.
  - intros q Q. right. rewrite P in Q. injection Q as <-.
    apply elem_of_cons. left. reflexivity.
Qed.
Hint Resolve cancelFoldingRegionPromise_handed : frames.

Lemma disposeRangeProvider_handed (s : Controller) :
  handed s (set_rangeProvider None (disposeRangeProvider s)).
Proof.
  unfold disposeRangeProvider.
  destruct (rangeProvider s) as [q|] eqn:P.
  - exists [DisposeProvider q]. split; [reflexivity|]. split.
    + intros q' Q. right. rewrite P in Q. injection Q as <-.
      apply elem_of_cons. left. reflexivity.
    + intros p Q. left. exact Q.
  - exists []. split; [reflexivity|]. split.
    + intros q. rewrite P. discriminate.
    + intros p Q. left. exact Q.
Qed.

Lemma triggerFoldingModelChanged_handed (s : Controller) :
  handed s (triggerFoldingModelChanged s).
Proof. cbv beta delta [triggerFoldingModelChanged]. handed. Qed.
Hint Resolve triggerFoldingModelChanged_handed : frames.

Lemma onFoldingStrategyChanged_handed (s : Controller) :
  handed s (onFoldingStrategyChanged s).
Proof.
  unfold onFoldingStrategyChanged. cbv zeta.
  transitivity (set_rangeProvider None (disposeRangeProvider s));
    [apply disposeRangeProvider_handed|apply triggerFoldingModelChanged_handed].
Qed.
Hint Resolve onFoldingStrategyChanged_handed : frames.

Lemma disposeModels_handed (s : Controller) : handed s (disposeModels s).
Proof. apply only_view_handed, disposeModels_view. Qed.
Hint Resolve disposeModels_handed : frames.

Lemma localToDispose_clear_handed (s : Controller) : handed s (localToDispose_clear s).
Proof.
  unfold localToDispose_clear. destruct (localToDispose s); [|reflexivity].
  transitivity (disposeModels s); [apply disposeModels_handed|].
  generalize (disposeModels s). clear s. intros s.
  unfold disposeLocal. cbv zeta.
  transitivity (cancelFoldingRegionPromise s); [auto with frames nocore|].
  generalize (cancelFoldingRegionPromise s). clear s. intros s.
  match goal with |- handed s (set_localToDispose false (set_rangeProvider None
                                 (disposeRangeProvider ?x))) =>
    assert (Q : handed s x) by handed; revert Q; generalize x
  end.
  intros s1 Q. transitivity s1; [exact Q|].
  pose proof (disposeRangeProvider_handed s1) as Q1. revert Q1.
  generalize (set_rangeProvider None (disposeRangeProvider s1)). intros s2 Q1.
  transitivity s2; [exact Q1|handed_close].
Qed.
Hint Resolve localToDispose_clear_handed : frames.

Lemma onModelChanged_handed (s : Controller) : handed s (onModelChanged s).
Proof. cbv beta delta [onModelChanged]. handed. Qed.
Hint Resolve onModelChanged_handed : frames.

Lemma getRangeProvider_handed (editorModel : TextModel) (s : Controller) :
  handed s (snd (getRangeProvider editorModel s)).
Proof.
  unfold getRangeProvider.
  destruct (rangeProvider s) as [q|] eqn:P; [reflexivity|].
  exists []. split; [repeat case_match; reflexivity|]. split.
  - intros q. rewrite P. discriminate.
  - intros p Q. left. repeat case_match; exact Q.
Qed.

Lemma foldImports_handed (foldingRanges : FoldingRegions) (s : Controller) :
  handed s (snd (foldImports foldingRanges s)).
Proof. unfold foldImports. repeat case_match; simpl; handed. Qed.
Hint Resolve foldImports_handed : frames.

Lemma notifyTooManyRegions_handed (n : Z) (s : Controller) :
  handed s (_notifyTooManyRegions n s).
Proof. cbv beta delta [_notifyTooManyRegions]. handed. Qed.
Hint Resolve notifyTooManyRegions_handed : frames.

Lemma onFoldingRanges_handed (p : nat) (foldingRanges : option FoldingRegions)
    (newValue : Z) (s : Controller) :
  handed s (onFoldingRanges p foldingRanges newValue s).
Proof. cbv beta delta [onFoldingRanges]. handed. Qed.
Hint Resolve onFoldingRanges_handed : frames.

Lemma onFoldingRangesRejected_handed (p : nat) (err : JSError) (s : Controller) :
  handed s (onFoldingRangesRejected p err s).
Proof. cbv beta delta [onFoldingRangesRejected]. handed. Qed.
Hint Resolve onFoldingRangesRejected_handed : frames.

Lemma restoreViewState_handed (state : option FoldingStateMemento) (s : Controller) :
  handed s (fst (restoreViewState state s)).
Proof. cbv beta delta [restoreViewState getFoldingModel then_]. handed. Qed.
Hint Resolve restoreViewState_handed : frames.

Lemma runContinuation_handed (c : Continuation) (value : option nat) (s : Controller) :
  handed s (runContinuation c value s).
Proof. cbv beta delta [runContinuation applyMementoThen invokeThen]. handed. Qed.
Hint Resolve runContinuation_handed : frames.

Lemma onFoldingModelPromise_handed (d : nat) (value : option nat) (s : Controller) :
  handed s (onFoldingModelPromise d value s).
Proof.
  cbv beta delta [onFoldingModelPromise]. cbv zeta.
  match goal with |- handed s (foldl _ ?x ?l) =>
    assert (Q : handed s x) by handed; generalize dependent x; generalize l
  end.
  induction l as [|c l IH]; intros s1 Q; simpl; [exact Q|].
  apply IH. transitivity s1; [exact Q|apply runContinuation_handed].
Qed.
Hint Resolve onFoldingModelPromise_handed : frames.

Lemma onDidChangeConfiguration_handed (e : ConfigurationChangedEvent) (s : Controller) :
  handed s (onDidChangeConfiguration e s).
Proof. cbv beta delta [onDidChangeConfiguration]. handed. Qed.

Lemma runEditorCommand_handed (action : FoldingAction) (args : option FoldingArguments)
    (s : Controller) :
  handed s (default s (runEditorCommand action args (Some s))).
Proof.
  unfold runEditorCommand, getFoldingModel.
  destruct (foldingModelPromise s); simpl; [unfold then_; handed|reflexivity].
Qed.

(** When the timer elapses the task waits and no computation is held, so
    the computation the task starts replaces none. *)
Lemma Delayer_timeout_handed (s : Controller) :
  invariant s -> handed s (Delayer_timeout s).
Proof.
  intros [S _]. unfold Delayer_timeout.
  destruct (updateScheduler s) as [d|] eqn:U; [|reflexivity].
  destruct (task d) eqn:T; [|reflexivity].
  pose proof (waiting_none s S d U T) as P.
  match goal with |- handed s (task_body ?x) => set (s1 := x) end.
  assert (Q1 : handed s s1) by (subst s1; handed_close).
  assert (P1 : foldingRegionPromise s1 = None) by exact P.
  clearbody s1. unfold task_body.
  destruct (foldingModel s1) as [k|]; [|exact Q1].
  destruct (heap s1 !! k) as [mp|]; [|exact Q1].
  pose proof (getRangeProvider_handed (textModel (fm mp)) s1) as Q2.
  pose proof (calm_regionPromise _ _ (getRangeProvider_calm (textModel (fm mp)) s1)) as P2.
  destruct (getRangeProvider (textModel (fm mp)) s1) as [provider s2]. simpl in Q2, P2.
  rewrite P1 in P2. cbn zeta.
  transitivity s2; [transitivity s1; assumption|].
  exists [Compute (nextId s2) provider]. split; [reflexivity|]. split.
  - intros q Q. left. exact Q.
  - intros p. rewrite P2. discriminate.
Qed.

(** X5. In every state the controller reaches from its construction, an
    event only adds calls, and nothing the controller holds is dropped
    silently: a range provider it held before the event is still held
    after it or was disposed during it, and a computation it held is still
    held or was cancelled during it. *)
Theorem nothing_dropped_silently (ed : Editor)
    (registry : list (string * FoldingRangeProvider)) (evs : list Event) (ev : Event) :
  let s := run (constructor ed registry) evs in
  ∃ calls,
    effects (step s ev) = calls ++ effects s
    ∧ (∀ q, rangeProvider s = Some q ->
            rangeProvider (step s ev) = Some q ∨ DisposeProvider q ∈ calls)
    ∧ (∀ p, foldingRegionPromise s = Some p ->
            foldingRegionPromise (step s ev) = Some p ∨ Cancel p ∈ calls).
Proof.
  intros s. destruct (reachable_wired ed registry evs) as [I _]. fold s in I.
  clearbody s. change (handed s (step s ev)).
  destruct ev; cbv beta iota delta [step].
  - handed.
  - transitivity (set_editor (editor_setOptions options (editor s)) s); [handed|].
    apply onDidChangeConfiguration_handed.
  - handed.
  - handed.
  - cbv beta delta [onDidChangeModelContent]. handed.
  - handed.
  - apply Delayer_timeout_handed, I.
  - handed.
  - handed.
  - handed.
  - destruct (rangeProvider s) as [[]|] eqn:P; try reflexivity.
    unfold onInitializingTimeout.
    transitivity (set_foldingStateMemento None s); [handed_close|].
    apply onFoldingStrategyChanged_handed.
  - handed.
  - handed.
  - apply restoreViewState_handed.
  - apply runEditorCommand_handed.
Qed.

(** ** The range provider in use *)

(** X6. [getRangeProvider] selects once and then caches: the provider it
    returns is the one the controller holds afterwards, and as long as that
    one is held every later call returns it with the controller unchanged,
    whatever the document asked for, the registry, the strategy or the
    stored memento have become. Selecting makes no call on a collaborator,
    and it consumes the stored memento: afterwards none is stored, unless
    the initializing provider was selected from it, in which case it stays
    for the next selection. *)
Theorem getRangeProvider_caches (editorModel : TextModel) (s : Controller) :
  let selected := fst (getRangeProvider editorModel s) in
  let s' := snd (getRangeProvider editorModel s) in
  rangeProvider s' = Some selected
  ∧ (∀ otherModel s'', rangeProvider s'' = Some selected ->
       getRangeProvider otherModel s'' = (selected, s''))
  ∧ effects s' = effects s
  ∧ (∀ held, rangeProvider s = Some held -> selected = held ∧ s' = s)
  ∧ (rangeProvider s = None ->
     foldingStateMemento s' = None
     ∨ ∃ initialRanges,
         selected = InitializingRangeProvider editorModel initialRanges 30000
         ∧ foldingStateMemento s ≫= collapsedRegions = Some initialRanges
         ∧ foldingStateMemento s' = foldingStateMemento s).
Proof.
  cbv zeta. split; [|split; [|split; [|split]]].
  - unfold getRangeProvider. repeat case_match; simplify_eq; simpl; congruence.
  - intros otherModel s'' P. unfold getRangeProvider at 1. rewrite P. reflexivity.
  - unfold getRangeProvider. repeat case_match; reflexivity.
  - intros held P. unfold getRangeProvider. rewrite P. auto.
  - intros P. unfold getRangeProvider. rewrite P. cbn zeta.
    destruct (if _useFoldingProviders _ then _ else None) as [m|]; [|left; reflexivity].
    destruct (ordered _ _); [|left; reflexivity].
    change (foldingStateMemento
              (set_rangeProvider
                 (Some (IndentRangeProvider editorModel (_maxFoldingRegions s))) s))
      with (foldingStateMemento s).
    destruct (foldingStateMemento s ≫= collapsedRegions) as [initialRanges|] eqn:C;
      [|left; reflexivity].
    right. exists initialRanges. auto.
Qed.

(** ** The listener of hidden range changes *)

(** X7. The editor's hidden areas follow the hidden range model the
    controller holds. While a call on the models of [k] settles, every
    change event of the model held reaches [editor.setHiddenAreas]: after
    the call the hidden areas are the ranges of the last event and setting
    them was the last call made, also while a view state is restored and
    when the editor has no selections. Without an event the editor is as
    before; and the events of a model the controller does not hold (the
    listener went with the bundle) change neither the editor nor the calls
    made. The selections are only ever replaced by those
    [adjustSelections] returned, and only when it reported a change. *)
Theorem hidden_areas_follow_the_held_model {A : Type} (k : nat) (o : Outcome A)
    (s : Controller) :
  (hiddenRangeModel s = Some k ->
   ∀ e, last (out_events o) = Some e ->
        hiddenAreas (editor (settle k o s)) = em_ranges e
        ∧ ∃ rest, effects (settle k o s) = SetHiddenAreas (em_ranges e) :: rest)
  ∧ (out_events o = [] -> editor (settle k o s) = editor s ∧ effects (settle k o s) = effects s)
  ∧ (hiddenRangeModel s ≠ Some k ->
     editor (settle k o s) = editor s ∧ effects (settle k o s) = effects s)
  ∧ (∀ hiddenRanges,
       let s' := onHiddenRangesChanges hiddenRanges s in
       getSelections (editor s') = getSelections (editor s)
       ∨ ∃ h selections,
           hiddenRangeModelObject s = Some h ∧ getSelections (editor s) = Some selections
           ∧ _restoringViewState s = false ∧ hiddenRanges ≠ []
           ∧ HiddenRangeModel_adjustSelections h selections
             = (default [] (getSelections (editor s')), true)).
Proof.
  split; [|split; [|split]].
  - intros Hm e L. unfold settle. cbv zeta.
    change (editor (set_heap ?h ?x)) with (editor x).
    change (effects (set_heap ?h ?x)) with (effects x).
    revert s Hm e L. induction (out_events o) as [|e' l IH]; intros s Hm e L; [discriminate|].
    simpl. destruct l as [|e'' l].
    + injection L as <-. simpl. unfold fire. cbv zeta.
      change (hiddenRangeModel (set_heap ?h s)) with (hiddenRangeModel s).
      rewrite bool_decide_eq_true_2 by exact Hm.
      apply onHiddenRangesChanges_areas.
    + apply IH; [|exact L].
      unfold fire. cbv zeta.
      change (hiddenRangeModel (set_heap ?h s)) with (hiddenRangeModel s).
      rewrite bool_decide_eq_true_2 by exact Hm.
      rewrite onHiddenRangesChanges_held. exact Hm.
  - intros E. unfold settle. rewrite E. split; reflexivity.
  - intros Hm. unfold settle. cbv zeta.
    change (editor (set_heap ?h ?x)) with (editor x).
    change (effects (set_heap ?h ?x)) with (effects x).
    revert s Hm. induction (out_events o) as [|e l IH]; intros s Hm; [auto|].
    simpl. unfold fire at 2 4. cbv zeta.
    change (hiddenRangeModel (set_heap ?h s)) with (hiddenRangeModel s).
    rewrite bool_decide_eq_false_2 by exact Hm.
    apply (IH (set_heap _ s)). exact Hm.
  - intros hiddenRanges. cbv zeta. unfold onHiddenRangesChanges.
    destruct (hiddenRangeModelObject s) as [h|]; [|left; reflexivity].
    destruct (decide (hiddenRanges = [])) as [->|N]; [left; reflexivity|].
    rewrite bool_decide_eq_false_2 by exact N.
    destruct (_restoringViewState s) eqn:R; [left; reflexivity|].
    destruct (getSelections (editor s)) as [selections|] eqn:S; simpl; [|left; exact S].
    destruct (HiddenRangeModel_adjustSelections h selections) as [adjusted [|]] eqn:Adj;
      simpl; [|left; exact S].
    right. exists h, selections. auto 10.
Qed.

(** ** Configuration changes *)

#[local] Instance settings_refl : Reflexive settings.
Proof. intros s. split; reflexivity. Qed.

#[local] Instance settings_trans : Transitive settings.
Proof. intros s1 s2 s3 [] []. split; congruence. Qed.

Lemma only_view_settings (s s' : Controller) : only_view s s' -> settings s s'.
Proof.
  intros [E M L O _]. split; [exact M|exact L|exact O|..]; rewrite E; reflexivity.
Qed.

Lemma settle_settings {A : Type} (k : nat) (o : Outcome A) (s : Controller) :
  settings s (settle k o s).
Proof. apply only_view_settings, settle_view. Qed.
Hint Resolve settle_settings : frames.

Lemma disposeModels_settings (s : Controller) : settings s (disposeModels s).
Proof. apply only_view_settings, disposeModels_view. Qed.
Hint Resolve disposeModels_settings : frames.

Ltac settings := walk ltac:(split; reflexivity).

Lemma cancelFoldingRegionPromise_settings (s : Controller) :
  settings s (cancelFoldingRegionPromise s).
Proof. cbv beta delta [cancelFoldingRegionPromise]. settings. Qed.
Hint Resolve cancelFoldingRegionPromise_settings : frames.

Lemma disposeRangeProvider_settings (s : Controller) : settings s (disposeRangeProvider s).
Proof. cbv beta delta [disposeRangeProvider]. settings. Qed.
Hint Resolve disposeRangeProvider_settings : frames.

Lemma triggerFoldingModelChanged_settings (s : Controller) :
  settings s (triggerFoldingModelChanged s).
Proof. cbv beta delta [triggerFoldingModelChanged]. settings. Qed.
Hint Resolve triggerFoldingModelChanged_settings : frames.

Lemma onFoldingStrategyChanged_settings (s : Controller) :
  settings s (onFoldingStrategyChanged s).
Proof. cbv beta delta [onFoldingStrategyChanged]. settings. Qed.
Hint Resolve onFoldingStrategyChanged_settings : frames.

Lemma localToDispose_clear_settings (s : Controller) : settings s (localToDispose_clear s).
Proof. cbv beta delta [localToDispose_clear disposeLocal]. settings. Qed.
Hint Resolve localToDispose_clear_settings : frames.

Lemma onModelChanged_settings (s : Controller) : settings s (onModelChanged s).
Proof. cbv beta delta [onModelChanged]. settings. Qed.
Hint Resolve onModelChanged_settings : frames.

#[local] Instance unbuilt_refl : Reflexive unbuilt.
Proof. intros s. split; reflexivity. Qed.

#[local] Instance unbuilt_trans : Transitive unbuilt.
Proof. intros s1 s2 s3 [] []. split; congruence. Qed.

Ltac unbuilt := walk ltac:(split; reflexivity).

Lemma cancelFoldingRegionPromise_unbuilt (s : Controller) :
  unbuilt s (cancelFoldingRegionPromise s).
Proof. cbv beta delta [cancelFoldingRegionPromise]. unbuilt. Qed.
Hint Resolve cancelFoldingRegionPromise_unbuilt : frames.

Lemma disposeRangeProvider_unbuilt (s : Controller) : unbuilt s (disposeRangeProvider s).
Proof. cbv beta delta [disposeRangeProvider]. unbuilt. Qed.
Hint Resolve disposeRangeProvider_unbuilt : frames.

Lemma triggerFoldingModelChanged_unbuilt (s : Controller) :
  unbuilt s (triggerFoldingModelChanged s).
Proof. cbv beta delta [triggerFoldingModelChanged]. unbuilt. Qed.
Hint Resolve triggerFoldingModelChanged_unbuilt : frames.

Lemma onFoldingStrategyChanged_unbuilt (s : Controller) :
  unbuilt s (onFoldingStrategyChanged s).
Proof. cbv beta delta [onFoldingStrategyChanged]. unbuilt. Qed.
Hint Resolve onFoldingStrategyChanged_unbuilt : frames.

Lemma triggerFoldingModelChanged_editor (s : Controller) :
  editor (triggerFoldingModelChanged s) = editor s.
Proof.
  unfold triggerFoldingModelChanged, cancelFoldingRegionPromise.
  repeat case_match; reflexivity.
Qed.

Lemma onFoldingStrategyChanged_editor (s : Controller) :
  editor (onFoldingStrategyChanged s) = editor s.
Proof.
  unfold onFoldingStrategyChanged, disposeRangeProvider. cbv zeta.
  rewrite triggerFoldingModelChanged_editor. case_match; reflexivity.
Qed.

Lemma handed_effects (s s' : Controller) (x : Effect) :
  handed s s' -> x ∈ effects s -> x ∈ effects s'.
Proof. intros (extra & E & _) I. rewrite E. apply elem_of_app. right. exact I. Qed.

(** *** What the disposal of the models leaves in the editor *)

Lemma disposeModels_last (s : Controller) (k : nat) (mp models : Models)
    (ev1 ev2 : list Emission) (h : HiddenRangeModel) (ev : Emission) :
  foldingModel s = Some k -> hiddenRangeModel s = Some k -> heap s !! k = Some mp ->
  FoldingModel_dispose mp = (models, ev1) ->
  HiddenRangeModel_dispose (hrm models) = (h, ev2) ->
  last (ev1 ++ ev2) = Some ev ->
  hiddenAreas (editor (disposeModels s)) = em_ranges ev
  ∧ ∃ rest, effects (disposeModels s) = SetHiddenAreas (em_ranges ev) :: rest.
Proof.
  intros F Hm K D1 D2 L. cbv beta delta [disposeModels]. rewrite F, K, D1. cbv beta iota.
  match goal with |- context [settle k ?o s] => set (o1 := o) end.
  assert (Hm1 : hiddenRangeModel (settle k o1 s) = Some k)
    by (rewrite (view_rest _ _ (settle_view k o1 s)); exact Hm).
  assert (K1 : heap (settle k o1 s) !! k = Some models)
    by (rewrite settle_heap; apply lookup_insert_eq).
  assert (A1 : ∀ e, last ev1 = Some e ->
            hiddenAreas (editor (settle k o1 s)) = em_ranges e
            ∧ ∃ rest, effects (settle k o1 s) = SetHiddenAreas (em_ranges e) :: rest)
    by (intros e; apply (settle_last k o1 s e Hm)).
  revert Hm1 K1 A1. generalize (settle k o1 s). clear s F Hm K o1. intros s Hm K A1.
  cbv zeta. rewrite Hm, K, D2.
  match goal with |- context [settle k ?o s] => set (o2 := o) end.
  rewrite last_app in L. destruct (last ev2) as [e2|] eqn:L2.
  - injection L as <-. apply (settle_last k o2 s e2 Hm L2).
  - apply last_None in L2. destruct (settle_silent k o2 s L2) as [-> ->].
    apply A1, L.
Qed.

Lemma disposeLocal_editor (s : Controller) :
  editor (set_localToDispose false (disposeLocal s)) = editor s.
Proof.
  unfold disposeLocal, cancelFoldingRegionPromise, disposeRangeProvider.
  destruct s. simpl. repeat case_match; reflexivity.
Qed.

Lemma disposeLocal_handed (s : Controller) :
  handed s (set_localToDispose false (disposeLocal s)).
Proof.
  unfold disposeLocal. cbv zeta.
  transitivity (cancelFoldingRegionPromise s); [auto with frames nocore|].
  generalize (cancelFoldingRegionPromise s). clear s. intros s.
  match goal with |- handed s (set_localToDispose false (set_rangeProvider None
                                 (disposeRangeProvider ?x))) =>
    assert (Q : handed s x) by handed; revert Q; generalize x
  end.
  intros s1 Q. transitivity s1; [exact Q|].
  pose proof (disposeRangeProvider_handed s1) as Q1. revert Q1.
  generalize (set_rangeProvider None (disposeRangeProvider s1)). intros s2 Q1.
  transitivity s2; [exact Q1|handed_close].
Qed.

Lemma localToDispose_clear_idem (s : Controller) :
  localToDispose_clear (localToDispose_clear s) = localToDispose_clear s.
Proof.
  unfold localToDispose_clear at 1.
  replace (localToDispose (localToDispose_clear s)) with false; [reflexivity|].
  unfold localToDispose_clear. destruct (localToDispose s) eqn:L; [reflexivity|].
  symmetry. exact L.
Qed.

Lemma onModelChanged_again (s : Controller) :
  onModelChanged (localToDispose_clear s) = onModelChanged s.
Proof. unfold onModelChanged. rewrite localToDispose_clear_idem. reflexivity. Qed.

Lemma onModelChanged_editor (s : Controller) :
  editor (onModelChanged s) = editor (localToDispose_clear s).
Proof.
  unfold onModelChanged. generalize (localToDispose_clear s). intros s1. cbv zeta.
  repeat case_match; rewrite ?triggerFoldingModelChanged_editor; reflexivity.
Qed.

(** A rebuild releases what the old models hid: the last change event
    they fire while they are disposed is the one that reaches the editor. *)
Lemma onModelChanged_releases (s : Controller) (k : nat) (mp models : Models)
    (ev1 ev2 : list Emission) (h : HiddenRangeModel) (ev : Emission) :
  localToDispose s = true ->
  foldingModel s = Some k -> hiddenRangeModel s = Some k -> heap s !! k = Some mp ->
  FoldingModel_dispose mp = (models, ev1) ->
  HiddenRangeModel_dispose (hrm models) = (h, ev2) ->
  last (ev1 ++ ev2) = Some ev ->
  SetHiddenAreas (em_ranges ev) ∈ effects (onModelChanged s)
  ∧ hiddenAreas (editor (onModelChanged s)) = em_ranges ev.
Proof.
  intros L F Hm K D1 D2 La.
  destruct (disposeModels_last s k mp models ev1 ev2 h ev F Hm K D1 D2 La) as (A & rest & E).
  assert (C : localToDispose_clear s = set_localToDispose false (disposeLocal (disposeModels s)))
    by (unfold localToDispose_clear; rewrite L; reflexivity).
  split.
  - pose proof (onModelChanged_handed (localToDispose_clear s)) as Q.
    rewrite onModelChanged_again in Q.
    apply (handed_effects _ _ _ Q). rewrite C.
    apply (handed_effects _ _ _ (disposeLocal_handed (disposeModels s))).
    rewrite E. apply elem_of_cons. left. reflexivity.
  - rewrite onModelChanged_editor, C, disposeLocal_editor. exact A.
Qed.

Lemma triggerFoldingModelChanged_rangeProvider_kept (s : Controller) :
  rangeProvider (triggerFoldingModelChanged s) = rangeProvider s.
Proof.
  unfold triggerFoldingModelChanged, cancelFoldingRegionPromise.
  repeat case_match; reflexivity.
Qed.

(** X8. A configuration change refreshes the fields of the options the
    event lists, read from the editor when the event fires, and no others;
    the document, the line count and the options of the editor stay. An
    event that lists none of the seven folding options leaves the
    controller as it is. The models are rebuilt only for [folding] and
    [foldingMaximumRegions]: without these two the editor, the folding
    model, the hidden range model, the store, the warning flag and the
    folded-imports flag stay. A change of [folding] or of
    [foldingMaximumRegions] disposes the models held: the ranges of the last
    change event they fire while they are disposed are passed to
    [editor.setHiddenAreas], and they are the hidden areas of the editor
    afterwards unless both options changed. A change of [foldingStrategy]
    drops the range provider, so that the next computation selects anew. *)
Theorem configuration_changes_by_option (e : ConfigurationChangedEvent) (s : Controller) :
  let s' := onDidChangeConfiguration e s in
  getModel (editor s') = getModel (editor s)
  ∧ getLineCount (editor s') = getLineCount (editor s)
  ∧ getOptions (editor s') = getOptions (editor s)
  ∧ _isEnabled s'
    = (if hasChanged e folding then opt_folding (getOptions (editor s)) else _isEnabled s)
  ∧ _maxFoldingRegions s'
    = (if hasChanged e foldingMaximumRegions
       then opt_foldingMaximumRegions (getOptions (editor s))
       else _maxFoldingRegions s)
  ∧ _useFoldingProviders s'
    = (if hasChanged e foldingStrategy
       then negb (String.eqb (opt_foldingStrategy (getOptions (editor s))) "indentation")
       else _useFoldingProviders s)
  ∧ _unfoldOnClickAfterEndOfLine s'
    = (if hasChanged e unfoldOnClickAfterEndOfLine
       then opt_unfoldOnClickAfterEndOfLine (getOptions (editor s))
       else _unfoldOnClickAfterEndOfLine s)
  ∧ _foldingImportsByDefault s'
    = (if hasChanged e foldingImportsByDefault
       then opt_foldingImportsByDefault (getOptions (editor s))
       else _foldingImportsByDefault s)
  ∧ (hasChanged e foldingStrategy = true -> rangeProvider s' = None)
  ∧ (hasChanged e folding = false -> hasChanged e foldingMaximumRegions = false ->
     editor s' = editor s
     ∧ foldingModel s' = foldingModel s ∧ hiddenRangeModel s' = hiddenRangeModel s
     ∧ heap s' = heap s
     ∧ _tooManyRegionsNotified s' = _tooManyRegionsNotified s
     ∧ _currentModelHasFoldedImports s' = _currentModelHasFoldedImports s
     ∧ (hasChanged e showFoldingControls = false -> hasChanged e foldingHighlight = false ->
        hasChanged e foldingStrategy = false ->
        hasChanged e unfoldOnClickAfterEndOfLine = false ->
        hasChanged e foldingImportsByDefault = false -> s' = s))
  ∧ (∀ k mp models ev1 h ev2 ev,
       hasChanged e folding || hasChanged e foldingMaximumRegions = true ->
       localToDispose s = true ->
       foldingModel s = Some k -> hiddenRangeModel s = Some k -> heap s !! k = Some mp ->
       FoldingModel_dispose mp = (models, ev1) ->
       HiddenRangeModel_dispose (hrm models) = (h, ev2) ->
       last (ev1 ++ ev2) = Some ev ->
       SetHiddenAreas (em_ranges ev) ∈ effects s'
       ∧ (hasChanged e folding && hasChanged e foldingMaximumRegions = false ->
          hiddenAreas (editor s') = em_ranges ev)).
Proof.
  (* the six steps of the handler, one state each *)
  assert (B1 : ∃ s1,
    s1 = (if hasChanged e folding
          then onModelChanged (set_isEnabled (opt_folding (getOptions (editor s))) s)
          else s)
    ∧ getModel (editor s1) = getModel (editor s)
    ∧ getLineCount (editor s1) = getLineCount (editor s)
    ∧ getOptions (editor s1) = getOptions (editor s)
    ∧ _isEnabled s1
      = (if hasChanged e folding then opt_folding (getOptions (editor s)) else _isEnabled s)
    ∧ _maxFoldingRegions s1 = _maxFoldingRegions s
    ∧ _useFoldingProviders s1 = _useFoldingProviders s
    ∧ _unfoldOnClickAfterEndOfLine s1 = _unfoldOnClickAfterEndOfLine s
    ∧ _foldingImportsByDefault s1 = _foldingImportsByDefault s
    ∧ (hasChanged e folding = false -> s1 = s)).
  { eexists. split; [reflexivity|]. destruct (hasChanged e folding); [|auto 12].
    destruct (onModelChanged_settings (set_isEnabled (opt_folding (getOptions (editor s))) s))
      as [T1 T2 T3 S2 S3 S4 S5 S6].
    split; [exact T1|]. split; [exact T2|]. split; [exact T3|].
    split; [exact S2|]. split; [exact S6|]. split; [exact S3|].
    split; [exact S4|]. split; [exact S5|discriminate]. }
  destruct B1 as (s1 & E1 & A1m & A1l & A1o & A2 & A3 & A4 & A5 & A6 & A7).
  assert (B2 : ∃ s2,
    s2 = (if hasChanged e foldingMaximumRegions
          then onModelChanged
                 (set_tooManyRegionsNotified false
                    (set_maxFoldingRegions
                       (opt_foldingMaximumRegions (getOptions (editor s1))) s1))
          else s1)
    ∧ getModel (editor s2) = getModel (editor s1)
    ∧ getLineCount (editor s2) = getLineCount (editor s1)
    ∧ getOptions (editor s2) = getOptions (editor s1)
    ∧ _isEnabled s2 = _isEnabled s1
    ∧ _maxFoldingRegions s2
      = (if hasChanged e foldingMaximumRegions
         then opt_foldingMaximumRegions (getOptions (editor s1)) else _maxFoldingRegions s1)
    ∧ _useFoldingProviders s2 = _useFoldingProviders s1
    ∧ _unfoldOnClickAfterEndOfLine s2 = _unfoldOnClickAfterEndOfLine s1
    ∧ _foldingImportsByDefault s2 = _foldingImportsByDefault s1
    ∧ (hasChanged e foldingMaximumRegions = false -> s2 = s1)).
  { eexists. split; [reflexivity|]. destruct (hasChanged e foldingMaximumRegions); [|auto 12].
    match goal with |- context [onModelChanged ?x] =>
      destruct (onModelChanged_settings x) as [T1 T2 T3 S2 S3 S4 S5 S6]
    end.
    split; [exact T1|]. split; [exact T2|]. split; [exact T3|].
    split; [exact S2|]. split; [exact S6|]. split; [exact S3|].
    split; [exact S4|]. split; [exact S5|discriminate]. }
  destruct B2 as (s2 & E2 & C1m & C1l & C1o & C2 & C3 & C4 & C5 & C6 & C7).
  assert (B3 : ∃ s3,
    s3 = (if hasChanged e showFoldingControls || hasChanged e foldingHighlight
          then triggerFoldingModelChanged
                 (set_foldingDecorationProvider
                    {| autoHideFoldingControls :=
                         String.eqb (opt_showFoldingControls (getOptions (editor s2)))
                           "mouseover";
                       showFoldingHighlights := opt_foldingHighlight (getOptions (editor s2)) |}
                    s2)
          else s2)
    ∧ editor s3 = editor s2 ∧ settings s2 s3 ∧ unbuilt s2 s3
    ∧ (hasChanged e showFoldingControls = false -> hasChanged e foldingHighlight = false ->
       s3 = s2)).
  { eexists. split; [reflexivity|].
    destruct (hasChanged e showFoldingControls), (hasChanged e foldingHighlight); simpl;
      (split; [rewrite ?triggerFoldingModelChanged_editor; reflexivity
              |split; [settings|split; [unbuilt|try discriminate; auto]]]). }
  destruct B3 as (s3 & E3 & D0 & D1 & D2 & D3).
  assert (B4 : ∃ s4,
    s4 = (if hasChanged e foldingStrategy
          then onFoldingStrategyChanged
                 (set_useFoldingProviders
                    (negb (String.eqb (opt_foldingStrategy (getOptions (editor s3)))
                             "indentation")) s3)
          else s3)
    ∧ editor s4 = editor s3
    ∧ _isEnabled s4 = _isEnabled s3
    ∧ _maxFoldingRegions s4 = _maxFoldingRegions s3
    ∧ _useFoldingProviders s4
      = (if hasChanged e foldingStrategy
         then negb (String.eqb (opt_foldingStrategy (getOptions (editor s3))) "indentation")
         else _useFoldingProviders s3)
    ∧ _unfoldOnClickAfterEndOfLine s4 = _unfoldOnClickAfterEndOfLine s3
    ∧ _foldingImportsByDefault s4 = _foldingImportsByDefault s3
    ∧ unbuilt s3 s4
    ∧ (hasChanged e foldingStrategy = true -> rangeProvider s4 = None)
    ∧ (hasChanged e foldingStrategy = false -> s4 = s3)).
  { eexists. split; [reflexivity|].
    destruct (hasChanged e foldingStrategy); [|split_and!; try reflexivity; discriminate].
    match goal with |- context [onFoldingStrategyChanged ?x] =>
      destruct (onFoldingStrategyChanged_settings x) as [_ _ _ S2 S3 S4 S5 S6];
      pose proof (onFoldingStrategyChanged_editor x) as S1;
      assert (U : unbuilt s3 (onFoldingStrategyChanged x)) by unbuilt
    end.
    split; [exact S1|]. split; [exact S2|]. split; [exact S6|]. split; [exact S3|].
    split; [exact S4|]. split; [exact S5|]. split; [exact U|]. split; [|discriminate].
    intros _. unfold onFoldingStrategyChanged. cbv zeta.
    rewrite triggerFoldingModelChanged_rangeProvider_kept. reflexivity. }
  destruct B4 as (s4 & E4 & F1 & F2 & F3 & F4 & F5 & F6 & F7 & F8 & F9).
  assert (E : onDidChangeConfiguration e s
              = (let s5 := if hasChanged e unfoldOnClickAfterEndOfLine
                           then set_unfoldOnClickAfterEndOfLine
                                  (opt_unfoldOnClickAfterEndOfLine (getOptions (editor s4))) s4
                           else s4 in
                 if hasChanged e foldingImportsByDefault
                 then set_foldingImportsByDefault
                        (opt_foldingImportsByDefault (getOptions (editor s5))) s5
                 else s5)).
  { subst s4 s3 s2 s1. reflexivity. }
  (* what a rebuild releases, and the calls made so far, which stay *)
  assert (W1 : hasChanged e folding = true ->
               ∀ k mp models ev1 h ev2 ev,
                 localToDispose s = true ->
                 foldingModel s = Some k -> hiddenRangeModel s = Some k ->
                 heap s !! k = Some mp ->
                 FoldingModel_dispose mp = (models, ev1) ->
                 HiddenRangeModel_dispose (hrm models) = (h, ev2) ->
                 last (ev1 ++ ev2) = Some ev ->
                 SetHiddenAreas (em_ranges ev) ∈ effects s1
                 ∧ hiddenAreas (editor s1) = em_ranges ev).
  { intros C k mp models ev1 h ev2 ev L F Hm K R1 R2 La. rewrite E1, C.
    apply (onModelChanged_releases
             (set_isEnabled (opt_folding (getOptions (editor s))) s)
             k mp models ev1 ev2 h ev L F Hm K R1 R2 La). }
  assert (W2 : hasChanged e folding = false -> hasChanged e foldingMaximumRegions = true ->
               ∀ k mp models ev1 h ev2 ev,
                 localToDispose s = true ->
                 foldingModel s = Some k -> hiddenRangeModel s = Some k ->
                 heap s !! k = Some mp ->
                 FoldingModel_dispose mp = (models, ev1) ->
                 HiddenRangeModel_dispose (hrm models) = (h, ev2) ->
                 last (ev1 ++ ev2) = Some ev ->
                 SetHiddenAreas (em_ranges ev) ∈ effects s2
                 ∧ hiddenAreas (editor s2) = em_ranges ev).
  { intros C C' k mp models ev1 h ev2 ev L F Hm K R1 R2 La. rewrite E2, C', (A7 C).
    apply (onModelChanged_releases
             (set_tooManyRegionsNotified false
                (set_maxFoldingRegions (opt_foldingMaximumRegions (getOptions (editor s))) s))
             k mp models ev1 ev2 h ev L F Hm K R1 R2 La). }
  assert (M12 : ∀ x, x ∈ effects s1 -> x ∈ effects s2).
  { intros x I. rewrite E2. destruct (hasChanged e foldingMaximumRegions); [|exact I].
    match goal with |- x ∈ effects (onModelChanged ?a) =>
      apply (handed_effects a _ x (onModelChanged_handed a)); exact I
    end. }
  assert (M23 : ∀ x, x ∈ effects s2 -> x ∈ effects s3).
  { intros x I. rewrite E3.
    destruct (hasChanged e showFoldingControls || hasChanged e foldingHighlight); [|exact I].
    match goal with |- x ∈ effects (triggerFoldingModelChanged ?a) =>
      apply (handed_effects a _ x (triggerFoldingModelChanged_handed a)); exact I
    end. }
  assert (M34 : ∀ x, x ∈ effects s3 -> x ∈ effects s4).
  { intros x I. rewrite E4. destruct (hasChanged e foldingStrategy); [|exact I].
    match goal with |- x ∈ effects (onFoldingStrategyChanged ?a) =>
      apply (handed_effects a _ x (onFoldingStrategyChanged_handed a)); exact I
    end. }
  cbv zeta in E |- *. rewrite E. clear E E1 E2 E3 E4.
  destruct D1 as [_ _ _ G2 G3 G4 G5 G6]. destruct D2 as [U1 U2 U3 U4 U5].
  destruct F7 as [V1 V2 V3 V4 V5].
  assert (O : getOptions (editor s4) = getOptions (editor s)) by congruence.
  assert (O3 : getOptions (editor s3) = getOptions (editor s)) by congruence.
  rewrite O3 in F4. rewrite A1o in C3.
  rewrite G3, C4, A4 in F4. rewrite A3 in C3.
  assert (I4 : _isEnabled s4
               = (if hasChanged e folding then opt_folding (getOptions (editor s))
                  else _isEnabled s)) by congruence.
  assert (M4 : _maxFoldingRegions s4
               = (if hasChanged e foldingMaximumRegions
                  then opt_foldingMaximumRegions (getOptions (editor s))
                  else _maxFoldingRegions s)) by congruence.
  assert (X4 : _unfoldOnClickAfterEndOfLine s4 = _unfoldOnClickAfterEndOfLine s)
    by congruence.
  assert (Y4 : _foldingImportsByDefault s4 = _foldingImportsByDefault s) by congruence.
  assert (ZM : getModel (editor s4) = getModel (editor s)) by congruence.
  assert (ZL : getLineCount (editor s4) = getLineCount (editor s)) by congruence.
  assert (Z4 : editor s4 = editor s2) by congruence.
  destruct (hasChanged e unfoldOnClickAfterEndOfLine) eqn:H5;
    destruct (hasChanged e foldingImportsByDefault) eqn:H6; simpl; rewrite ?O;
    (split; [exact ZM|]); (split; [exact ZL|]); (split; [first [reflexivity|exact O]|]);
    (split; [exact I4|]); (split; [exact M4|]);
    (split; [exact F4|]); (split; [first [reflexivity|exact X4]|]);
    (split; [first [reflexivity|exact Y4]|]);
    (split; [exact F8|]);
    (split;
     [ intros N1 N2; specialize (A7 N1); specialize (C7 N2); subst s2 s1;
       (split; [exact Z4|]);
       (split; [congruence|]); (split; [congruence|]); (split; [congruence|]);
       (split; [congruence|]); (split; [congruence|]);
       intros N3 N4 N5 N6 N7; try discriminate;
       rewrite (F9 N5), (D3 N3 N4); reflexivity
     | intros k mp models ev1 h ev2 ev Ch L F Hm K R1 R2 La;
       destruct (hasChanged e folding) eqn:Cf;
       [ destruct (W1 eq_refl k mp models ev1 h ev2 ev L F Hm K R1 R2 La) as [I A];
         split; [apply M34, M23, M12, I|];
         simpl; intros N; rewrite Z4, (C7 N); exact A
       | simpl in Ch;
         destruct (W2 eq_refl Ch k mp models ev1 h ev2 ev L F Hm K R1 R2 La) as [I A];
         split; [apply M34, M23, I|];
         intros _; rewrite Z4; exact A ] ]).
Qed.

(** ** From an edit to the update of the folding model *)

Lemma getRangeProvider_frame (editorModel : TextModel) (s : Controller) :
  let s' := snd (getRangeProvider editorModel s) in
  s' = set_foldingStateMemento (foldingStateMemento s') (set_rangeProvider (rangeProvider s') s)
  ∧ rangeProvider s' = Some (fst (getRangeProvider editorModel s)).
Proof.
  cbv zeta. unfold getRangeProvider.
  destruct (rangeProvider s) eqn:P.
  - simpl. rewrite P. split; [destruct s; simpl in *; subst; reflexivity|reflexivity].
  - repeat case_match; simplify_eq; simpl; (split; [destruct s; reflexivity|reflexivity]).
Qed.

(** The timer elapses while the task waits and a folding model is held. *)
Lemma Delayer_timeout_starts (s : Controller) (d : Delayer) (k : nat) (mp : Models) :
  updateScheduler s = Some d -> task d = true ->
  foldingModel s = Some k -> heap s !! k = Some mp ->
  let s' := Delayer_timeout s in
  ∃ provider,
    foldingRegionPromise s' = Some (nextId s)
    ∧ computations s' !! nextId s = Some k
    ∧ effects s' = Compute (nextId s) provider :: effects s
    ∧ rangeProvider s' = Some provider
    ∧ foldingModel s' = Some k ∧ heap s' = heap s ∧ editor s' = editor s
    ∧ updateScheduler s' = Some {| defaultDelay := defaultDelay d; task := false |}.
Proof.
  intros U T F K. cbv zeta. unfold Delayer_timeout. rewrite U, T.
  unfold task_body.
  change (foldingModel (set_updateScheduler ?v s)) with (foldingModel s).
  change (heap (set_updateScheduler ?v s)) with (heap s).
  rewrite F, K.
  match goal with |- context [getRangeProvider ?m ?x] =>
    destruct (getRangeProvider_frame m x) as [G1 G2];
    destruct (getRangeProvider m x) as [provider s2]
  end.
  simpl in G1, G2. rewrite G1. simpl. exists provider.
  rewrite lookup_insert_eq. auto 10.
Qed.

Lemma foldImports_scheduler (foldingRanges : FoldingRegions) (s : Controller) :
  updateScheduler (snd (foldImports foldingRanges s)) = updateScheduler s.
Proof. unfold foldImports. repeat case_match; reflexivity. Qed.

(** After the update returned, the scheduler has the new delay. *)
Lemma onFoldingRanges_delay (p : nat) (foldingRanges : FoldingRegions) (newValue : Z)
    (s : Controller) (k : nat) (mp : Models) (d : Delayer) :
  foldingRegionPromise s = Some p -> computations s !! p = Some k ->
  heap s !! k = Some mp -> updateScheduler s = Some d ->
  is_Some (match out_result
                   (FoldingModel_update mp (fst (fst (foldImports foldingRanges s)))
                      (selectionLineNumbers (editor s))) with
           | Returned _ => Some tt
           | Threw _ => None
           end) ->
  updateScheduler (onFoldingRanges p (Some foldingRanges) newValue s)
  = Some {| defaultDelay := newValue; task := task d |}.
Proof.
  intros P C K U R. cbv beta iota delta [onFoldingRanges]. rewrite C. cbv zeta.
  change (foldingRegionPromise (set_computations ?v s)) with (foldingRegionPromise s).
  rewrite bool_decide_eq_true_2 by exact P.
  match goal with |- context [foldImports foldingRanges ?x] => set (s1 := x) end.
  assert (E : fst (fst (foldImports foldingRanges s1)) = fst (fst (foldImports foldingRanges s)))
    by (unfold foldImports; subst s1; simpl; repeat case_match; simplify_eq; reflexivity).
  destruct (foldImports_frame foldingRanges s1) as (F1 & F2 & _).
  pose proof (foldImports_scheduler foldingRanges s1) as F3.
  change (heap s1) with (heap s) in F1. change (editor s1) with (editor s) in F2.
  change (updateScheduler s1) with (updateScheduler s) in F3.
  rewrite <- E in R. clearbody s1.
  destruct (foldImports foldingRanges s1) as [[rs scroll] s2]. simpl in *.
  rewrite F1, F2, K. cbv zeta.
  match goal with |- context [settle k ?o ?x] =>
    pose proof (view_rest _ _ (settle_view k o x)) as SV;
    generalize dependent (settle k o x)
  end.
  intros s3 SV.
  assert (U3 : updateScheduler s3 = Some d) by (rewrite SV; simpl; congruence).
  destruct (out_result _); [|destruct R; discriminate].
  destruct scroll; simpl; rewrite U3; reflexivity.
Qed.

(** X9. From an edit to the update. In a state the controller reaches from
    its construction, with a document to fold: an edit leaves no
    computation held and a task waiting for the timer; when the timer
    elapses exactly one call is made, the computation by the provider the
    selection yields, for the folding model the controller holds, and the
    task waits no more; and when that computation resolves with ranges the
    folding model held is updated with them (imports folded first where
    due) and the start lines of the selections, and, the update returning
    normally, the scheduler takes the new delay. *)
Theorem edit_timer_resolution (ed : Editor)
    (registry : list (string * FoldingRangeProvider)) (evs : list Event)
    (lines : Z) (foldingRanges : FoldingRegions) (newValue : Z) :
  let s := run (constructor ed registry) evs in
  unavailable s = false ->
  let s1 := step s (DidChangeModelContent lines) in
  let s2 := step s1 SchedulerTimeout in
  foldingRegionPromise s1 = None
  ∧ (∃ d, updateScheduler s1 = Some d ∧ task d = true)
  ∧ ∃ p k mp provider,
      foldingModel s2 = Some k ∧ heap s2 !! k = Some mp
      ∧ foldingRegionPromise s2 = Some p ∧ computations s2 !! p = Some k
      ∧ rangeProvider s2 = Some provider
      ∧ effects s2 = Compute p provider :: effects s1
      ∧ (∃ d, updateScheduler s2 = Some d ∧ task d = false)
      ∧ let s3 := step s2 (FoldingRangesResolved p (Some foldingRanges) newValue) in
        let ranges := fst (fst (foldImports foldingRanges s2)) in
        let selected := selectionLineNumbers (editor s2) in
        updates s3 = Update k ranges selected :: updates s2
        ∧ (∀ u, out_result (FoldingModel_update mp ranges selected) = Returned u ->
                ∃ d, updateScheduler s3 = Some d ∧ defaultDelay d = newValue
                     ∧ task d = false).
Proof.
  intros s U s1 s2.
  assert (R1 : s1 = run (constructor ed registry) (evs ++ [DidChangeModelContent lines])).
  { unfold run. rewrite foldl_app. reflexivity. }
  destruct (reachable_wired ed registry evs) as [I W]. fold s in I, W.
  destruct (reachable_wired ed registry (evs ++ [DidChangeModelContent lines])) as [I1 W1].
  rewrite <- R1 in I1, W1. clear R1.
  destruct (wired_held s I W U) as (k0 & mp0 & _ & _ & _ & [d0 U0] & _).
  pose proof (wired_available s W U) as L.
  assert (K1 : kept s s1).
  { subst s1. cbv beta iota delta [step]. kept. }
  assert (A1 : unavailable s1 = false).
  { unfold unavailable in *. rewrite (kept_model _ _ K1), (kept_enabled _ _ K1). exact U. }
  assert (T1 : foldingRegionPromise s1 = None
               ∧ ∃ d, updateScheduler s1 = Some d ∧ task d = true).
  { subst s1. cbv beta iota zeta delta [step].
    change (localToDispose (set_editor ?v s)) with (localToDispose s). rewrite L.
    unfold onDidChangeModelContent. cbv zeta.
    match goal with |- context [triggerFoldingModelChanged ?x] =>
      assert (U1 : updateScheduler x = Some d0)
        by (change (updateScheduler (set_editor ?v s)) with (updateScheduler s);
            repeat case_match; exact U0);
      destruct (triggerFoldingModelChanged_cancels x d0 U1) as (G1 & _ & G2)
    end.
    split; assumption. }
  destruct T1 as (P1 & d1 & U1 & T1).
  destruct (wired_held s1 I1 W1 A1) as (k & mp & F1 & _ & H1 & _).
  clearbody s1. clear s I W U k0 mp0 d0 U0 L K1.
  split; [exact P1|]. split; [eauto|].
  destruct (Delayer_timeout_starts s1 d1 k mp U1 T1 F1 H1)
    as (provider & G1 & G2 & G3 & G4 & G5 & G6 & G7 & G8).
  change (Delayer_timeout s1) with s2 in *. clearbody s2.
  exists (nextId s1), k, mp, provider.
  split; [exact G5|]. split; [rewrite G6; exact H1|]. split; [exact G1|].
  split; [exact G2|]. split; [exact G4|]. split; [exact G3|].
  split; [eexists; split; [exact G8|reflexivity]|].
  cbv zeta. cbv beta iota delta [step]. rewrite <- G6 in H1. split.
  - apply (onFoldingRanges_current _ _ _ s2 k mp G1 G2 H1).
  - intros u Ru. eexists. split.
    + apply (onFoldingRanges_delay _ _ _ s2 k mp _ G1 G2 H1 G8). rewrite Ru. eauto.
    + split; reflexivity.
Qed.

(** ** A new document *)

Lemma triggerFoldingModelChanged_scheduled (s : Controller) (d : Delayer) :
  updateScheduler s = Some d ->
  updateScheduler (triggerFoldingModelChanged s) = Some (Delayer_trigger d)
  ∧ is_Some (foldingModelPromise (triggerFoldingModelChanged s))
  ∧ foldingStateMemento (triggerFoldingModelChanged s) = foldingStateMemento s
  ∧ editor (triggerFoldingModelChanged s) = editor s.
Proof.
  intros U. unfold triggerFoldingModelChanged, cancelFoldingRegionPromise. rewrite U.
  destruct (foldingRegionPromise s); simpl; eauto.
Qed.

(** X10. A new document starts afresh. In a state the controller reaches
    from its construction, with folding enabled, the attachment of a
    document that is not too large for tokenization leaves the controller
    with a new folding model of that document and the hidden range model
    built on it, both uninitialized in the store under one reference, with
    no range provider, no stored memento and no computation held, the
    folded-imports flag cleared, and a task waiting in a new scheduler
    whose delay is the debounce value of the document. *)
Theorem new_document_starts_afresh (ed : Editor)
    (registry : list (string * FoldingRangeProvider)) (evs : list Event)
    (model : TextModel) (lines : Z) :
  let s := run (constructor ed registry) evs in
  _isEnabled s = true -> isTooLargeForTokenization model = false ->
  let s' := step s (DidChangeModel (Some model) lines) in
  ∃ k,
    foldingModel s' = Some k ∧ hiddenRangeModel s' = Some k
    ∧ heap s' !! k = Some {| fm := new_FoldingModel model;
                             hrm := new_HiddenRangeModel (new_FoldingModel model) |}
    ∧ rangeProvider s' = None ∧ foldingStateMemento s' = None
    ∧ foldingRegionPromise s' = None
    ∧ _currentModelHasFoldedImports s' = false
    ∧ updateScheduler s'
      = Some {| defaultDelay := updateDebounceInfo_get model; task := true |}
    ∧ is_Some (foldingModelPromise s')
    ∧ getModel (editor s') = Some model ∧ getLineCount (editor s') = lines.
Proof.
  intros s E T. destruct (reachable_wired ed registry evs) as [_ W]. fold s in W.
  clearbody s. cbv zeta. cbv beta iota delta [step].
  set (x := set_editor (editor_setModel (Some model) lines (editor s)) s).
  assert (D : localToDispose x = false -> detached x)
    by (apply (wired_detached_set s); auto).
  assert (Ex : _isEnabled x = true) by exact E.
  assert (Mx : getModel (editor x) = Some model) by reflexivity.
  assert (Lx : getLineCount (editor x) = lines) by reflexivity.
  clearbody x. clear W E.
  destruct (localToDispose_clear_detached x D) as (L & [D1 D2 D3 D4 D5] & E1 & E2).
  pose proof (settings_lines _ _ (localToDispose_clear_settings x)) as E3.
  unfold onModelChanged.
  rewrite <- E2 in Ex. rewrite <- E1 in Mx. rewrite <- E3 in Lx. clear E1 E2 E3.
  generalize dependent (localToDispose_clear x). clear x D.
  intros s1 Ex Mx Lx L D1 D2 D3 D4 D5.
  cbv zeta. rewrite Mx, Ex, T. change (negb true || false) with false. cbv iota.
  match goal with |- context [triggerFoldingModelChanged ?a] => set (y := a) end.
  assert (Y1 : updateScheduler y
               = Some {| defaultDelay := updateDebounceInfo_get model; task := false |})
    by reflexivity.
  assert (Y2 : foldingModel y = Some (nextId s1)) by reflexivity.
  assert (Y3 : hiddenRangeModel y = Some (nextId s1)) by reflexivity.
  assert (Y4 : heap y !! nextId s1
               = Some {| fm := new_FoldingModel model;
                         hrm := new_HiddenRangeModel (new_FoldingModel model) |})
    by (subst y; simpl; apply lookup_insert_eq).
  assert (Y5 : rangeProvider y = None) by exact D5.
  assert (Y6 : foldingStateMemento y = None) by exact D4.
  assert (Y7 : _currentModelHasFoldedImports y = false) by reflexivity.
  assert (Y8 : getModel (editor y) = Some model) by exact Mx.
  assert (Y9 : getLineCount (editor y) = lines) by exact Lx.
  clearbody y.
  destruct (triggerFoldingModelChanged_scheduled y _ Y1) as (G1 & G2 & G3 & G4).
  destruct (triggerFoldingModelChanged_cancels y _ Y1) as (G5 & _).
  destruct (triggerFoldingModelChanged_unbuilt y) as [U1 U2 U3 _ U5].
  pose proof (triggerFoldingModelChanged_rangeProvider_kept y) as G6.
  exists (nextId s1).
  split; [congruence|]. split; [congruence|]. split; [rewrite U3; exact Y4|].
  split; [congruence|]. split; [congruence|]. split; [exact G5|]. split; [congruence|].
  split; [exact G1|]. split; [exact G2|]. rewrite G4. split; assumption.
Qed.

(** ** Where computations start *)

#[local] Instance uncomputed_refl : Reflexive uncomputed.
Proof. intros s. reflexivity. Qed.

#[local] Instance uncomputed_trans : Transitive uncomputed.
Proof. intros s1 s2 s3 U1 U2. unfold uncomputed in *. congruence. Qed.

Lemma only_view_uncomputed (s s' : Controller) : only_view s s' -> uncomputed s s'.
Proof.
  intros [_ _ _ _ (x & X & F)]. unfold uncomputed, computes.
  rewrite X, List.filter_app, length_app.
  replace (List.filter isCompute x) with (@nil Effect); [reflexivity|].
  clear X. induction x as [|e x IH]; [reflexivity|].
  simpl in F. apply andb_prop in F as [Fe Fx].
  simpl. destruct e; try discriminate; simpl; auto.
Qed.

Lemma settle_uncomputed {A : Type} (k : nat) (o : Outcome A) (s : Controller) :
  uncomputed s (settle k o s).
Proof. apply only_view_uncomputed, settle_view. Qed.
Hint Resolve settle_uncomputed : frames.

Ltac uncomputed := walk ltac:(unfold uncomputed, computes; simpl; reflexivity).

Lemma cancelFoldingRegionPromise_uncomputed (s : Controller) :
  uncomputed s (cancelFoldingRegionPromise s).
Proof. cbv beta delta [cancelFoldingRegionPromise]. uncomputed. Qed.
Hint Resolve cancelFoldingRegionPromise_uncomputed : frames.

Lemma disposeRangeProvider_uncomputed (s : Controller) :
  uncomputed s (disposeRangeProvider s).
Proof. cbv beta delta [disposeRangeProvider]. uncomputed. Qed.
Hint Resolve disposeRangeProvider_uncomputed : frames.

Lemma triggerFoldingModelChanged_uncomputed (s : Controller) :
  uncomputed s (triggerFoldingModelChanged s).
Proof. cbv beta delta [triggerFoldingModelChanged]. uncomputed. Qed.
Hint Resolve triggerFoldingModelChanged_uncomputed : frames.

Lemma onFoldingStrategyChanged_uncomputed (s : Controller) :
  uncomputed s (onFoldingStrategyChanged s).
Proof. cbv beta delta [onFoldingStrategyChanged]. uncomputed. Qed.
Hint Resolve onFoldingStrategyChanged_uncomputed : frames.

Lemma disposeModels_uncomputed (s : Controller) : uncomputed s (disposeModels s).
Proof. apply only_view_uncomputed, disposeModels_view. Qed.
Hint Resolve disposeModels_uncomputed : frames.

Lemma localToDispose_clear_uncomputed (s : Controller) :
  uncomputed s (localToDispose_clear s).
Proof. cbv beta delta [localToDispose_clear disposeLocal]. uncomputed. Qed.
Hint Resolve localToDispose_clear_uncomputed : frames.

Lemma onModelChanged_uncomputed (s : Controller) : uncomputed s (onModelChanged s).
Proof. cbv beta delta [onModelChanged]. uncomputed. Qed.
Hint Resolve onModelChanged_uncomputed : frames.

Lemma foldImports_uncomputed (foldingRanges : FoldingRegions) (s : Controller) :
  uncomputed s (snd (foldImports foldingRanges s)).
Proof. unfold foldImports. repeat case_match; simpl; uncomputed. Qed.
Hint Resolve foldImports_uncomputed : frames.

Lemma notifyTooManyRegions_uncomputed (n : Z) (s : Controller) :
  uncomputed s (_notifyTooManyRegions n s).
Proof. cbv beta delta [_notifyTooManyRegions]. uncomputed. Qed.
Hint Resolve notifyTooManyRegions_uncomputed : frames.

Lemma onFoldingRanges_uncomputed (p : nat) (foldingRanges : option FoldingRegions)
    (newValue : Z) (s : Controller) :
  uncomputed s (onFoldingRanges p foldingRanges newValue s).
Proof. cbv beta delta [onFoldingRanges]. uncomputed. Qed.
Hint Resolve onFoldingRanges_uncomputed : frames.

Lemma onFoldingRangesRejected_uncomputed (p : nat) (err : JSError) (s : Controller) :
  uncomputed s (onFoldingRangesRejected p err s).
Proof. cbv beta delta [onFoldingRangesRejected]. uncomputed. Qed.
Hint Resolve onFoldingRangesRejected_uncomputed : frames.

Lemma restoreViewState_uncomputed (state : option FoldingStateMemento) (s : Controller) :
  uncomputed s (fst (restoreViewState state s)).
Proof. cbv beta delta [restoreViewState getFoldingModel then_]. uncomputed. Qed.
Hint Resolve restoreViewState_uncomputed : frames.

Lemma runContinuation_uncomputed (c : Continuation) (value : option nat) (s : Controller) :
  uncomputed s (runContinuation c value s).
Proof. cbv beta delta [runContinuation applyMementoThen invokeThen]. uncomputed. Qed.
Hint Resolve runContinuation_uncomputed : frames.

Lemma onFoldingModelPromise_uncomputed (d : nat) (value : option nat) (s : Controller) :
  uncomputed s (onFoldingModelPromise d value s).
Proof.
  cbv beta delta [onFoldingModelPromise]. cbv zeta.
  match goal with |- uncomputed s (foldl _ ?x ?l) =>
    assert (Q : uncomputed s x) by uncomputed; generalize dependent x; generalize l
  end.
  induction l as [|c l IH]; intros s1 Q; simpl; [exact Q|].
  apply IH. transitivity s1; [exact Q|apply runContinuation_uncomputed].
Qed.
Hint Resolve onFoldingModelPromise_uncomputed : frames.

Lemma onDidChangeConfiguration_uncomputed (e : ConfigurationChangedEvent)
    (s : Controller) :
  uncomputed s (onDidChangeConfiguration e s).
Proof. cbv beta delta [onDidChangeConfiguration]. uncomputed. Qed.

Lemma runEditorCommand_uncomputed (action : FoldingAction)
    (args : option FoldingArguments) (s : Controller) :
  uncomputed s (default s (runEditorCommand action args (Some s))).
Proof.
  unfold runEditorCommand, getFoldingModel.
  destruct (foldingModelPromise s); simpl; [unfold then_; uncomputed|reflexivity].
Qed.

Lemma step_uncomputed (s : Controller) (ev : Event) :
  ev ≠ SchedulerTimeout -> uncomputed s (step s ev).
Proof.
  intros N. destruct ev; cbv beta iota delta [step].
  - uncomputed.
  - transitivity (set_editor (editor_setOptions options (editor s)) s); [uncomputed|].
    apply onDidChangeConfiguration_uncomputed.
  - uncomputed.
  - uncomputed.
  - cbv beta delta [onDidChangeModelContent]. uncomputed.
  - uncomputed.
  - destruct (N eq_refl).
  - uncomputed.
  - uncomputed.
  - uncomputed.
  - cbv beta delta [onInitializingTimeout]. uncomputed.
  - uncomputed.
  - uncomputed.
  - apply restoreViewState_uncomputed.
  - apply runEditorCommand_uncomputed.
Qed.

Lemma getRangeProvider_scheduler (editorModel : TextModel) (s : Controller) :
  updateScheduler (snd (getRangeProvider editorModel s)) = updateScheduler s
  ∧ effects (snd (getRangeProvider editorModel s)) = effects s.
Proof. unfold getRangeProvider. repeat case_match; auto. Qed.

(** The timer of the scheduler elapses: the task waits no more. *)
Lemma Delayer_timeout_idle (s : Controller) (d : Delayer) :
  updateScheduler (Delayer_timeout s) = Some d -> task d = false.
Proof.
  unfold Delayer_timeout.
  destruct (updateScheduler s) as [d0|] eqn:U; [|congruence].
  destruct (task d0) eqn:T; [|congruence].
  unfold task_body.
  change (foldingModel (set_updateScheduler ?v s)) with (foldingModel s).
  change (heap (set_updateScheduler ?v s)) with (heap s).
  destruct (foldingModel s) as [k|]; [|intros [= <-]; reflexivity].
  destruct (heap s !! k) as [mp|]; [|intros [= <-]; reflexivity].
  match goal with |- context [getRangeProvider ?m ?x] =>
    destruct (getRangeProvider_scheduler m x) as [G _];
    destruct (getRangeProvider m x) as [provider s2]
  end.
  simpl in G. simpl. rewrite G. intros [= <-]. reflexivity.
Qed.

Lemma Delayer_timeout_computes (s : Controller) :
  computes (Delayer_timeout s) = computes s
  ∨ (∃ d, updateScheduler s = Some d ∧ task d = true)
    ∧ computes (Delayer_timeout s) = S (computes s).
Proof.
  unfold Delayer_timeout.
  destruct (updateScheduler s) as [d0|] eqn:U; [|auto].
  destruct (task d0) eqn:T; [|auto].
  unfold task_body.
  change (foldingModel (set_updateScheduler ?v s)) with (foldingModel s).
  change (heap (set_updateScheduler ?v s)) with (heap s).
  destruct (foldingModel s) as [k|]; [|auto].
  destruct (heap s !! k) as [mp|]; [|auto].
  right. split; [eauto|].
  match goal with |- context [getRangeProvider ?m ?x] =>
    destruct (getRangeProvider_scheduler m x) as [_ G];
    destruct (getRangeProvider m x) as [provider s2]
  end.
  simpl in G. unfold computes. simpl. rewrite G. reflexivity.
Qed.

(** X11. Computations start at the timer and nowhere else. In any state,
    no event but the expiry of the scheduler's timer starts a computation;
    an expiry starts at most one, and only when a task was waiting; after an
    expiry no task waits, so that a second expiry right after the first
    changes nothing. *)
Theorem computations_start_at_the_timer (s : Controller) (ev : Event) :
  (ev ≠ SchedulerTimeout -> computes (step s ev) = computes s)
  ∧ (computes (step s SchedulerTimeout) = computes s
     ∨ (∃ d, updateScheduler s = Some d ∧ task d = true)
       ∧ computes (step s SchedulerTimeout) = S (computes s))
  ∧ (∀ d, updateScheduler (step s SchedulerTimeout) = Some d -> task d = false)
  ∧ step (step s SchedulerTimeout) SchedulerTimeout = step s SchedulerTimeout.
Proof.
  split; [apply step_uncomputed|]. split; [apply Delayer_timeout_computes|].
  split; [apply Delayer_timeout_idle|].
  cbv beta iota delta [step]. unfold Delayer_timeout at 1.
  destruct (updateScheduler (Delayer_timeout s)) as [d|] eqn:U; [|reflexivity].
  rewrite (Delayer_timeout_idle s d U). reflexivity.
Qed.

(** ** The restoring flag between events *)

#[local] Instance unmarked_refl : Reflexive unmarked.
Proof. intros s. reflexivity. Qed.

#[local] Instance unmarked_trans : Transitive unmarked.
Proof. intros s1 s2 s3 U1 U2. unfold unmarked in *. congruence. Qed.

Lemma only_view_unmarked (s s' : Controller) : only_view s s' -> unmarked s s'.
Proof. intros [E _ _ _ _]. unfold unmarked. rewrite E. reflexivity. Qed.

Lemma settle_unmarked {A : Type} (k : nat) (o : Outcome A) (s : Controller) :
  unmarked s (settle k o s).
Proof. apply only_view_unmarked, settle_view. Qed.
Hint Resolve settle_unmarked : frames.

Ltac unmarked := walk ltac:(reflexivity).

Lemma cancelFoldingRegionPromise_unmarked (s : Controller) :
  unmarked s (cancelFoldingRegionPromise s).
Proof. cbv beta delta [cancelFoldingRegionPromise]. unmarked. Qed.
Hint Resolve cancelFoldingRegionPromise_unmarked : frames.

Lemma disposeRangeProvider_unmarked (s : Controller) : unmarked s (disposeRangeProvider s).
Proof. cbv beta delta [disposeRangeProvider]. unmarked. Qed.
Hint Resolve disposeRangeProvider_unmarked : frames.

Lemma triggerFoldingModelChanged_unmarked (s : Controller) :
  unmarked s (triggerFoldingModelChanged s).
Proof. cbv beta delta [triggerFoldingModelChanged]. unmarked. Qed.
Hint Resolve triggerFoldingModelChanged_unmarked : frames.

Lemma onFoldingStrategyChanged_unmarked (s : Controller) :
  unmarked s (onFoldingStrategyChanged s).
Proof. cbv beta delta [onFoldingStrategyChanged]. unmarked. Qed.
Hint Resolve onFoldingStrategyChanged_unmarked : frames.

Lemma disposeModels_unmarked (s : Controller) : unmarked s (disposeModels s).
Proof. apply only_view_unmarked, disposeModels_view. Qed.
Hint Resolve disposeModels_unmarked : frames.

Lemma localToDispose_clear_unmarked (s : Controller) : unmarked s (localToDispose_clear s).
Proof. cbv beta delta [localToDispose_clear disposeLocal]. unmarked. Qed.
Hint Resolve localToDispose_clear_unmarked : frames.

Lemma onModelChanged_unmarked (s : Controller) : unmarked s (onModelChanged s).
Proof. cbv beta delta [onModelChanged]. unmarked. Qed.
Hint Resolve onModelChanged_unmarked : frames.

Lemma getRangeProvider_unmarked (editorModel : TextModel) (s : Controller) :
  unmarked s (snd (getRangeProvider editorModel s)).
Proof. unfold getRangeProvider. repeat case_match; simpl; unmarked. Qed.
Hint Resolve getRangeProvider_unmarked : frames.

Lemma foldImports_unmarked (foldingRanges : FoldingRegions) (s : Controller) :
  unmarked s (snd (foldImports foldingRanges s)).
Proof. unfold foldImports. repeat case_match; simpl; unmarked. Qed.
Hint Resolve foldImports_unmarked : frames.

Lemma Delayer_timeout_unmarked (s : Controller) : unmarked s (Delayer_timeout s).
Proof. cbv beta delta [Delayer_timeout task_body]. unmarked. Qed.
Hint Resolve Delayer_timeout_unmarked : frames.

Lemma notifyTooManyRegions_unmarked (n : Z) (s : Controller) :
  unmarked s (_notifyTooManyRegions n s).
Proof. cbv beta delta [_notifyTooManyRegions]. unmarked. Qed.
Hint Resolve notifyTooManyRegions_unmarked : frames.

Lemma onFoldingRanges_unmarked (p : nat) (foldingRanges : option FoldingRegions)
    (newValue : Z) (s : Controller) :
  unmarked s (onFoldingRanges p foldingRanges newValue s).
Proof. cbv beta delta [onFoldingRanges]. unmarked. Qed.
Hint Resolve onFoldingRanges_unmarked : frames.

Lemma onFoldingRangesRejected_unmarked (p : nat) (err : JSError) (s : Controller) :
  unmarked s (onFoldingRangesRejected p err s).
Proof. cbv beta delta [onFoldingRangesRejected]. unmarked. Qed.
Hint Resolve onFoldingRangesRejected_unmarked : frames.

Lemma restoreViewState_unmarked (state : option FoldingStateMemento) (s : Controller) :
  unmarked s (fst (restoreViewState state s)).
Proof. cbv beta delta [restoreViewState getFoldingModel then_]. unmarked. Qed.
Hint Resolve restoreViewState_unmarked : frames.

Lemma onDidChangeConfiguration_unmarked (e : ConfigurationChangedEvent) (s : Controller) :
  unmarked s (onDidChangeConfiguration e s).
Proof. cbv beta delta [onDidChangeConfiguration]. unmarked. Qed.

Lemma runEditorCommand_unmarked (action : FoldingAction) (args : option FoldingArguments)
    (s : Controller) :
  unmarked s (default s (runEditorCommand action args (Some s))).
Proof.
  unfold runEditorCommand, getFoldingModel.
  destruct (foldingModelPromise s); simpl; [unfold then_; unmarked|reflexivity].
Qed.

(** The callbacks of the folding model promise leave the flag clear: the
    one that sets it clears it in its [finally]. *)
Lemma runContinuation_clear (c : Continuation) (value : option nat) (s : Controller) :
  _restoringViewState s = false -> _restoringViewState (runContinuation c value s) = false.
Proof.
  intros F. destruct c as [collapsed|action args]; simpl.
  - unfold applyMementoThen.
    destruct value as [k|]; [|exact F]. destruct (heap s !! k) as [mp|]; [|exact F].
    cbv zeta. destruct (out_result _); reflexivity.
  - rewrite <- F. change (unmarked s (invokeThen action args value s)).
    cbv beta delta [invokeThen]. unmarked.
Qed.

Lemma onFoldingModelPromise_clear (d : nat) (value : option nat) (s : Controller) :
  _restoringViewState s = false ->
  _restoringViewState (onFoldingModelPromise d value s) = false.
Proof.
  intros F. unfold onFoldingModelPromise. cbv zeta.
  match goal with |- _restoringViewState (foldl _ ?x ?l) = false =>
    assert (Q : _restoringViewState x = false) by exact F;
    generalize dependent x; generalize l
  end.
  induction l as [|c l IH]; intros s1 Q; simpl; [exact Q|].
  apply IH, runContinuation_clear, Q.
Qed.

(** X12. The restoring flag is clear between events: in every state the
    controller reaches from its construction [_restoringViewState] is
    false. The flag is only set inside the callback that applies a memento,
    which clears it in its [finally], also when the apply throws; so the
    adjustment of selections is never left suppressed. *)
Theorem restoring_flag_clear_between_events (ed : Editor)
    (registry : list (string * FoldingRangeProvider)) (evs : list Event) :
  _restoringViewState (run (constructor ed registry) evs) = false.
Proof.
  assert (C : _restoringViewState (constructor ed registry) = false).
  { unfold constructor. cbv zeta.
    match goal with |- _restoringViewState (onModelChanged ?x) = false =>
      rewrite (onModelChanged_unmarked x)
    end.
    reflexivity. }
  revert C. generalize (constructor ed registry).
  induction evs as [|ev evs IH]; intros s F; simpl; [exact F|].
  apply IH. destruct ev; cbv beta iota delta [step];
    try (rewrite <- F;
         match goal with |- _restoringViewState ?x = _restoringViewState s =>
           change (unmarked s x)
         end).
  - unmarked.
  - transitivity (set_editor (editor_setOptions options (editor s)) s); [unmarked|].
    apply onDidChangeConfiguration_unmarked.
  - unmarked.
  - unmarked.
  - cbv beta delta [onDidChangeModelContent]. unmarked.
  - unmarked.
  - unmarked.
  - unmarked.
  - unmarked.
  - unfold unmarked. rewrite F. apply onFoldingModelPromise_clear, F.
  - cbv beta delta [onInitializingTimeout]. unmarked.
  - unmarked.
  - unmarked.
  - apply restoreViewState_unmarked.
  - apply runEditorCommand_unmarked.
Qed.

(** ** Commands *)

(** X13. A folding command waits for the folding model. Issued while the
    controller has a folding model promise, it reports telemetry at once
    and attaches its callback, changing nothing else. When the promise
    resolves and that callback is the one attached to it, the callback is
    spent; without a folding model it does nothing; with one it runs the
    helper of the action on that model, with the lines read from the editor
    at that time and not when the command was issued, the models in the
    store become what the helper leaves, the only other calls are those of
    the listener of hidden range changes, and last, if the helper returned,
    the start of the first selection as it is by then is revealed. *)
Theorem command_awaits_the_folding_model (s s' : Controller) (action : FoldingAction)
    (args : option FoldingArguments) (d : nat) (value : option nat) :
  foldingModelPromise s = Some d ->
  List.filter (fun c => Nat.eqb (fst c) d) (continuations s')
  = [(d, InvokeThen action args)] ->
  let s1 := step s (RunEditorCommand action args) in
  let s2 := step s' (FoldingModelPromiseResolved d value) in
  s1 = set_effects (ReportTelemetry action :: effects s)
         (set_continuations (continuations s ++ [(d, InvokeThen action args)]) s)
  ∧ List.filter (fun c => Nat.eqb (fst c) d) (continuations s2) = []
  ∧ (value ≫= (fun k => heap s' !! k) = None ->
     effects s2 = effects s' ∧ heap s2 = heap s' ∧ editor s2 = editor s')
  ∧ (∀ k mp, value = Some k -> heap s' !! k = Some mp ->
       let op := invoke action (editor s') args in
       let o := FoldingModel_run op mp in
       heap s2 = <[k := out_models o]> (heap s')
       ∧ ∃ view,
           forallb viewEffect view = true
           ∧ effects s2
             = match out_result o, getSelections (editor s2) with
               | Returned _, Some (selection :: _) =>
                   [Reveal (Range.startLineNumber selection)]
               | _, _ => []
               end ++ view ++ Run k op :: effects s').
Proof.
  intros P R. cbv zeta. cbv beta iota delta [step]. split.
  { unfold runEditorCommand, getFoldingModel. rewrite P. reflexivity. }
  unfold onFoldingModelPromise. cbv zeta. rewrite R.
  set (rest := List.filter (fun c => negb (Nat.eqb (fst c) d)) (continuations s')).
  assert (E : List.filter (fun c => Nat.eqb (fst c) d) rest = []).
  { subst rest. clear R. induction (continuations s') as [|c l IH]; [reflexivity|].
    simpl. destruct (Nat.eqb (fst c) d) eqn:C; simpl; [exact IH|].
    rewrite C. exact IH. }
  set (s0 := set_continuations rest s').
  assert (C0 : continuations s0 = rest) by reflexivity.
  assert (H0 : heap s0 = heap s') by reflexivity.
  assert (F0 : effects s0 = effects s') by reflexivity.
  assert (D0 : editor s0 = editor s') by reflexivity.
  clearbody s0. clearbody rest. clear R.
  change (foldl _ s0 [(d, InvokeThen action args)])
    with (invokeThen action args value s0).
  unfold invokeThen. rewrite H0, D0.
  split; [|split].
  - destruct value as [k|]; [|congruence]. destruct (heap s' !! k) as [mp|]; [|congruence].
    cbv zeta.
    match goal with |- context [settle k ?o ?x] =>
      pose proof (view_rest _ _ (settle_view k o x)) as SV;
      generalize dependent (settle k o x)
    end.
    intros s3 SV.
    assert (C3 : continuations s3 = rest) by (rewrite SV; exact C0).
    destruct (out_result _); [|congruence].
    destruct (getSelections (editor s3)) as [[|selection l]|]; simpl; congruence.
  - intros N. destruct value as [k|]; [|auto]. simpl in N. rewrite N. auto.
  - intros k mp -> K. rewrite K. cbv zeta.
    match goal with |- context [settle k ?o ?x] =>
      pose proof (settle_heap k o x) as SH;
      pose proof (view_effects _ _ (settle_view k o x)) as (view & V1 & V2);
      generalize dependent (settle k o x)
    end.
    intros s3 SH V1. simpl in SH, V1. rewrite H0 in SH. rewrite F0 in V1.
    split.
    + destruct (out_result _); [|exact SH].
      destruct (getSelections (editor s3)) as [[|selection l]|]; exact SH.
    + exists view. split; [exact V2|].
      destruct (out_result _); [|exact V1].
      destruct (getSelections (editor s3)) as [[|selection l]|] eqn:S; simpl;
        rewrite ?S; simpl; rewrite V1; reflexivity.
Qed.

(** ** Without a document to fold *)

(** X14. Without a document to fold the controller does no folding work.
    In a state the controller reaches from its construction, while no
    document is attached, folding is disabled or the document is too large
    for tokenization, no event starts a computation and none updates a
    folding model: the timer finds no scheduler, and a computation that
    still resolves is not the one held, there being none. *)
Theorem unavailable_does_no_work (ed : Editor)
    (registry : list (string * FoldingRangeProvider)) (evs : list Event) (ev : Event) :
  let s := run (constructor ed registry) evs in
  unavailable s = true ->
  computes (step s ev) = computes s ∧ updates (step s ev) = updates s.
Proof.
  intros s U. destruct (reachable_wired ed registry evs) as [[S B] W]. fold s in S, B, W.
  clearbody s. specialize (B U).
  destruct (disposed_idle s S B) as [Sch _].
  pose proof (detached_foldingRegionPromise s (wired_detached s W B)) as P.
  split.
  - assert (D : ev = SchedulerTimeout ∨ ev ≠ SchedulerTimeout)
      by (destruct ev; try (right; discriminate); left; reflexivity).
    destruct D as [->|N]; [|apply step_uncomputed, N].
    destruct (Delayer_timeout_computes s) as [C|[(d & D & _) _]]; [exact C|congruence].
  - assert (D : (∃ p r v, ev = FoldingRangesResolved p r v)
                ∨ ∀ p r v, ev ≠ FoldingRangesResolved p r v).
    { destruct ev; try (right; discriminate). left. eauto. }
    destruct D as [(p & r & v & ->)|N]; [|apply step_unrefreshed, N].
    destruct (onFoldingRanges_otherwise p r v s) as [G|(k & rs & _ & Q & _)];
      [exact G|congruence].
Qed.
End Properties.

(** * Mouse gestures *)

Section GestureProperties.
Context `{Queries}.

(** X15. A click is recognised from its two events. When [onEditorMouseUp]
    attaches its callback, given what [onEditorMouseDown] recorded, then:
    the controller held a hidden range model at mouse-down and a folding
    model promise at mouse-up, both events had a target with a range, the
    two ranges start on one line, which is the line recorded, and the left
    or the middle button was down. A click on the icon was in the gutter at
    both events, five pixels or more from the left border of the
    decorations. Any other click was in the text: the hidden range model had
    ranges, the mouse went down at the end of the line, or behind it with
    [unfoldOnClickAfterEndOfLine] set, and it went up at the end of the
    line of a document. *)
Theorem click_recognised (downColumns upColumns : Z -> Z) (down up : EditorMouseEvent)
    (s s' : Controller) (foldingModel : nat) (info : MouseDownInfo) :
  onEditorMouseUp upColumns up (onEditorMouseDown downColumns down s) s'
  = Some (foldingModel, info) ->
  ∃ h td tu rd ru,
    hiddenRangeModelObject s = Some h
    ∧ target down = Some td ∧ MouseTarget.range td = Some rd
    ∧ target up = Some tu ∧ MouseTarget.range tu = Some ru
    ∧ getFoldingModel s' = Some foldingModel
    ∧ (leftButton (event down) = true ∨ middleButton (event down) = true)
    ∧ lineNumber info = Range.startLineNumber rd
    ∧ Range.startLineNumber ru = Range.startLineNumber rd
    ∧ (iconClicked info = true ->
       MouseTarget.type td = GUTTER_LINE_DECORATIONS
       ∧ MouseTarget.type tu = GUTTER_LINE_DECORATIONS
       ∧ (5 <= MouseTarget.offsetX td - MouseTarget.offsetLeft td)%Z)
    ∧ (iconClicked info = false ->
       HiddenRangeModel_hasRanges h = true
       ∧ is_Some (getModel (editor s'))
       ∧ Range.startColumn ru = upColumns (lineNumber info)
       ∧ (MouseTarget.type td = CONTENT_TEXT
          ∧ is_Some (getModel (editor s))
          ∧ Range.startColumn rd = downColumns (Range.startLineNumber rd)
          ∨ MouseTarget.type td = CONTENT_EMPTY
            ∧ _unfoldOnClickAfterEndOfLine s = true
            ∧ MouseTarget.isAfterLines td = false)).
Proof.
  intros U.
  (* mouse up *)
  unfold onEditorMouseUp in U.
  destruct (getFoldingModel s') as [d|] eqn:Fm; [|discriminate].
  destruct (onEditorMouseDown downColumns down s) as [recorded|] eqn:Dn; [|discriminate].
  destruct (target up) as [tu|] eqn:Tu; [|discriminate].
  destruct (MouseTarget.range tu) as [ru|] eqn:Ru; [|discriminate].
  destruct (Range.startLineNumber ru =? lineNumber recorded)%Z eqn:Line; [|discriminate].
  apply Z.eqb_eq in Line. simpl in U.
  assert (Up : recorded = info ∧ d = foldingModel
               ∧ (iconClicked recorded = true ->
                  MouseTarget.type tu = GUTTER_LINE_DECORATIONS)
               ∧ (iconClicked recorded = false ->
                  is_Some (getModel (editor s'))
                  ∧ Range.startColumn ru = upColumns (lineNumber recorded))).
  { destruct (iconClicked recorded).
    - destruct (MouseTarget.type tu); simplify_eq. split_and!; auto; intros; discriminate.
    - destruct (getModel (editor s')); [|discriminate].
      destruct (Range.startColumn ru =? upColumns (lineNumber recorded))%Z eqn:C;
        [|discriminate].
      apply Z.eqb_eq in C. simpl in U. simplify_eq.
      split_and!; eauto; intros; discriminate. }
  destruct Up as (-> & -> & Up1 & Up2). clear U.
  (* mouse down *)
  unfold onEditorMouseDown in Dn.
  destruct (hiddenRangeModelObject s) as [h|] eqn:Hm; [|discriminate].
  destruct (target down) as [td|] eqn:Tdn; [|discriminate].
  destruct (MouseTarget.range td) as [rd|] eqn:Rd; [|discriminate].
  destruct (negb (leftButton (event down)) && negb (middleButton (event down))) eqn:B;
    [discriminate|].
  assert (B' : leftButton (event down) = true ∨ middleButton (event down) = true).
  { destruct (leftButton (event down)), (middleButton (event down)); auto. }
  cbv zeta in Dn.
  exists h, td, tu, rd, ru.
  destruct (MouseTarget.type td) eqn:Td.
  - destruct (_ <? 5)%Z eqn:Off; [discriminate|]. apply Z.ltb_ge in Off.
    injection Dn as <-. simpl in *.
    split_and!; auto; intros; try discriminate; auto.
  - destruct (_unfoldOnClickAfterEndOfLine s) eqn:O; [|discriminate].
    destruct (HiddenRangeModel_hasRanges h) eqn:R; [|discriminate].
    destruct (MouseTarget.isAfterLines td) eqn:Af; [discriminate|].
    injection Dn as <-. simpl in *.
    split_and!; auto; intros; try discriminate;
      destruct (Up2 eq_refl); split_and!; auto.
  - destruct (HiddenRangeModel_hasRanges h) eqn:R; [|discriminate].
    destruct (getModel (editor s)) eqn:M; [|discriminate].
    destruct (_ =? _)%Z eqn:C; [|discriminate]. apply Z.eqb_eq in C.
    injection Dn as <-. simpl in *.
    split_and!; auto; intros; try discriminate;
      destruct (Up2 eq_refl); split_and!; eauto.
  - discriminate.
Qed.

(** X16. What a click toggles. When the callback of [onEditorMouseUp]
    calls [toggleCollapseState], the folding model has a region that starts
    on the line of the click, and the icon was clicked or that region is
    collapsed; the line revealed is that line. The regions passed all have
    one collapse state, so a click folds or unfolds and never does both.
    Without the alt key they have the state of the region clicked and there
    is at least one; without any modifier the region clicked is the only
    one; and a click in the text, without the alt key, passes collapsed
    regions only: it unfolds and never folds. *)
Theorem click_toggles_uniformly (e : MouseEvent) (info : MouseDownInfo)
    (value : option nat) (s : Controller) (toToggle : list FoldingRegion) (line : Z) :
  onEditorMouseUpThen e info value s = Some (toToggle, line) ->
  line = lineNumber info
  ∧ ∃ k mp region,
      value = Some k ∧ heap s !! k = Some mp
      ∧ FoldingModel_getRegionAtLine (fm mp) (lineNumber info) = Some region
      ∧ startLineNumber region = lineNumber info
      ∧ (iconClicked info = true ∨ isCollapsed region = true)
      ∧ (∀ r1 r2, r1 ∈ toToggle -> r2 ∈ toToggle -> isCollapsed r1 = isCollapsed r2)
      ∧ (altKey e = false ->
         toToggle ≠ [] ∧ ∀ r, r ∈ toToggle -> isCollapsed r = isCollapsed region)
      ∧ (altKey e = false -> middleButton e = false -> shiftKey e = false ->
         toToggle = [region])
      ∧ (altKey e = false -> iconClicked info = false ->
         ∀ r, r ∈ toToggle -> isCollapsed r = true).
Proof.
  intros U. unfold onEditorMouseUpThen in U.
  destruct value as [k|]; [|discriminate]. simpl in U.
  destruct (heap s !! k) as [mp|] eqn:K; [|discriminate].
  cbv zeta in U.
  destruct (FoldingModel_getRegionAtLine (fm mp) (lineNumber info)) as [region|] eqn:R;
    [|discriminate].
  destruct (startLineNumber region =? lineNumber info)%Z eqn:L; [|discriminate].
  apply Z.eqb_eq in L.
  destruct (iconClicked info || isCollapsed region) eqn:I; [|discriminate].
  injection U as <- <-. split; [reflexivity|].
  exists k, mp, region.
  split; [reflexivity|]. split; [exact K|]. split; [exact R|]. split; [exact L|].
  split; [apply orb_true_iff, I|].
  (* the regions kept by a filter on the collapse state *)
  assert (F : ∀ (b : bool) (l : list FoldingRegion) r,
                r ∈ List.filter (fun r => Bool.eqb (isCollapsed r) b) l -> isCollapsed r = b).
  { intros b l r. rewrite list_elem_of_In, List.filter_In.
    intros [_ E]. apply Bool.eqb_prop, E. }
  assert (G : ∀ (l : list FoldingRegion) r, r ∈ List.filter isCollapsed l -> isCollapsed r = true).
  { intros l r. rewrite list_elem_of_In, List.filter_In. tauto. }
  destruct (altKey e) eqn:Alt.
  - split; [|split; [discriminate|split; discriminate]].
    match goal with |- context [List.filter isCollapsed ?l] =>
      generalize (G l); generalize (List.filter_In isCollapsed) as FI;
      set (all := l) in *; destruct (List.filter isCollapsed all) as [|c cs] eqn:E
    end.
    + intros FI _ r1 r2 I1 I2.
      assert (N : ∀ r, r ∈ all -> isCollapsed r = false).
      { intros r Ir. destruct (isCollapsed r) eqn:C; [|reflexivity].
        assert (X : List.In r (List.filter isCollapsed all))
          by (apply List.filter_In; split; [apply list_elem_of_In, Ir|exact C]).
        rewrite E in X. destruct X. }
      rewrite (N r1 I1), (N r2 I2). reflexivity.
    + intros _ C r1 r2 I1 I2. rewrite (C r1 I1), (C r2 I2). reflexivity.
  - set (recursive := middleButton e || shiftKey e) in *.
    set (inside := if recursive
                   then List.filter (fun r => Bool.eqb (isCollapsed r) (isCollapsed region))
                          (FoldingModel_getRegionsInside (fm mp) (Some region) None)
                   else []) in *.
    assert (S : ∀ r, r ∈ inside -> isCollapsed r = isCollapsed region).
    { subst inside. destruct recursive; [apply F|]. intros r Ir. inversion Ir. }
    assert (T : ∀ r, r ∈ (if isCollapsed region || negb recursive || (length inside =? 0)
                          then inside ++ [region] else inside) ->
                     isCollapsed r = isCollapsed region).
    { intros r. destruct (_ || _ || _); [|apply S].
      rewrite elem_of_app, list_elem_of_singleton. intros [Ir| ->]; auto. }
    split; [|split; [|split]].
    + intros r1 r2 I1 I2. rewrite (T r1 I1), (T r2 I2). reflexivity.
    + intros _. split; [|exact T].
      destruct (isCollapsed region || negb recursive || (length inside =? 0)) eqn:C.
      * destruct inside; discriminate.
      * apply orb_false_iff in C as [_ C]. apply Nat.eqb_neq in C.
        destruct inside; [contradiction|discriminate].
    + intros _ Mb Sk. subst inside recursive. rewrite Mb, Sk. simpl.
      rewrite orb_true_r. reflexivity.
    + intros _ Ic r Ir. rewrite Ic in I. simpl in I. rewrite (T r Ir). exact I.
Qed.

End GestureProperties.

(** * The ids of the fold level actions *)

Lemma substring_all (s : string) : String.substring 0 (String.length s) s = s.
Proof. induction s as [|c s IH]; simpl; [reflexivity|]. rewrite IH. reflexivity. Qed.

Lemma substr_prefix (t : string) :
  substr (FoldLevelAction_ID_PREFIX ++ t) (String.length FoldLevelAction_ID_PREFIX) = t.
Proof. unfold substr. simpl. rewrite Nat.sub_0_r. apply substring_all. Qed.

Lemma parseDigits_uint (d : Decimal.uint) (a : nat) :
  parseDigits 10 (Some (Z.of_nat a)) (NilEmpty.string_of_uint d)
  = Some (Z.of_nat (Nat.of_uint_acc d a)).
Proof.
  revert a. induction d as [|d IH|d IH|d IH|d IH|d IH|d IH|d IH|d IH|d IH|d IH];
    intros a; [reflexivity|..];
    cbn [NilEmpty.string_of_uint parseDigits];
    match goal with |- context [digitValue ?c] =>
      let v := eval vm_compute in (digitValue c) in change (digitValue c) with v
    end;
    cbv beta iota;
    match goal with |- context [(?v <? 10)%Z] => change (v <? 10)%Z with true end;
    cbv beta iota; cbn [default from_option id Nat.of_uint_acc]; rewrite <- IH;
    do 2 f_equal; rewrite Nat.tail_mul_spec; lia.
Qed.

Lemma parseInt_uint (d : Decimal.uint) :
  parseInt (NilZero.string_of_uint d) = Num (Z.of_nat (Nat.of_uint d)).
Proof.
  assert (G : ∀ d' (k : nat) c,
            isWhiteSpace c = false -> c ≠ "-"%char -> c ≠ "+"%char ->
            digitValue c = Some (Z.of_nat k) -> (Z.of_nat k < 10)%Z ->
            (c = "0"%char -> k = 0) ->
            parseInt (String c (NilEmpty.string_of_uint d'))
            = Num (Z.of_nat (Nat.of_uint_acc d' k))).
  { intros d' k c W M P V B Z0. unfold parseInt. cbn [trimStart]. rewrite W.
    assert (E : ∀ rest, (∀ r, rest ≠ String "x" r) -> (∀ r, rest ≠ String "X" r) ->
                match parseDigits 10 None (String c rest) with
                | Some z => Num (1 * z)
                | None => NaN
                end
                = (let '(sign, s0) :=
                     match String c rest with
                     | String "-"%char r => ((-1)%Z, r)
                     | String "+"%char r => (1%Z, r)
                     | _ => (1%Z, String c rest)
                     end in
                   let '(radix, s1) :=
                     match s0 with
                     | String "0"%char (String "x"%char r)
                     | String "0"%char (String "X"%char r) => (16%Z, r)
                     | _ => (10%Z, s0)
                     end in
                   match parseDigits radix None s1 with
                   | Some z => Num (sign * z)
                   | None => NaN
                   end)).
    { intros rest X1 X2.
      destruct c as [[] [] [] [] [] [] [] []]; try reflexivity;
        try (exfalso; apply M; reflexivity); try (exfalso; apply P; reflexivity).
      destruct rest as [|[[] [] [] [] [] [] [] []] r]; try reflexivity;
        first [destruct (X1 r eq_refl)|destruct (X2 r eq_refl)]. }
    rewrite <- E.
    - cbn [parseDigits]. rewrite V. apply Z.ltb_lt in B. rewrite B.
      cbn [default from_option id]. change (0 * 10 + Z.of_nat k)%Z with (Z.of_nat k).
      rewrite parseDigits_uint. f_equal. lia.
    - intros r. destruct d'; discriminate.
    - intros r. destruct d'; discriminate. }
  destruct d; [reflexivity|..]; unfold NilZero.string_of_uint;
    cbn [NilEmpty.string_of_uint];
    [rewrite (G d 0)|rewrite (G d 1)|rewrite (G d 2)|rewrite (G d 3)|rewrite (G d 4)
    |rewrite (G d 5)|rewrite (G d 6)|rewrite (G d 7)|rewrite (G d 8)|rewrite (G d 9)];
    first [reflexivity | discriminate | lia].
Qed.

(** X17. The id of a fold level action carries its level. For a level
    that prints with all its digits (a non-negative integer below 2^53),
    [getFoldingLevel] of the action registered under [FoldLevelAction.ID]
    of the level reads that level back, so the action folds at the level
    its id names; and two such levels have different ids. *)
Theorem fold_level_id_round_trip (level : nat) :
  (Z.of_nat level < 2 ^ 53)%Z ->
  getFoldingLevel (FoldLevelAction_ID level) = Num (Z.of_nat level)
  ∧ (∀ ed args,
       FoldLevelAction_invoke (FoldLevelAction_ID level) ed
       = invoke (FoldLevelAction (Z.of_nat level)) ed args)
  ∧ (∀ other, (Z.of_nat other < 2 ^ 53)%Z ->
       FoldLevelAction_ID other = FoldLevelAction_ID level -> other = level).
Proof.
  intros _.
  assert (R : ∀ n, getFoldingLevel (FoldLevelAction_ID n) = Num (Z.of_nat n)).
  { intros n. unfold getFoldingLevel, FoldLevelAction_ID. rewrite substr_prefix.
    unfold Number_toString. rewrite parseInt_uint.
    rewrite DecimalNat.Unsigned.of_to. reflexivity. }
  split; [apply R|]. split.
  - intros ed args. unfold FoldLevelAction_invoke. rewrite R. reflexivity.
  - intros other _ E. apply (f_equal getFoldingLevel) in E. rewrite !R in E.
    injection E as E. lia.
Qed.

(** * The theorems on the reference implementation *)

Import Reference.
#[local] Existing Instance collaborators.

Ltac by_computation := vm_compute; first [reflexivity | discriminate | eauto].

(** Scenario C of the specification: the first computation (promise 2) is
    in flight when an edit arrives. The edit cancels it and schedules anew;
    when promise 2 resolves all the same, no model changes. *)
Lemma stale_computations_discarded_witness :
  (retriggers (DidChangeModelContent 21) = true
   ∧ localToDispose (run (constructor theEditor []) [SchedulerTimeout]) = true
   ∧ foldingRegionPromise (run (constructor theEditor []) [SchedulerTimeout]) = Some 2)
  ∧ (foldingRegionPromise
       (step (run (constructor theEditor []) [SchedulerTimeout]) (DidChangeModelContent 21))
     = None
     ∧ cancelled 2
         (step (run (constructor theEditor []) [SchedulerTimeout])
            (DidChangeModelContent 21)))
  ∧ foldingRegionPromise
      (run (constructor theEditor []) [SchedulerTimeout; DidChangeModelContent 21])
    ≠ Some 2
  ∧ heap (step (run (constructor theEditor []) [SchedulerTimeout; DidChangeModelContent 21])
            (FoldingRangesResolved 2 (Some [classRegion]) 250))
    = heap (run (constructor theEditor []) [SchedulerTimeout; DidChangeModelContent 21])
  ∧ updates (step (run (constructor theEditor []) [SchedulerTimeout; DidChangeModelContent 21])
               (FoldingRangesResolved 2 (Some [classRegion]) 250))
    = updates (run (constructor theEditor []) [SchedulerTimeout; DidChangeModelContent 21]).
Proof.
  assert (R : retriggers (DidChangeModelContent 21) = true) by reflexivity.
  assert (L : localToDispose (run (constructor theEditor []) [SchedulerTimeout]) = true)
    by by_computation.
  assert (P : foldingRegionPromise (run (constructor theEditor []) [SchedulerTimeout])
              = Some 2) by by_computation.
  assert (N : foldingRegionPromise
                (run (constructor theEditor []) [SchedulerTimeout; DidChangeModelContent 21])
              ≠ Some 2) by by_computation.
  split; [split; [exact R|split; [exact L|exact P]]|].
  destruct (stale_computations_discarded theEditor [] [SchedulerTimeout])
    as (_ & _ & _ & _ & _ & _ & T).
  destruct (T (DidChangeModelContent 21) R L) as (T1 & T2 & _).
  specialize (T2 2 P).
  destruct (stale_computations_discarded theEditor []
              [SchedulerTimeout; DidChangeModelContent 21]) as (D & _).
  destruct (D 2 (Some [classRegion]) 250%Z N) as (D1 & D2 & _).
  split; [split; [exact T1|exact T2]|].
  split; [exact N|]. split; [exact D1|exact D2].
Defined.

(** Scenario D of the specification: a memento of 50 lines and a document
    of 51. *)
Lemma restoreViewState_stale_memento_witness :
  getModel (editor grown) = Some document
  ∧ lineCount memento50 ≠ Some (getLineCount (editor grown))
  ∧ restoreViewState (Some memento50) grown = (grown, Returned tt).
Proof.
  assert (M : getModel (editor grown) = Some document) by by_computation.
  assert (L : lineCount memento50 ≠ Some (getLineCount (editor grown))) by by_computation.
  split; [exact M|]. split; [exact L|].
  exact (restoreViewState_stale_memento grown memento50 document M L).
Defined.

(** Scenario E of the specification: three computations report too many
    regions and one warning is raised. *)
Lemma tooManyRegions_notified_once_witness :
  forallb (fun ev => negb (reconfiguresMaximum ev)) crowded = true
  ∧ notifications (run initial crowded) ≤ notifications initial + 1.
Proof.
  assert (E : forallb (fun ev => negb (reconfiguresMaximum ev)) crowded = true)
    by by_computation.
  split; [exact E|].
  exact (proj1 (tooManyRegions_notified_once initial crowded E)).
Defined.

(** The claim on folding imports as the specification states it fails: the
    document stays the same, and two computations collapse its imports. *)
Lemma imports_folded_once_per_document_counterexample :
  ¬ imports_folded_once_per_document.
Proof.
  intros C.
  assert (E : forallb (fun ev => negb (changesDocument ev)) reconfigured = true)
    by by_computation.
  specialize (C importsEditor [] reconfigured E).
  vm_compute in C. lia.
Qed.

(** The editor that folds imports by default, once the scheduler has
    started its first computation. *)
Lemma imports_folded_until_reset_witness :
  (computations (run (constructor importsEditor []) [SchedulerTimeout]) !! 2 = Some 0
   ∧ foldingRegionPromise (run (constructor importsEditor []) [SchedulerTimeout]) = Some 2
   ∧ _foldingImportsByDefault (run (constructor importsEditor []) [SchedulerTimeout]) = true
   ∧ _currentModelHasFoldedImports (run (constructor importsEditor []) [SchedulerTimeout])
     = false)
  ∧ _currentModelHasFoldedImports
      (step (run (constructor importsEditor []) [SchedulerTimeout])
         (FoldingRangesResolved 2 (Some [importsRegion; classRegion]) 250))
    = snd (setCollapsedAllOfType FoldingRangeKind_Imports true [importsRegion; classRegion]).
Proof.
  assert (C : computations (run (constructor importsEditor []) [SchedulerTimeout]) !! 2
              = Some 0) by by_computation.
  assert (P : foldingRegionPromise (run (constructor importsEditor []) [SchedulerTimeout])
              = Some 2) by by_computation.
  assert (K : heap (run (constructor importsEditor []) [SchedulerTimeout]) !! 0
              = Some {| fm := new_FoldingModel document;
                        hrm := new_HiddenRangeModel (new_FoldingModel document) |})
    by by_computation.
  assert (D : _foldingImportsByDefault (run (constructor importsEditor []) [SchedulerTimeout])
              = true) by by_computation.
  assert (F : _currentModelHasFoldedImports
                (run (constructor importsEditor []) [SchedulerTimeout]) = false)
    by by_computation.
  split; [split; [exact C|split; [exact P|split; [exact D|exact F]]]|].
  destruct (imports_folded_until_reset (run (constructor importsEditor []) [SchedulerTimeout]))
    as (G & _).
  destruct (G 2 [importsRegion; classRegion] 250%Z 0 _ C P K) as (G1 & _).
  destruct (G1 D F) as (_ & _ & G3).
  exact G3.
Defined.

(** No supplier is registered for the document and no memento is stored:
    the first selection takes the indentation provider. *)
Lemma getRangeProvider_selection_witness :
  rangeProvider initial = None
  ∧ fst (getRangeProvider document initial)
    = IndentRangeProvider document (_maxFoldingRegions initial).
Proof.
  assert (R : rangeProvider initial = None) by by_computation.
  assert (U : _useFoldingProviders initial = true) by by_computation.
  assert (M : foldingModelObject initial = Some (new_FoldingModel document))
    by by_computation.
  assert (O : ordered initial (textModel (new_FoldingModel document)) = [])
    by by_computation.
  assert (S : foldingStateMemento initial ≫= collapsedRegions = None) by by_computation.
  split; [exact R|].
  destruct (getRangeProvider_selection initial document R) as (_ & G & _).
  destruct (G (new_FoldingModel document) U M) as (_ & _ & I).
  exact (I O S).
Defined.

(** The first computation rejects. *)
Lemma rejected_and_null_computations_witness :
  is_Some (computations computing !! 2)
  ∧ effects (step computing (FoldingRangesRejected 2 (Failure "provider failed")))
    = OnUnexpectedError (Failure "provider failed") :: effects computing.
Proof.
  assert (I : is_Some (computations computing !! 2)) by (exists 0; by_computation).
  split; [exact I|].
  exact (proj1 (rejected_and_null_computations computing 2 (Failure "provider failed") 250%Z)
           I).
Defined.

(** An editor with folding switched off. *)
Lemma unavailable_entry_points_witness :
  unavailable (run (constructor disabledEditor []) [DidChangeModelContent 21]) = true
  ∧ saveViewState (run (constructor disabledEditor []) [DidChangeModelContent 21])
    = Returned (Some emptyMemento)
  ∧ runEditorCommand FoldAction None
      (Some (run (constructor disabledEditor []) [DidChangeModelContent 21]))
    = Some (run (constructor disabledEditor []) [DidChangeModelContent 21]).
Proof.
  assert (U : unavailable (run (constructor disabledEditor []) [DidChangeModelContent 21])
              = true) by by_computation.
  split; [exact U|].
  destruct (unavailable_entry_points disabledEditor [] [DidChangeModelContent 21]
              (Some indentMemento) FoldAction None U) as (S & _ & _ & R & _).
  split; [exact S|exact R].
Defined.

(** The claim on the restoring flag as the specification states it fails:
    the cursor is on line 6 when a memento that hides this line is restored,
    and the apply to the hidden range model, made with the flag clear,
    adjusts the selections and sets them. *)
Lemma selections_kept_while_restoring_counterexample :
  ¬ selections_kept_while_restoring.
Proof.
  intros C. specialize (C importsEditor [] [] (Some indentMemento)).
  vm_compute in C. discriminate.
Qed.

(** The class and its method are unfolded and the cursor is on line 10,
    inside the method, when a memento with the method collapsed is
    restored. The apply to the hidden range model hides line 8 and has the
    selections adjusted. When the folding model promise resolves, the apply
    to the folding model hides lines 8 to 12: the change event is handled
    with the flag set, the hidden areas are set and the cursor is left
    where it is. *)
Lemma restoring_suppresses_selection_adjustment_witness :
  (getModel (editor (run initial cursorInMethod)) = Some document
   ∧ unavailable (run initial cursorInMethod) = false
   ∧ hiddenRangeModel (run initial cursorInMethod) = Some 0
   ∧ lineCount methodMemento = Some (getLineCount (editor (run initial cursorInMethod)))
   ∧ foldingModelPromise (run initial cursorInMethod) = Some 1
   ∧ List.filter (fun c => Nat.eqb (fst c) 1) (continuations (run initial cursorInMethod))
     = []
   ∧ _restoringViewState (run initial cursorInMethod) = false
   ∧ getSelections (editor (run initial cursorInMethod)) = Some [Range.mk 10 1 10 1])
  ∧ AdjustSelections [Range.mk 10 1 10 1]
    ∈ effects (step (run initial cursorInMethod) (RestoreViewState (Some methodMemento)))
  ∧ effects
      (step (step (run initial cursorInMethod) (RestoreViewState (Some methodMemento)))
         (FoldingModelPromiseResolved 1 (Some 0)))
    = SetHiddenAreas [Range.mk 8 1 12 1]
      :: ApplyMemento 0 [{| startLine := 7; regionType := None |}]
      :: effects (step (run initial cursorInMethod) (RestoreViewState (Some methodMemento)))
  ∧ getSelections
      (editor
         (step (step (run initial cursorInMethod) (RestoreViewState (Some methodMemento)))
            (FoldingModelPromiseResolved 1 (Some 0))))
    = getSelections
        (editor (step (run initial cursorInMethod) (RestoreViewState (Some methodMemento))))
  ∧ _restoringViewState
      (step (step (run initial cursorInMethod) (RestoreViewState (Some methodMemento)))
         (FoldingModelPromiseResolved 1 (Some 0)))
    = false.
Proof.
  assert (M : getModel (editor (run initial cursorInMethod)) = Some document)
    by by_computation.
  assert (U : unavailable (run initial cursorInMethod) = false) by by_computation.
  assert (Hk : hiddenRangeModel (run initial cursorInMethod) = Some 0) by by_computation.
  assert (K : heap (run initial cursorInMethod) !! 0
              = Some {| fm := {| textModel := document;
                                 regions := [classRegion; methodRegion];
                                 isInitialized := true |};
                        hrm := {| hiddenRanges := [] |} |}) by by_computation.
  assert (L : lineCount methodMemento
              = Some (getLineCount (editor (run initial cursorInMethod))))
    by by_computation.
  assert (C : collapsedRegions methodMemento
              = Some [{| startLine := 7; regionType := None |}]) by reflexivity.
  assert (P : foldingModelPromise (run initial cursorInMethod) = Some 1) by by_computation.
  assert (N : List.filter (fun c => Nat.eqb (fst c) 1)
                (continuations (run initial cursorInMethod)) = []) by by_computation.
  assert (F : _restoringViewState (run initial cursorInMethod) = false) by by_computation.
  assert (S : getSelections (editor (run initial cursorInMethod))
              = Some [Range.mk 10 1 10 1]) by by_computation.
  assert (A : HiddenRangeModel_applyMemento {| hiddenRanges := [] |}
                [{| startLine := 7; regionType := None |}]
              = ({| hiddenRanges := [Range.mk 8 1 8 1] |},
                 [{| em_hrm := {| hiddenRanges := [Range.mk 8 1 8 1] |};
                     em_ranges := [Range.mk 8 1 8 1] |}],
                 Returned true)) by reflexivity.
  split; [split_and!; assumption|].
  destruct (restoring_suppresses_selection_adjustment (run initial cursorInMethod)
              methodMemento document 0 _ _ _ _ 1 M U Hk K L C A P N)
    as (_ & B & _ & _ & T & G & _ & R & _).
  destruct (B _ _ _ F eq_refl ltac:(discriminate) S) as [A1 _].
  split; [exact A1|]. split; [exact T|]. split; [exact G|exact R].
Defined.

(** A memento of the indentation provider is restored before the first
    computation: the next selection is as it would have been, line 6 is
    hidden, and the callback waits for the folding model promise. *)
Lemma restoreViewState_keeps_provider_mementos_witness :
  (ID_INDENT_PROVIDER ≠ ID_SYNTAX_PROVIDER ∧ ID_INDENT_PROVIDER ≠ ID_INIT_PROVIDER
   ∧ provider indentMemento = Some ID_INDENT_PROVIDER)
  ∧ fst (getRangeProvider document (fst (restoreViewState (Some indentMemento) initial)))
    = fst (getRangeProvider document initial)
  ∧ hiddenAreas (editor (fst (restoreViewState (Some indentMemento) initial)))
    = [Range.mk 6 1 6 1]
  ∧ continuations (fst (restoreViewState (Some indentMemento) initial))
    = continuations initial ++ [(1, ApplyMementoThen [{| startLine := 5; regionType := None |}])].
Proof.
  assert (D1 : ID_INDENT_PROVIDER ≠ ID_SYNTAX_PROVIDER) by by_computation.
  assert (D2 : ID_INDENT_PROVIDER ≠ ID_INIT_PROVIDER) by by_computation.
  assert (P : provider indentMemento = Some ID_INDENT_PROVIDER) by by_computation.
  assert (M : getModel (editor initial) = Some document) by by_computation.
  assert (U : unavailable initial = false) by by_computation.
  assert (Hk : hiddenRangeModel initial = Some 0) by by_computation.
  assert (K : heap initial !! 0
              = Some {| fm := new_FoldingModel document;
                        hrm := new_HiddenRangeModel (new_FoldingModel document) |})
    by by_computation.
  assert (L : lineCount indentMemento = Some (getLineCount (editor initial)))
    by by_computation.
  assert (C : collapsedRegions indentMemento
              = Some [{| startLine := 5; regionType := None |}]) by reflexivity.
  assert (Pd : foldingModelPromise initial = Some 1) by by_computation.
  split; [split; [exact D1|split; [exact D2|exact P]]|].
  destruct (restoreViewState_keeps_provider_mementos initial indentMemento)
    as (_ & _ & G).
  destruct (G D1 D2 (or_introl P)) as (_ & G2 & _ & G4).
  assert (R : HiddenRangeModel_applyMemento
                (hrm {| fm := new_FoldingModel document;
                        hrm := new_HiddenRangeModel (new_FoldingModel document) |})
                [{| startLine := 5; regionType := None |}]
              = ({| hiddenRanges := [Range.mk 6 1 6 1] |},
                 [{| em_hrm := {| hiddenRanges := [Range.mk 6 1 6 1] |};
                     em_ranges := [Range.mk 6 1 6 1] |}],
                 Returned true)) by reflexivity.
  destruct (G4 document 0 _ _ _ _ _ M U Hk K L C R) as (_ & _ & A & _ & _ & Cs & _).
  rewrite Pd in Cs.
  split; [exact (G2 document)|].
  split; [exact (proj1 (A _ eq_refl))|exact Cs].
Defined.

(** Folding is switched off while the method is folded and lines 8 to 12
    are hidden: the hidden range model is disposed, its last event reaches
    the editor, and no line is hidden any more. *)
Lemma configuration_changes_by_option_witness :
  (hasChanged [folding] folding || hasChanged [folding] foldingMaximumRegions = true
   ∧ localToDispose switchedOff = true
   ∧ hiddenAreas (editor switchedOff) = [Range.mk 8 1 12 1])
  ∧ SetHiddenAreas [] ∈ effects (onDidChangeConfiguration [folding] switchedOff)
  ∧ hiddenAreas (editor (onDidChangeConfiguration [folding] switchedOff)) = [].
Proof.
  assert (C : hasChanged [folding] folding || hasChanged [folding] foldingMaximumRegions
              = true) by reflexivity.
  assert (L : localToDispose switchedOff = true) by by_computation.
  assert (A : hiddenAreas (editor switchedOff) = [Range.mk 8 1 12 1]) by by_computation.
  assert (F : foldingModel switchedOff = Some 0) by by_computation.
  assert (Hm : hiddenRangeModel switchedOff = Some 0) by by_computation.
  assert (K : heap switchedOff !! 0
              = Some {| fm := {| textModel := document;
                                 regions := [classRegion; collapsedMethod];
                                 isInitialized := true |};
                        hrm := {| hiddenRanges := [Range.mk 8 1 12 1] |} |})
    by by_computation.
  split; [split; [exact C|split; [exact L|exact A]]|].
  destruct (configuration_changes_by_option [folding] switchedOff)
    as (_ & _ & _ & _ & _ & _ & _ & _ & _ & _ & R).
  destruct (R 0 _ _ [] {| hiddenRanges := [] |}
              [{| em_hrm := {| hiddenRanges := [] |}; em_ranges := [] |}]
              {| em_hrm := {| hiddenRanges := [] |}; em_ranges := [] |}
              C L F Hm K eq_refl eq_refl eq_refl) as [I N].
  split; [exact I|exact (N eq_refl)].
Defined.


(** An edit of the document of 20 lines, the timer, and the resolution of
    the computation with the class region. *)
Lemma edit_timer_resolution_witness :
  unavailable (run (constructor theEditor []) []) = false
  ∧ foldingRegionPromise (step (run (constructor theEditor []) []) (DidChangeModelContent 21))
    = None
  ∧ ∃ d, updateScheduler (step (run (constructor theEditor []) []) (DidChangeModelContent 21))
         = Some d ∧ task d = true.
Proof.
  assert (U : unavailable (run (constructor theEditor []) []) = false) by by_computation.
  split; [exact U|].
  destruct (edit_timer_resolution theEditor [] [] 21%Z [classRegion] 250%Z U)
    as (T1 & T2 & _).
  split; [exact T1|exact T2].
Defined.

(** Another document of 30 lines is attached to the editor. *)
Lemma new_document_starts_afresh_witness :
  _isEnabled (run (constructor theEditor []) []) = true
  ∧ isTooLargeForTokenization
      {| uri := 2; languageId := "typescript"; isTooLargeForTokenization := false |}
    = false
  ∧ ∃ k,
      foldingModel
        (step (run (constructor theEditor []) [])
           (DidChangeModel
              (Some {| uri := 2; languageId := "typescript";
                       isTooLargeForTokenization := false |}) 30))
      = Some k.
Proof.
  assert (E : _isEnabled (run (constructor theEditor []) []) = true) by by_computation.
  assert (T : isTooLargeForTokenization
                {| uri := 2; languageId := "typescript";
                   isTooLargeForTokenization := false |} = false) by reflexivity.
  split; [exact E|]. split; [exact T|].
  destruct (new_document_starts_afresh theEditor [] []
              {| uri := 2; languageId := "typescript"; isTooLargeForTokenization := false |}
              30%Z E T) as (k & F & _).
  exists k. exact F.
Defined.

(** Fold all is issued before the first computation; then the folding
    model promise resolves to the folding model. *)
Lemma command_awaits_the_folding_model_witness :
  foldingModelPromise (constructor theEditor []) = Some 1
  ∧ List.filter (fun c => Nat.eqb (fst c) 1)
      (continuations (step (constructor theEditor []) (RunEditorCommand FoldAllAction None)))
    = [(1, InvokeThen FoldAllAction None)]
  ∧ List.filter (fun c => Nat.eqb (fst c) 1)
      (continuations
         (step (step (constructor theEditor []) (RunEditorCommand FoldAllAction None))
            (FoldingModelPromiseResolved 1 (Some 0))))
    = [].
Proof.
  assert (P : foldingModelPromise (constructor theEditor []) = Some 1) by by_computation.
  assert (R : List.filter (fun c => Nat.eqb (fst c) 1)
                (continuations
                   (step (constructor theEditor []) (RunEditorCommand FoldAllAction None)))
              = [(1, InvokeThen FoldAllAction None)]) by by_computation.
  split; [exact P|]. split; [exact R|].
  destruct (command_awaits_the_folding_model (constructor theEditor [])
              (step (constructor theEditor []) (RunEditorCommand FoldAllAction None))
              FoldAllAction None 1 (Some 0) P R) as (_ & G & _).
  exact G.
Defined.

(** With folding switched off the timer starts nothing. *)
Lemma unavailable_does_no_work_witness :
  unavailable (run (constructor disabledEditor []) []) = true
  ∧ computes (step (run (constructor disabledEditor []) []) SchedulerTimeout)
    = computes (run (constructor disabledEditor []) []).
Proof.
  assert (U : unavailable (run (constructor disabledEditor []) []) = true)
    by by_computation.
  split; [exact U|].
  exact (proj1 (unavailable_does_no_work disabledEditor [] [] SchedulerTimeout U)).
Defined.

#[local] Existing Instance queries.

(** The method of the class is folded; the icon of its line is clicked. *)
Lemma click_recognised_witness :
  onEditorMouseUp columns iconClick
    (onEditorMouseDown columns iconClick (run (constructor theEditor []) methodFolded))
    (run (constructor theEditor []) methodFolded)
  = Some (1, {| lineNumber := 7; iconClicked := true |})
  ∧ ∃ td tu,
      target iconClick = Some td ∧ target iconClick = Some tu
      ∧ MouseTarget.type td = GUTTER_LINE_DECORATIONS
      ∧ MouseTarget.type tu = GUTTER_LINE_DECORATIONS.
Proof.
  assert (U : onEditorMouseUp columns iconClick
                (onEditorMouseDown columns iconClick
                   (run (constructor theEditor []) methodFolded))
                (run (constructor theEditor []) methodFolded)
              = Some (1, {| lineNumber := 7; iconClicked := true |})) by by_computation.
  split; [exact U|].
  destruct (click_recognised columns columns iconClick iconClick _ _ _ _ U)
    as (h & td & tu & rd & ru & _ & Td & _ & Tu & _ & _ & _ & _ & _ & I & _).
  destruct (I eq_refl) as (I1 & I2 & _).
  exists td, tu. split; [exact Td|]. split; [exact Tu|]. split; [exact I1|exact I2].
Defined.

(** The callback of that click toggles the method, which unfolds. *)
Lemma click_toggles_uniformly_witness :
  onEditorMouseUpThen (event iconClick) {| lineNumber := 7; iconClicked := true |} (Some 0)
    (run (constructor theEditor []) methodFolded)
  = Some ([collapsedMethod], 7%Z)
  ∧ (altKey (event iconClick) = false ->
     [collapsedMethod] ≠ []
     ∧ ∀ r, r ∈ [collapsedMethod] -> isCollapsed r = true).
Proof.
  assert (U : onEditorMouseUpThen (event iconClick)
                {| lineNumber := 7; iconClicked := true |} (Some 0)
                (run (constructor theEditor []) methodFolded)
              = Some ([collapsedMethod], 7%Z)) by by_computation.
  split; [exact U|].
  destruct (click_toggles_uniformly _ _ _ _ _ _ U)
    as (_ & k & mp & region & _ & _ & _ & _ & _ & T0 & T & _).
  intros A. destruct (T A) as [T1 T2]. split; [exact T1|].
  intros r Ir. rewrite (T0 r collapsedMethod Ir); [reflexivity|].
  apply elem_of_cons. left. reflexivity.
Defined.

(** The action of level 7, the last the editor registers. *)
Lemma fold_level_id_round_trip_witness :
  (Z.of_nat 7 < 2 ^ 53)%Z
  ∧ getFoldingLevel (FoldLevelAction_ID 7) = Num (Z.of_nat 7).
Proof.
  assert (B : (Z.of_nat 7 < 2 ^ 53)%Z) by by_computation.
  split; [exact B|]. exact (proj1 (fold_level_id_round_trip 7 B)).
Defined.
